(** * Onboarding state of kernel-bot: UserState, UserStateManager, OnboardingConfig

    A shallow embedding of
      src/onboarding/models/UserState.js
      src/onboarding/managers/UserStateManager.js
      src/onboarding/models/OnboardingConfig.js

    JavaScript objects are finite maps from property names to values
    ([gmap string value]); the insertion-ordered [Map] of the manager and the
    object literals returned by [toJSON] are association lists, because
    their order is observable.  A method call looks the method up on the
    object ([invoke]): an own property of its name, which [Object.assign]
    can put there, shadows the method of the class and makes the call throw.
    [Object.assign] writes every property as a data property; what the
    inherited setter of [__proto__] does instead is approximated (a null
    value takes the methods away), and the statements about method calls
    keep to objects without that property.  The records of the [Map] are
    distinct objects, each reachable through its key only, so a record is
    kept in the map by value.

    Values are the primitives the schema uses: [undefined], [null],
    booleans, integer numbers and strings (UTF-8 bytes of the JavaScript
    string).  Fractional numbers and NaN literals are outside the universe;
    NaN as the result of a coercion is [None]. *)

From stdpp Require Import gmap strings list fin_maps.
From Stdlib Require Import ZArith Ascii String.

Local Open Scope string_scope.

(** ** Values of the language *)

Inductive value : Type :=
  | VUndefined
  | VNull
  | VBool (b : bool)
  | VNum (n : Z)
  | VStr (s : string).

#[global] Instance value_eq_dec : EqDecision value.
Proof. solve_decision. Defined.

(** [a === b] on primitives. *)
Definition strict_eq (a b : value) : bool := bool_decide (a = b).

(** ToBoolean: the truthiness used by [!x], [x || y] and [if (x)]. *)
Definition ToBoolean (v : value) : bool :=
  match v with
  | VUndefined | VNull => false
  | VBool b => b
  | VNum n => negb (n =? 0)%Z
  | VStr s => negb (bool_decide (s = EmptyString))
  end.

(** What the engine provides and the repository only calls. *)
Class Runtime : Type := {
  (* [new Date(t).toISOString()] for a time value [t] in milliseconds *)
  toISOString : Z -> string;
  (* [Date.parse(s)]; [None] is NaN (an invalid date) *)
  dateParse : string -> option Z;
  (* StringToNumber(s) compared with an integer; [None] when it is NaN *)
  stringNumberCompare : string -> Z -> option comparison;
}.

(** ** Objects *)

Abbreviation obj := (gmap string value).

(** [o.k]: a property that is not there reads as [undefined]. *)
Definition get (o : obj) (k : string) : value := default VUndefined (o !! k).

(** [Object.assign(target, source)]: every own property of [source] is
    written to [target], one after the other. *)
Definition Object_assign (target source : obj) : obj :=
  map_fold (fun k v t => <[k:=v]> t) target source.

(** Lookup in an object literal, whose members are listed in order. *)
Fixpoint assoc (k : string) (l : list (string * value)) : option value :=
  match l with
  | [] => None
  | (k', v) :: l' => if bool_decide (k' = k) then Some v else assoc k l'
  end.

(** ** UserState.js *)

Module UserState.
Section WithRuntime.
Context `{Runtime}.

(** [new UserState(userId, guildId)], the clock reading [now]. *)
Definition new (now : Z) (userId guildId : value) : obj :=
  <["remindersSent" := VNum 0]>
  (<["onboardingCompletedAt" := VNull]>
  (<["onboardingStartedAt" := VStr (toISOString now)]>
  (<["tutorialCompleted" := VBool false]>
  (<["githubUsername" := VNull]>
  (<["githubConnected" := VBool false]>
  (<["rulesAcknowledgedAt" := VNull]>
  (<["rulesAcknowledged" := VBool false]>
  (<["onboardingStep" := VStr "welcome"]>
  (<["guildId" := guildId]>
  (<["userId" := userId]> ∅)))))))))).

(** [UserState.fromJSON(data)]. *)
Definition fromJSON (now : Z) (data : obj) : obj :=
  let state := new now (get data "userId") (get data "guildId") in
  Object_assign state data.

(** [toJSON()]: an object literal. *)
Definition toJSON (this : obj) : list (string * value) :=
  [ ("userId", get this "userId");
    ("guildId", get this "guildId");
    ("onboardingStep", get this "onboardingStep");
    ("rulesAcknowledged", get this "rulesAcknowledged");
    ("rulesAcknowledgedAt", get this "rulesAcknowledgedAt");
    ("githubConnected", get this "githubConnected");
    ("githubUsername", get this "githubUsername");
    ("tutorialCompleted", get this "tutorialCompleted");
    ("onboardingStartedAt", get this "onboardingStartedAt");
    ("onboardingCompletedAt", get this "onboardingCompletedAt");
    ("remindersSent", get this "remindersSent") ].

(** [completeStep(step)]: the [switch] compares with [===]; the clock is
    read in the branches that stamp a time. *)
Definition completeStep (now : Z) (step : value) (this : obj) : obj :=
  if strict_eq step (VStr "rules") then
    <["onboardingStep" := VStr "github"]>
    (<["rulesAcknowledgedAt" := VStr (toISOString now)]>
    (<["rulesAcknowledged" := VBool true]> this))
  else if strict_eq step (VStr "github") then
    <["onboardingStep" := VStr "tutorial"]> this
  else if strict_eq step (VStr "tutorial") then
    <["onboardingCompletedAt" := VStr (toISOString now)]>
    (<["onboardingStep" := VStr "complete"]>
    (<["tutorialCompleted" := VBool true]> this))
  else this.

(** [isComplete()]. *)
Definition isComplete (this : obj) : bool :=
  strict_eq (get this "onboardingStep") (VStr "complete").

End WithRuntime.
End UserState.

(** ** Coercions used by the comparisons *)

Inductive exn : Type :=
  | TypeError                      (* calling what is not a function *)
  | SystemError (code : string)    (* a failed fs call; [code] is [error.code] *)
  | SyntaxError.                   (* JSON.parse on malformed text *)

#[global] Instance exn_eq_dec : EqDecision exn.
Proof. solve_decision. Defined.

Inductive completion (A : Type) : Type :=
  | Normal (a : A)
  | Throw (e : exn).
Arguments Normal {A} a.
Arguments Throw {A} e.

(** ** Method calls *)

(** Whether [this.name] still is the method of the class: not when the
    object has an own property of that name (a primitive here, whatever
    its value), nor when [__proto__] was assigned null, which leaves the
    object without a prototype. *)
Definition hasMethod (name : string) (this : obj) : bool :=
  bool_decide (this !! name = None)
  && negb (bool_decide (this !! "__proto__" = Some VNull)).

(** [this.name(...)] for the method [method] of the class of [this]:
    calling what is not a function throws a TypeError. *)
Definition invoke {A} (name : string) (method : obj -> A) (this : obj)
  : completion A :=
  if hasMethod name this then Normal (method this) else Throw TypeError.

Section Coercions.
Context `{Runtime}.
Local Open Scope Z_scope.

(** ToNumber(v) compared with the integer [r]; [None] when ToNumber(v)
    is NaN, for which [<], [>], [<=] and [>=] are all false. *)
Definition numberCompare (v : value) (r : Z) : option comparison :=
  match v with
  | VUndefined => None
  | VNull => Some (0 ?= r)
  | VBool b => Some ((if b then 1 else 0) ?= r)
  | VNum n => Some (n ?= r)
  | VStr s => stringNumberCompare s r
  end.

(** [v < r] and [v > r] for a number [r]. *)
Definition lessThan (v : value) (r : Z) : bool :=
  match numberCompare v r with Some Lt => true | _ => false end.
Definition greaterThan (v : value) (r : Z) : bool :=
  match numberCompare v r with Some Gt => true | _ => false end.

(** The time value of [new Date(v)]; [None] is an invalid date. *)
Definition newDate (v : value) : option Z :=
  match v with
  | VUndefined => None
  | VNull => Some 0
  | VBool b => Some (if b then 1 else 0)
  | VNum n => if Z.abs n <=? 8640000000000000 then Some n else None
  | VStr s => dateParse s
  end.
End Coercions.

(** ** String.prototype.trim on UTF-8 bytes *)

Module Trim.
Local Open Scope N_scope.

(** White space and line terminators of one, two and three bytes:
    U+0009..U+000D, U+0020; U+00A0; U+1680, U+2000..U+200A, U+2028,
    U+2029, U+202F, U+205F, U+3000, U+FEFF. *)
Definition ws1 (a : N) : bool := ((9 <=? a) && (a <=? 13)) || (a =? 32).
Definition ws2 (a b : N) : bool := (a =? 194) && (b =? 160).
Definition ws3 (a b c : N) : bool :=
  ((a =? 225) && (b =? 154) && (c =? 128))
  || ((a =? 226) && (b =? 128)
      && (((128 <=? c) && (c <=? 138)) || (c =? 168) || (c =? 169) || (c =? 175)))
  || ((a =? 226) && (b =? 129) && (c =? 159))
  || ((a =? 227) && (b =? 128) && (c =? 128))
  || ((a =? 239) && (b =? 187) && (c =? 191)).

(** Drop white space from the front; with [fwd = false] the list is a
    reversed string and each code point is read backwards. *)
Fixpoint strip (fwd : bool) (l : list N) : list N :=
  match l with
  | [] => []
  | a :: l1 =>
      if ws1 a then strip fwd l1 else
      match l1 with
      | [] => l
      | b :: l2 =>
          if (if fwd then ws2 a b else ws2 b a) then strip fwd l2 else
          match l2 with
          | [] => l
          | c :: l3 =>
              if (if fwd then ws3 a b c else ws3 c b a) then strip fwd l3
              else l
          end
      end
  end.

Definition bytes (s : string) : list N :=
  List.map N_of_ascii (list_ascii_of_string s).
Definition unbytes (l : list N) : string :=
  string_of_list_ascii (List.map ascii_of_N l).

Definition trim (s : string) : string :=
  unbytes (List.rev (strip false (List.rev (strip true (bytes s))))).
End Trim.

(** ** OnboardingConfig.js *)

Module OnboardingConfig.

Definition dquote : string := String (ascii_of_nat 34) EmptyString.

Definition getDefaultWelcomeMessage : string :=
  "¡Bienvenido/a al servidor! 👋

¡Nos alegra tenerte aquí! Para comenzar, necesitas:

1. 📋 Leer y aceptar las reglas del servidor
2. 🔗 Conectar tu cuenta de GitHub (opcional)
3. 📚 Completar un breve tutorial

Usa `/help` para ver todos los comandos disponibles.
¡Esperamos que disfrutes tu tiempo aquí!".

Definition getDefaultRulesContent : string :=
  "📋 **Reglas del Servidor**

**1. Respeto y Cortesía**
- Trata a todos los miembros con respeto
- No se toleran insultos, acoso o discriminación

**2. Contenido Apropiado**
- Mantén las conversaciones apropiadas para todos
- No spam ni contenido irrelevante

**3. Canales Temáticos**
- Usa los canales apropiados para cada tema
- Mantén las discusiones organizadas

**4. Código de Conducta para Desarrolladores**
- Comparte código de manera constructiva
- Ayuda a otros desarrolladores cuando sea posible
- Respeta las diferentes tecnologías y enfoques

**5. Privacidad y Seguridad**
- No compartas información personal
- No publiques credenciales o tokens

Al hacer clic en " ++ dquote ++ "Acepto" ++ dquote ++ ", confirmas que has leído y aceptas estas reglas.".

(** [new OnboardingConfig(guildId)]. *)
Definition new (guildId : value) : obj :=
  <["maxReminders" := VNum 3]>
  (<["reminderIntervalHours" := VNum 24]>
  (<["tutorialEnabled" := VBool true]>
  (<["githubIntegrationEnabled" := VBool true]>
  (<["rulesContent" := VStr getDefaultRulesContent]>
  (<["welcomeMessage" := VStr getDefaultWelcomeMessage]>
  (<["rulesChannelId" := VNull]>
  (<["welcomeChannelId" := VNull]>
  (<["guildId" := guildId]> ∅)))))))).

(** [OnboardingConfig.fromJSON(data)]. *)
Definition fromJSON (data : obj) : obj :=
  let config := new (get data "guildId") in
  Object_assign config data.

(** [toJSON()]. *)
Definition toJSON (this : obj) : list (string * value) :=
  [ ("guildId", get this "guildId");
    ("welcomeChannelId", get this "welcomeChannelId");
    ("rulesChannelId", get this "rulesChannelId");
    ("welcomeMessage", get this "welcomeMessage");
    ("rulesContent", get this "rulesContent");
    ("githubIntegrationEnabled", get this "githubIntegrationEnabled");
    ("tutorialEnabled", get this "tutorialEnabled");
    ("reminderIntervalHours", get this "reminderIntervalHours");
    ("maxReminders", get this "maxReminders") ].


Record ValidationResult : Type := {
  isValid : bool;
  errors : list string;
}.

Definition msgGuildId : string := "Guild ID es requerido".
Definition msgInterval : string :=
  "Intervalo de recordatorios debe estar entre 1 y 168 horas".
Definition msgMaxReminders : string :=
  "Máximo de recordatorios debe estar entre 0 y 10".
Definition msgWelcome : string :=
  "Mensaje de bienvenida no puede estar vacío".
Definition msgRules : string :=
  "Contenido de reglas no puede estar vacío".

(** [errors.push(msg)] under [if (cond)]. *)
Definition pushIf (cond : bool) (msg : string) (errors : list string)
  : list string :=
  if cond then (errors ++ [msg])%list else errors.

(** [!v || v.trim().length === 0]: a truthy value that is not a string
    has no [trim] method, and the call throws. *)
Definition isBlank (v : value) : completion bool :=
  if negb (ToBoolean v) then Normal true
  else match v with
       | VStr s => Normal (String.length (Trim.trim s) =? 0)%nat
       | _ => Throw TypeError
       end.

Section WithRuntime.
Context `{Runtime}.

(** [validate()]. *)
Definition validate (this : obj) : completion ValidationResult :=
  let errors := [] in
  let errors :=
    pushIf (negb (ToBoolean (get this "guildId"))) msgGuildId errors in
  let errors :=
    pushIf (lessThan (get this "reminderIntervalHours") 1
            || greaterThan (get this "reminderIntervalHours") 168)
           msgInterval errors in
  let errors :=
    pushIf (lessThan (get this "maxReminders") 0
            || greaterThan (get this "maxReminders") 10)
           msgMaxReminders errors in
  match isBlank (get this "welcomeMessage") with
  | Throw e => Throw e
  | Normal blankWelcome =>
      let errors := pushIf blankWelcome msgWelcome errors in
      match isBlank (get this "rulesContent") with
      | Throw e => Throw e
      | Normal blankRules =>
          let errors := pushIf blankRules msgRules errors in
          Normal {| isValid := (List.length errors =? 0)%nat;
                    errors := errors |}
      end
  end.
End WithRuntime.
End OnboardingConfig.

(** ** The insertion-ordered Map and ordered object literals *)

Section OrderedMap.
Context {V : Type}.

(** [m.get(k)]; [None] is [undefined]. *)
Fixpoint Map_get (k : string) (m : list (string * V)) : option V :=
  match m with
  | [] => None
  | (k', v') :: m' => if bool_decide (k' = k) then Some v' else Map_get k m'
  end.

(** [m.set(k, v)]: a key that is there keeps its place, a new key goes
    to the end. *)
Fixpoint Map_set (k : string) (v : V) (m : list (string * V))
  : list (string * V) :=
  match m with
  | [] => [(k, v)]
  | (k', v') :: m' =>
      if bool_decide (k' = k) then (k, v) :: m'
      else (k', v') :: Map_set k v m'
  end.

(** [m.delete(k)]; the keys of a [Map] are distinct. *)
Definition Map_delete (k : string) (m : list (string * V))
  : list (string * V) :=
  List.filter (fun p => negb (bool_decide (p.1 = k))) m.
End OrderedMap.

(** ** UserStateManager.js *)

Module UserStateManager.

(** userStates.json.  A document is what [saveUserStates] writes: a JSON
    object whose members are JSON objects of primitives, listed in textual
    order, with distinct keys of the form guild-user (so none is an array
    index, and [Object.entries] lists them in that order).  [Unreadable e]
    is a file for which [readFile] or [JSON.parse] throws [e]. *)
Inductive file : Type :=
  | Document (members : list (string * list (string * value)))
  | Unreadable (e : exn).

(** No file: [readFile] fails with code ENOENT. *)
Definition Absent : file := Unreadable (SystemError "ENOENT").

(** The manager ([userStates], [initialized]) and what it touches: the
    file, the outcome of [fs.mkdir] and [fs.writeFile], and the clock as
    the sequence of its successive readings. *)
Record state : Type := {
  userStates : list (string * obj);
  initialized : bool;
  userStatesFile : file;
  mkdirFault : option exn;
  writeFault : option exn;
  clock : nat -> Z;
  ticks : nat;
}.

Definition with_userStates (m : list (string * obj)) (s : state) : state :=
  {| userStates := m; initialized := initialized s;
     userStatesFile := userStatesFile s; mkdirFault := mkdirFault s;
     writeFault := writeFault s; clock := clock s; ticks := ticks s |}.
Definition with_initialized (b : bool) (s : state) : state :=
  {| userStates := userStates s; initialized := b;
     userStatesFile := userStatesFile s; mkdirFault := mkdirFault s;
     writeFault := writeFault s; clock := clock s; ticks := ticks s |}.
Definition with_userStatesFile (f : file) (s : state) : state :=
  {| userStates := userStates s; initialized := initialized s;
     userStatesFile := f; mkdirFault := mkdirFault s;
     writeFault := writeFault s; clock := clock s; ticks := ticks s |}.
Definition with_ticks (n : nat) (s : state) : state :=
  {| userStates := userStates s; initialized := initialized s;
     userStatesFile := userStatesFile s; mkdirFault := mkdirFault s;
     writeFault := writeFault s; clock := clock s; ticks := n |}.

(** A method body: it ends normally or throws, and leaves a state. *)
Definition M (A : Type) : Type := state -> completion A * state.

Definition ret {A} (a : A) : M A := fun s => (Normal a, s).
Definition bind {A B} (m : M A) (k : A -> M B) : M B :=
  fun s => match m s with
           | (Normal a, s') => k a s'
           | (Throw e, s') => (Throw e, s')
           end.
Definition throw {A} (e : exn) : M A := fun s => (Throw e, s).
(** [try { m } catch (error) { h error }]. *)
Definition try_catch {A} (m : M A) (h : exn -> M A) : M A :=
  fun s => match m s with
           | (Throw e, s') => h e s'
           | r => r
           end.
Definition gets {A} (f : state -> A) : M A := fun s => (Normal (f s), s).
Definition modify (f : state -> state) : M unit := fun s => (Normal tt, f s).

Notation "'let*' x := m 'in' k" := (bind m (fun x => k))
  (at level 10, x name, m at level 100, k at level 200, only parsing).
Notation "m >> k" := (bind m (fun _ => k))
  (at level 90, right associativity, only parsing).

(** [new Date()]: the next reading of the clock. *)
Definition currentTime : M Z :=
  fun s => (Normal (clock s (ticks s)), with_ticks (S (ticks s)) s).

(** [fs.mkdir(this.dataDir, { recursive: true })]. *)
Definition mkdir : M unit :=
  fun s => match mkdirFault s with
           | Some e => (Throw e, s)
           | None => (Normal tt, s)
           end.

(** [JSON.parse(await fs.readFile(this.userStatesFile, "utf8"))]. *)
Definition readDocument : M (list (string * list (string * value))) :=
  fun s => match userStatesFile s with
           | Document d => (Normal d, s)
           | Unreadable e => (Throw e, s)
           end.

(** [fs.writeFile(this.userStatesFile, JSON.stringify(statesData, null, 2))]:
    a member whose value is [undefined] is not written. *)
Definition stringify (statesData : list (string * list (string * value)))
  : list (string * list (string * value)) :=
  List.map (fun kv =>
              (kv.1, List.filter (fun p => negb (strict_eq p.2 VUndefined)) kv.2))
           statesData.

Definition writeDocument (statesData : list (string * list (string * value)))
  : M unit :=
  fun s => match writeFault s with
           | Some e => (Throw e, s)
           | None => (Normal tt, with_userStatesFile (Document (stringify statesData)) s)
           end.

(** The object [JSON.parse] builds from the members of a JSON object: of
    two members with one name the later stays. *)
Definition parseObject (members : list (string * value)) : obj :=
  foldl (fun o kv => <[kv.1 := kv.2]> o) ∅ members.

(** [error.code === "ENOENT"]. *)
Definition isENOENT (e : exn) : bool :=
  match e with
  | SystemError c => bool_decide (c = "ENOENT")
  | _ => false
  end.

(** [getUserKey(userId, guildId)]. *)
Definition getUserKey (userId guildId : string) : string :=
  guildId ++ "-" ++ userId.

Section WithRuntime.
Context `{Runtime}.

(** The [for] loop of [loadUserStates]; each [fromJSON] constructs a
    [UserState] and so reads the clock. *)
Fixpoint loadEntries (entries : list (string * list (string * value)))
  : M unit :=
  match entries with
  | [] => ret tt
  | (key, stateData) :: rest =>
      let* now := currentTime in
      modify (fun s =>
                with_userStates
                  (Map_set key (UserState.fromJSON now (parseObject stateData))
                           (userStates s)) s) >>
      loadEntries rest
  end.

(** [loadUserStates()]. *)
Definition loadUserStates : M unit :=
  try_catch
    (let* statesData := readDocument in
     modify (with_userStates []) >>
     loadEntries statesData)
    (fun error =>
       if isENOENT error then modify (with_userStates [])
       else throw error).

(** [initialize()]. *)
Definition initialize : M unit :=
  let* done := gets initialized in
  if done then ret tt
  else
    try_catch
      (mkdir >>
       loadUserStates >>
       modify (with_initialized true))
      (fun error => throw error).

(** The first loop of [saveUserStates]:
    [statesData[key] = state.toJSON()] for each entry of the map; a call
    that throws ends the loop. *)
Fixpoint collectStates (m : list (string * obj))
    (statesData : list (string * list (string * value)))
  : completion (list (string * list (string * value))) :=
  match m with
  | [] => Normal statesData
  | (key, state) :: rest =>
      match invoke "toJSON" UserState.toJSON state with
      | Normal json => collectStates rest (Map_set key json statesData)
      | Throw error => Throw error
      end
  end.

(** [saveUserStates()]: the loop, then one write of the whole object;
    whatever is thrown is logged and thrown again. *)
Definition saveUserStates : M unit :=
  try_catch
    (let* m := gets userStates in
     let* statesData := (fun s => (collectStates m [], s)) in
     writeDocument statesData)
    (fun error => throw error).

(** [getUserState(userId, guildId)]; [None] is [null]. *)
Definition getUserState (userId guildId : string) : M (option obj) :=
  initialize >>
  let key := getUserKey userId guildId in
  let* m := gets userStates in
  ret (Map_get key m).

(** [updateUserState(userId, guildId, updates = {})]. *)
Definition updateUserState (userId guildId : string) (updates : option obj)
  : M obj :=
  let updates := default ∅ updates in
  initialize >>
  let key := getUserKey userId guildId in
  let* found := gets (fun s => Map_get key (userStates s)) in
  let* state :=
    match found with
    | Some state => ret state
    | None =>
        let* now := currentTime in
        let state := UserState.new now (VStr userId) (VStr guildId) in
        modify (fun s => with_userStates (Map_set key state (userStates s)) s) >>
        ret state
    end in
  (* the object in the map is the one that is assigned to *)
  let state := Object_assign state updates in
  modify (fun s => with_userStates (Map_set key state (userStates s)) s) >>
  saveUserStates >>
  ret state.

(** [state.completeStep(step)] on the manager's clock, which only the
    branches "rules" and "tutorial" read; the call throws when
    [completeStep] is not the method any more. *)
Definition completeStepNow (step : value) (state : obj) : M obj :=
  if negb (hasMethod "completeStep" state) then throw TypeError
  else if strict_eq step (VStr "rules") || strict_eq step (VStr "tutorial") then
    let* now := currentTime in
    ret (UserState.completeStep now step state)
  else ret (UserState.completeStep 0 step state).

(** [setOnboardingStep(userId, guildId, step)]. *)
Definition setOnboardingStep (userId guildId : string) (step : value)
  : M obj :=
  updateUserState userId guildId (Some {["onboardingStep" := step]}).

(** [markStepComplete(userId, guildId, step)]. *)
Definition markStepComplete (userId guildId : string) (step : value)
  : M obj :=
  initialize >>
  let key := getUserKey userId guildId in
  let* found := gets (fun s => Map_get key (userStates s)) in
  let* state :=
    match found with
    | Some state => ret state
    | None =>
        let* now := currentTime in
        let state := UserState.new now (VStr userId) (VStr guildId) in
        modify (fun s => with_userStates (Map_set key state (userStates s)) s) >>
        ret state
    end in
  let* state := completeStepNow step state in
  modify (fun s => with_userStates (Map_set key state (userStates s)) s) >>
  saveUserStates >>
  ret state.

(** [getGuildUserStates(guildId)]. *)
Definition getGuildUserStates (guildId : string) : M (list obj) :=
  initialize >>
  let* m := gets userStates in
  ret (foldl (fun guildStates kv =>
                if strict_eq (get kv.2 "guildId") (VStr guildId)
                then (guildStates ++ [kv.2])%list else guildStates)
             [] m).

(** [deleteUserState(userId, guildId)]. *)
Definition deleteUserState (userId guildId : string) : M unit :=
  initialize >>
  let key := getUserKey userId guildId in
  modify (fun s => with_userStates (Map_delete key (userStates s)) s) >>
  saveUserStates.

(** The test of the loop of [getUsersNeedingReminders]. *)
Definition needsReminder (now : Z) (guildId : string) (maxReminders : Z)
    (state : obj) : bool :=
  let reminderThreshold := (24 * 60 * 60 * 1000)%Z in
  if strict_eq (get state "guildId") (VStr guildId)
     && negb (ToBoolean (get state "rulesAcknowledged"))
     && lessThan (get state "remindersSent") maxReminders
  then
    match newDate (get state "onboardingStartedAt") with
    | Some startedAt =>
        let timeSinceStart := (now - startedAt)%Z in
        (reminderThreshold <=? timeSinceStart)%Z
    | None => false
    end
  else false.

(** [getUsersNeedingReminders(guildId, maxReminders = 3)]. *)
Definition getUsersNeedingReminders (guildId : string)
    (maxReminders : option Z) : M (list obj) :=
  let maxReminders := default 3%Z maxReminders in
  initialize >>
  let* now := currentTime in
  let* m := gets userStates in
  ret (foldl (fun usersNeedingReminders kv =>
                if needsReminder now guildId maxReminders kv.2
                then (usersNeedingReminders ++ [kv.2])%list
                else usersNeedingReminders)
             [] m).
End WithRuntime.
End UserStateManager.

(** ** A runtime for the examples

    A test double of the engine's [Date] and number parsing that knows
    three instants. *)

Definition exampleRuntime : Runtime := {|
  toISOString t :=
    if (t =? 0)%Z then "1970-01-01T00:00:00.000Z"
    else if (t =? 90000000)%Z then "1970-01-02T01:00:00.000Z"
    else "2023-01-01T00:00:00.000Z";
  dateParse s :=
    if bool_decide (s = "1970-01-01T00:00:00.000Z") then Some 0%Z
    else if bool_decide (s = "1970-01-02T01:00:00.000Z") then Some 90000000%Z
    else if bool_decide (s = "2023-01-01T00:00:00.000Z") then Some 1672531200000%Z
    else None;
  stringNumberCompare s r :=
    if bool_decide (s = EmptyString) then Some (0 ?= r)%Z else None;
|}.

(** The clock of the examples: three readings at the epoch, then readings
    25 hours later. *)
Definition exampleClock (n : nat) : Z :=
  if (n <? 3)%nat then 0%Z else 90000000%Z.

(** A manager before its first call, with no file yet. *)
Definition freshManager : UserStateManager.state :=
  {| UserStateManager.userStates := [];
     UserStateManager.initialized := false;
     UserStateManager.userStatesFile := UserStateManager.Absent;
     UserStateManager.mkdirFault := None;
     UserStateManager.writeFault := None;
     UserStateManager.clock := exampleClock;
     UserStateManager.ticks := 0 |}.

(** The patches of the reminder test: a user who started 25 hours before
    the query, one who has acknowledged the rules, one who starts at the
    time of the query. *)
Definition reminderPatch (step : string) (acknowledged : bool)
    (startedAt : string) (sent : Z) : obj :=
  <["onboardingStep" := VStr step]>
  (<["rulesAcknowledged" := VBool acknowledged]>
  (<["onboardingStartedAt" := VStr startedAt]>
  (<["remindersSent" := VNum sent]> ∅))).

Definition reminderScenario (sent : Z)
  : UserStateManager.M (list obj) :=
  UserStateManager.bind
    (@UserStateManager.updateUserState exampleRuntime "user1" "guild456"
       (Some (reminderPatch "rules" false "1970-01-01T00:00:00.000Z" sent)))
    (fun _ =>
  UserStateManager.bind
    (@UserStateManager.updateUserState exampleRuntime "user2" "guild456"
       (Some (reminderPatch "github" true "1970-01-01T00:00:00.000Z" 0)))
    (fun _ =>
  UserStateManager.bind
    (@UserStateManager.updateUserState exampleRuntime "user3" "guild456"
       (Some (reminderPatch "rules" false "1970-01-02T01:00:00.000Z" 0)))
    (fun _ =>
  @UserStateManager.getUsersNeedingReminders exampleRuntime "guild456"
    (Some 3%Z)))).

(** The manager of the reminder test after its three updates. *)
Definition reminderManager : UserStateManager.state :=
  (UserStateManager.bind
     (@UserStateManager.updateUserState exampleRuntime "user1" "guild456"
        (Some (reminderPatch "rules" false "1970-01-01T00:00:00.000Z" 0)))
     (fun _ =>
   UserStateManager.bind
     (@UserStateManager.updateUserState exampleRuntime "user2" "guild456"
        (Some (reminderPatch "github" true "1970-01-01T00:00:00.000Z" 0)))
     (fun _ =>
   @UserStateManager.updateUserState exampleRuntime "user3" "guild456"
     (Some (reminderPatch "rules" false "1970-01-02T01:00:00.000Z" 0))))
     freshManager).2.

(** The manager of the reminder test after a patch that gives user1 a
    property named completeStep. *)
Definition shadowedManager : UserStateManager.state :=
  (@UserStateManager.updateUserState exampleRuntime "user1" "guild456"
     (Some {["completeStep" := VBool true]}) reminderManager).2.

(** The manager of the reminder test when the file can no longer be
    written. *)
Definition readOnlyManager : UserStateManager.state :=
  {| UserStateManager.userStates := UserStateManager.userStates reminderManager;
     UserStateManager.initialized := true;
     UserStateManager.userStatesFile :=
       UserStateManager.userStatesFile reminderManager;
     UserStateManager.mkdirFault := None;
     UserStateManager.writeFault := Some (SystemError "EACCES");
     UserStateManager.clock := exampleClock;
     UserStateManager.ticks := 3 |}.

(** A manager before its first call, on a file that does not parse. *)
Definition brokenManager : UserStateManager.state :=
  {| UserStateManager.userStates := [];
     UserStateManager.initialized := false;
     UserStateManager.userStatesFile := UserStateManager.Unreadable SyntaxError;
     UserStateManager.mkdirFault := None;
     UserStateManager.writeFault := None;
     UserStateManager.clock := exampleClock;
     UserStateManager.ticks := 0 |}.

(** A manager before its first call, on the file the reminder test left. *)
Definition restartedManager : UserStateManager.state :=
  {| UserStateManager.userStates := [];
     UserStateManager.initialized := false;
     UserStateManager.userStatesFile :=
       UserStateManager.userStatesFile reminderManager;
     UserStateManager.mkdirFault := None;
     UserStateManager.writeFault := None;
     UserStateManager.clock := exampleClock;
     UserStateManager.ticks := 0 |}.

(** * Vocabulary of the statements

    The definitions of this part follow the wording of the specification,
    not the source: the theorems compare them with the definitions above. *)

(** The fields [completeStep] may assign. *)
Definition completeStep_writes : list string :=
  [ "rulesAcknowledged"; "rulesAcknowledgedAt"; "onboardingStep";
    "tutorialCompleted"; "onboardingCompletedAt" ].

(** The properties [UserState.toJSON] writes, in its order. *)
Definition UserState_fields : list string :=
  [ "userId"; "guildId"; "onboardingStep"; "rulesAcknowledged";
    "rulesAcknowledgedAt"; "githubConnected"; "githubUsername";
    "tutorialCompleted"; "onboardingStartedAt"; "onboardingCompletedAt";
    "remindersSent" ].

(** The properties [OnboardingConfig.toJSON] writes, in its order. *)
Definition OnboardingConfig_fields : list string :=
  [ "guildId"; "welcomeChannelId"; "rulesChannelId"; "welcomeMessage";
    "rulesContent"; "githubIntegrationEnabled"; "tutorialEnabled";
    "reminderIntervalHours"; "maxReminders" ].

(** An object literal that reads each listed property of [this]. *)
Definition project (fields : list string) (this : obj)
  : list (string * value) :=
  List.map (fun k => (k, get this k)) fields.

(** Blank after trimming. *)
Definition blank (s : string) : bool :=
  bool_decide (Trim.trim s = EmptyString).

(** The errors the five checks report, each on its own and in the order
    of the checks: guildId present, reminderIntervalHours within 1..168,
    maxReminders within 0..10, welcomeMessage not blank, rulesContent not
    blank. *)
Definition expectedErrors (guildId : value) (hours reminders : Z)
    (welcome rules : string) : list string :=
  ((if ToBoolean guildId then [] else [OnboardingConfig.msgGuildId])
   ++ (if (1 <=? hours)%Z && (hours <=? 168)%Z
       then [] else [OnboardingConfig.msgInterval])
   ++ (if (0 <=? reminders)%Z && (reminders <=? 10)%Z
       then [] else [OnboardingConfig.msgMaxReminders])
   ++ (if blank welcome then [OnboardingConfig.msgWelcome] else [])
   ++ (if blank rules then [OnboardingConfig.msgRules] else []))%list.

Definition expectedResult (guildId : value) (hours reminders : Z)
    (welcome rules : string) : OnboardingConfig.ValidationResult :=
  let errors := expectedErrors guildId hours reminders welcome rules in
  {| OnboardingConfig.isValid :=
       match errors with [] => true | _ :: _ => false end;
     OnboardingConfig.errors := errors |}.

(** The object the loop of [saveUserStates] builds when every call of
    [toJSON] returns. *)
Definition statesDataOf (m : list (string * obj))
  : list (string * list (string * value)) :=
  foldl (fun statesData kv => Map_set kv.1 (UserState.toJSON kv.2) statesData)
        [] m.

(** The object has no own property [name] and none named [__proto__]: a
    call of the method [name] reaches the method of the class. *)
Definition keepsMethod (name : string) (o : obj) : Prop :=
  o !! name = None ∧ o !! "__proto__" = None.

(** Every record of the map keeps the method. *)
Definition allKeep (name : string) (m : list (string * obj)) : Prop :=
  Forall (fun kv => keepsMethod name kv.2) m.

(** What the file holds for one entry of the map: its key, and the
    canonical properties of the record that are not [undefined]. *)
Definition writtenEntry (kv : string * obj) : string * list (string * value) :=
  (kv.1,
   List.filter (fun p => negb (strict_eq p.2 VUndefined))
               (project UserState_fields kv.2)).

(** The file that holds every entry of the map [m], in the map's order. *)
Definition snapshot (m : list (string * obj)) : UserStateManager.file :=
  UserStateManager.Document (List.map writtenEntry m).

Section Eligibility.
Context `{Runtime}.
Import UserStateManager.

(** The file after [saveUserStates] has written the map [m]. *)
Definition persisted (m : list (string * obj)) : file :=
  Document (stringify (statesDataOf m)).

(** The records [getUsersNeedingReminders] is to return: of the guild,
    rules not acknowledged, fewer reminders sent than the maximum, and
    started at least 24 hours before [now]. *)
Definition eligible (now : Z) (guildId : string) (maxReminders : Z)
    (state : obj) : bool :=
  bool_decide (get state "guildId" = VStr guildId)
  && bool_decide (get state "rulesAcknowledged" = VBool false)
  && match get state "remindersSent" with
     | VNum sent => (sent <? maxReminders)%Z
     | _ => false
     end
  && match newDate (get state "onboardingStartedAt") with
     | Some startedAt => (24 * 60 * 60 * 1000 <=? now - startedAt)%Z
     | None => false
     end.

(** One record as [loadUserStates] rebuilds it, at clock reading [now],
    from what was written for it. *)
Definition reloaded (now : Z) (key : string) (state : obj) : obj :=
  UserState.fromJSON now (parseObject (writtenEntry (key, state)).2).

(** The schema's types of the two properties the test coerces. *)
Definition reminderTyped (state : obj) : Prop :=
  (∃ b : bool, get state "rulesAcknowledged" = VBool b)
  ∧ (∃ n : Z, get state "remindersSent" = VNum n).

End Eligibility.

(** The five messages of [validate], in the order of its checks. *)
Definition allMessages : list string :=
  [ OnboardingConfig.msgGuildId; OnboardingConfig.msgInterval;
    OnboardingConfig.msgMaxReminders; OnboardingConfig.msgWelcome;
    OnboardingConfig.msgRules ].

(** A value that is truthy and not a string: it has no [trim] method. *)
Definition truthyNonString (v : value) : bool :=
  ToBoolean v && match v with VStr _ => false | _ => true end.

(** The string has a dash in it. *)
Fixpoint hasDash (s : string) : bool :=
  match s with
  | EmptyString => false
  | String c s' => bool_decide (c = "-"%char) || hasDash s'
  end.

(** The record says it is of the guild. *)
Definition ofGuild (guildId : string) (state : obj) : bool :=
  bool_decide (get state "guildId" = VStr guildId).

(** * Properties *)

(** ** Objects *)

Lemma get_insert (o : obj) (k k' : string) (v : value) :
  get (<[k:=v]> o) k' = if decide (k = k') then v else get o k'.
Proof. unfold get. rewrite lookup_insert. by case_decide. Qed.

Lemma get_insert_eq (o : obj) (k : string) (v : value) :
  get (<[k:=v]> o) k = v.
Proof. unfold get. by rewrite lookup_insert_eq. Qed.

Lemma get_insert_ne (o : obj) (k k' : string) (v : value) :
  k ≠ k' → get (<[k:=v]> o) k' = get o k'.
Proof. intros. unfold get. by rewrite lookup_insert_ne. Qed.

Lemma Object_assign_union (target source : obj) :
  Object_assign target source = source ∪ target.
Proof.
  unfold Object_assign.
  apply (map_fold_weak_ind (fun r (m : obj) => r = m ∪ target)).
  - by rewrite (left_id_L ∅ (∪)).
  - intros i x m r _ ->. by rewrite insert_union_l.
Qed.

Lemma Object_assign_lookup (target source : obj) (k : string) :
  Object_assign target source !! k =
  match source !! k with Some v => Some v | None => target !! k end.
Proof.
  rewrite Object_assign_union, lookup_union.
  destruct (source !! k), (target !! k); reflexivity.
Qed.

Lemma Object_assign_get_Some (target source : obj) (k : string) (v : value) :
  source !! k = Some v → get (Object_assign target source) k = v.
Proof. intros Hk. unfold get. by rewrite Object_assign_lookup, Hk. Qed.

Lemma Object_assign_get_None (target source : obj) (k : string) :
  source !! k = None →
  get (Object_assign target source) k = get target k.
Proof. intros Hk. unfold get. by rewrite Object_assign_lookup, Hk. Qed.

Lemma strict_eq_true (a b : value) : strict_eq a b = true ↔ a = b.
Proof. unfold strict_eq. apply bool_decide_eq_true. Qed.

Lemma strict_eq_false (a b : value) : strict_eq a b = false ↔ a ≠ b.
Proof. unfold strict_eq. apply bool_decide_eq_false. Qed.

(** ** UserState *)

Section UserStateProperties.
Context `{Runtime}.
Import UserState.

Lemma completeStep_rules (now : Z) (this : obj) :
  completeStep now (VStr "rules") this =
  <["onboardingStep" := VStr "github"]>
    (<["rulesAcknowledgedAt" := VStr (toISOString now)]>
      (<["rulesAcknowledged" := VBool true]> this)).
Proof. reflexivity. Qed.

Lemma completeStep_github (now : Z) (this : obj) :
  completeStep now (VStr "github") this =
  <["onboardingStep" := VStr "tutorial"]> this.
Proof. reflexivity. Qed.

Lemma completeStep_tutorial (now : Z) (this : obj) :
  completeStep now (VStr "tutorial") this =
  <["onboardingCompletedAt" := VStr (toISOString now)]>
    (<["onboardingStep" := VStr "complete"]>
      (<["tutorialCompleted" := VBool true]> this)).
Proof. reflexivity. Qed.

Lemma completeStep_other (now : Z) (step : value) (this : obj) :
  step ≠ VStr "rules" → step ≠ VStr "github" → step ≠ VStr "tutorial" →
  completeStep now step this = this.
Proof.
  intros Hr Hg Ht. unfold completeStep.
  apply strict_eq_false in Hr, Hg, Ht. by rewrite Hr, Hg, Ht.
Qed.

(** Whatever the step, [completeStep] takes one of four shapes. *)
Lemma completeStep_cases (now : Z) (step : value) (this : obj) :
  completeStep now step this = completeStep now (VStr "rules") this
  ∨ completeStep now step this = completeStep now (VStr "github") this
  ∨ completeStep now step this = completeStep now (VStr "tutorial") this
  ∨ completeStep now step this = this.
Proof.
  destruct (decide (step = VStr "rules")) as [->|Hr]; [by left|].
  destruct (decide (step = VStr "github")) as [->|Hg]; [by right; left|].
  destruct (decide (step = VStr "tutorial")) as [->|Ht]; [by right; right; left|].
  right; right; right. by apply completeStep_other.
Qed.

(** C1. On a freshly constructed record, completing "rules" sets
    rulesAcknowledged and a non-null rulesAcknowledgedAt and moves the
    step to "github"; completing "github" moves it to "tutorial";
    completing "tutorial" sets tutorialCompleted, moves the step to
    "complete" and stamps a non-null onboardingCompletedAt, after which
    isComplete() is true. *)
Theorem C1_onboarding_chain (t0 t1 t2 t3 : Z) (userId guildId : value) :
  let r0 := new t0 userId guildId in
  let r1 := completeStep t1 (VStr "rules") r0 in
  let r2 := completeStep t2 (VStr "github") r1 in
  let r3 := completeStep t3 (VStr "tutorial") r2 in
  (get r1 "rulesAcknowledged" = VBool true
   ∧ get r1 "rulesAcknowledgedAt" = VStr (toISOString t1)
   ∧ get r1 "rulesAcknowledgedAt" ≠ VNull
   ∧ get r1 "onboardingStep" = VStr "github")
  ∧ get r2 "onboardingStep" = VStr "tutorial"
  ∧ (get r3 "tutorialCompleted" = VBool true
     ∧ get r3 "onboardingStep" = VStr "complete"
     ∧ get r3 "onboardingCompletedAt" = VStr (toISOString t3)
     ∧ get r3 "onboardingCompletedAt" ≠ VNull
     ∧ isComplete r3 = true).
Proof.
  intros r0 r1 r2 r3. subst r3 r2 r1.
  rewrite completeStep_tutorial, completeStep_github, completeStep_rules.
  unfold isComplete.
  repeat (rewrite get_insert_eq || (rewrite get_insert_ne by done)).
  repeat split; done.
Qed.

(** C4. [completeStep] never looks at the current step: on a record
    still at "welcome", completing "tutorial" moves it straight to
    "complete". *)
Theorem C4_skip_ahead (now : Z) (this : obj) :
  get this "onboardingStep" = VStr "welcome" →
  get (completeStep now (VStr "tutorial") this) "onboardingStep"
  = VStr "complete"
  ∧ isComplete (completeStep now (VStr "tutorial") this) = true.
Proof.
  intros _. rewrite completeStep_tutorial. unfold isComplete.
  rewrite get_insert_ne by done. rewrite get_insert_eq. done.
Qed.

(** C7. A step other than "rules", "github" and "tutorial" is a no-op:
    the record comes back as it was (and the method has no way to fail). *)
Theorem C7_unknown_step_noop (now : Z) (step : value) (this : obj) :
  step ≠ VStr "rules" → step ≠ VStr "github" → step ≠ VStr "tutorial" →
  completeStep now step this = this.
Proof. apply completeStep_other. Qed.

(** C9. [completeStep] assigns at most rulesAcknowledged,
    rulesAcknowledgedAt, onboardingStep, tutorialCompleted and
    onboardingCompletedAt: every other property, and so userId, guildId,
    githubConnected, githubUsername, onboardingStartedAt and
    remindersSent, is as before. *)
Theorem C9_completeStep_frame (now : Z) (step : value) (this : obj)
    (k : string) :
  k ∉ completeStep_writes →
  completeStep now step this !! k = this !! k
  ∧ get (completeStep now step this) "userId" = get this "userId"
  ∧ get (completeStep now step this) "guildId" = get this "guildId"
  ∧ get (completeStep now step this) "githubConnected"
    = get this "githubConnected"
  ∧ get (completeStep now step this) "githubUsername"
    = get this "githubUsername"
  ∧ get (completeStep now step this) "onboardingStartedAt"
    = get this "onboardingStartedAt"
  ∧ get (completeStep now step this) "remindersSent"
    = get this "remindersSent".
Proof.
  intros Hk.
  assert (Hframe : ∀ k', k' ∉ completeStep_writes →
            completeStep now step this !! k' = this !! k').
  { intros k' Hk'. unfold completeStep_writes in Hk'.
    rewrite !not_elem_of_cons in Hk'.
    destruct Hk' as (? & ? & ? & ? & ? & _).
    destruct (completeStep_cases now step this) as [E|[E|[E|E]]];
      rewrite E; [rewrite completeStep_rules | rewrite completeStep_github
                 | rewrite completeStep_tutorial | done];
      repeat (rewrite lookup_insert_ne by done); done. }
  split; [by apply Hframe|].
  unfold get.
  repeat split; rewrite Hframe; try done;
    unfold completeStep_writes; rewrite !not_elem_of_cons;
    repeat split; (done || apply not_elem_of_nil).
Qed.

End UserStateProperties.

(** ** Method calls *)

Section MethodProperties.
Context `{Runtime}.

Lemma keepsMethod_hasMethod (name : string) (o : obj) :
  keepsMethod name o → hasMethod name o = true.
Proof.
  intros [Hname Hproto]. unfold hasMethod.
  rewrite bool_decide_eq_true_2 by done.
  rewrite bool_decide_eq_false_2; [done|]. by rewrite Hproto.
Qed.

Lemma keepsMethod_new (name : string) (now : Z) (userId guildId : value) :
  name ∉ UserState_fields →
  keepsMethod name (UserState.new now userId guildId).
Proof.
  assert (Hnone : ∀ k, k ∉ UserState_fields →
            UserState.new now userId guildId !! k = None).
  { intros k. unfold UserState_fields. rewrite !not_elem_of_cons.
    intros (? & ? & ? & ? & ? & ? & ? & ? & ? & ? & ? & _).
    unfold UserState.new. by repeat (rewrite lookup_insert_ne by done). }
  intros Hname. split; [by apply Hnone|].
  apply Hnone. apply (bool_decide_unpack _). vm_compute. exact I.
Qed.

Lemma keepsMethod_assign (name : string) (target source : obj) :
  keepsMethod name target → keepsMethod name source →
  keepsMethod name (Object_assign target source).
Proof.
  intros [Ht Htp] [Hs Hsp]. split; rewrite Object_assign_lookup.
  - by rewrite Hs.
  - by rewrite Hsp.
Qed.

Lemma keepsMethod_config_new (name : string) (guildId : value) :
  name ∉ OnboardingConfig_fields →
  keepsMethod name (OnboardingConfig.new guildId).
Proof.
  assert (Hnone : ∀ k, k ∉ OnboardingConfig_fields →
            OnboardingConfig.new guildId !! k = None).
  { intros k. unfold OnboardingConfig_fields. rewrite !not_elem_of_cons.
    intros (? & ? & ? & ? & ? & ? & ? & ? & ? & _).
    unfold OnboardingConfig.new. by repeat (rewrite lookup_insert_ne by done). }
  intros Hname. split; [by apply Hnone|].
  apply Hnone. apply (bool_decide_unpack _). vm_compute. exact I.
Qed.

(** An own property of the method's name hides the method, and a null
    prototype has none. *)
Lemma hasMethod_shadowed (name : string) (o : obj) :
  is_Some (o !! name) ∨ o !! "__proto__" = Some VNull →
  hasMethod name o = false.
Proof.
  unfold hasMethod. intros [[v Hv]|Hp].
  - rewrite bool_decide_eq_false_2; [done|]. by rewrite Hv.
  - rewrite (bool_decide_eq_true_2 (o !! "__proto__" = Some VNull)) by done.
    apply andb_false_r.
Qed.

Lemma invoke_keeps {A} (name : string) (method : obj → A) (o : obj) :
  keepsMethod name o → invoke name method o = Normal (method o).
Proof.
  intros Hk. unfold invoke. by rewrite (keepsMethod_hasMethod _ _ Hk).
Qed.

Lemma invoke_shadowed {A} (name : string) (method : obj → A) (o : obj) :
  is_Some (o !! name) ∨ o !! "__proto__" = Some VNull →
  invoke name method o = Throw TypeError.
Proof.
  intros Hs. unfold invoke. by rewrite (hasMethod_shadowed _ _ Hs).
Qed.

Lemma keepsMethod_completeStep (name : string) (now : Z) (step : value)
    (this : obj) :
  name ∉ completeStep_writes →
  keepsMethod name this →
  keepsMethod name (UserState.completeStep now step this).
Proof.
  assert (Hframe : ∀ k, k ∉ completeStep_writes →
            UserState.completeStep now step this !! k = this !! k).
  { intros k. unfold completeStep_writes. rewrite !not_elem_of_cons.
    intros (? & ? & ? & ? & ? & _).
    destruct (completeStep_cases now step this) as [E|[E|[E|E]]];
      rewrite E; [rewrite completeStep_rules | rewrite completeStep_github
                 | rewrite completeStep_tutorial | done];
      repeat (rewrite lookup_insert_ne by done); done. }
  intros Hname [Hn Hp]. split; rewrite Hframe; try done.
  apply (bool_decide_unpack _). vm_compute. exact I.
Qed.

Lemma method_not_field :
  ("toJSON" ∉ UserState_fields) ∧ ("completeStep" ∉ UserState_fields)
  ∧ ("toJSON" ∉ completeStep_writes).
Proof. repeat split; apply (bool_decide_unpack _); vm_compute; exact I. Qed.

Lemma toJSON_not_field :
  ("toJSON" ∉ UserState_fields) ∧ ("toJSON" ∉ OnboardingConfig_fields).
Proof. split; apply (bool_decide_unpack _); vm_compute; exact I. Qed.

End MethodProperties.

(** ** Serialisation *)

Lemma assoc_project_in (fields : list string) (this : obj) (k : string) :
  k ∈ fields → assoc k (project fields this) = Some (get this k).
Proof.
  induction fields as [|f fields IH]; intros Hk.
  - by apply elem_of_nil in Hk.
  - simpl. case_bool_decide as Hf; [by subst|].
    apply IH. apply elem_of_cons in Hk as [->|Hk]; done.
Qed.

Lemma assoc_project_notin (fields : list string) (this : obj) (k : string) :
  k ∉ fields → assoc k (project fields this) = None.
Proof.
  induction fields as [|f fields IH]; intros Hk; [done|].
  apply not_elem_of_cons in Hk as [Hne Hk].
  simpl. case_bool_decide; [by subst|]. by apply IH.
Qed.

Lemma project_ext (fields : list string) (a b : obj) :
  (∀ k, k ∈ fields → get a k = get b k) → project fields a = project fields b.
Proof.
  intros Hab. unfold project. apply map_ext_in. intros k Hk.
  rewrite Hab; [done|]. by apply list_elem_of_In.
Qed.

Lemma UserState_toJSON_project (this : obj) :
  UserState.toJSON this = project UserState_fields this.
Proof. reflexivity. Qed.

Lemma OnboardingConfig_toJSON_project (this : obj) :
  OnboardingConfig.toJSON this = project OnboardingConfig_fields this.
Proof. reflexivity. Qed.

Lemma project_keys (fields : list string) (this : obj) :
  List.map fst (project fields this) = fields.
Proof.
  unfold project. rewrite List.map_map. simpl. apply List.map_id.
Qed.

Section SerialisationProperties.
Context `{Runtime}.

Lemma UserState_fromJSON_lookup (now : Z) (data : obj) (k : string) :
  UserState.fromJSON now data !! k =
  match data !! k with
  | Some v => Some v
  | None => UserState.new now (get data "userId") (get data "guildId") !! k
  end.
Proof. unfold UserState.fromJSON. apply Object_assign_lookup. Qed.

Lemma UserState_fromJSON_get (now : Z) (data : obj) (k : string) :
  get (UserState.fromJSON now data) k =
  match data !! k with
  | Some v => v
  | None => get (UserState.new now (get data "userId") (get data "guildId")) k
  end.
Proof.
  unfold get at 1. rewrite UserState_fromJSON_lookup.
  by destruct (data !! k).
Qed.

Lemma OnboardingConfig_fromJSON_lookup (data : obj) (k : string) :
  OnboardingConfig.fromJSON data !! k =
  match data !! k with
  | Some v => Some v
  | None => OnboardingConfig.new (get data "guildId") !! k
  end.
Proof. unfold OnboardingConfig.fromJSON. apply Object_assign_lookup. Qed.

(** C10. [fromJSON] gives every property the data lacks the value the
    constructor gives it: from data with only userId and guildId comes a
    record at step "welcome", with rulesAcknowledged false, remindersSent
    0, and onboardingStartedAt stamped with the clock reading of the
    deserialisation. *)
Theorem C10_fromJSON_defaults (now : Z) (data : obj) (k : string) :
  data !! k = None →
  UserState.fromJSON now data !! k
  = UserState.new now (get data "userId") (get data "guildId") !! k
  ∧ ∀ userId guildId : value,
      let r := UserState.fromJSON now
                 (<["userId" := userId]> (<["guildId" := guildId]> ∅)) in
      get r "userId" = userId
      ∧ get r "guildId" = guildId
      ∧ get r "onboardingStep" = VStr "welcome"
      ∧ get r "rulesAcknowledged" = VBool false
      ∧ get r "rulesAcknowledgedAt" = VNull
      ∧ get r "githubConnected" = VBool false
      ∧ get r "githubUsername" = VNull
      ∧ get r "tutorialCompleted" = VBool false
      ∧ get r "onboardingStartedAt" = VStr (toISOString now)
      ∧ get r "onboardingCompletedAt" = VNull
      ∧ get r "remindersSent" = VNum 0.
Proof.
  intros Hk. split.
  { by rewrite UserState_fromJSON_lookup, Hk. }
  intros userId guildId r. subst r.
  rewrite !UserState_fromJSON_get.
  unfold get, UserState.new. simplify_map_eq. repeat split; done.
Qed.

(** C5 as stated fails twice: [toJSON] of a [UserState] writes eleven
    properties, not ten; and not every [x] can be taken through the round
    trip, since a property of [x] named toJSON is copied onto the record
    by [fromJSON] and the call [toJSON()] on that record throws. *)
Lemma C5_ten_fields_counterexample :
  let r := @UserState.new exampleRuntime 0 (VStr "user789") (VStr "guild012") in
  let x : obj :=
    <["toJSON" := VStr "x"]>
    (<["userId" := VStr "user789"]> (<["guildId" := VStr "guild012"]> ∅)) in
  List.length (UserState.toJSON r) = 11%nat
  ∧ List.length (UserState.toJSON r) ≠ 10%nat
  ∧ invoke "toJSON" UserState.toJSON (@UserState.fromJSON exampleRuntime 0 x)
    = Throw TypeError
  ∧ invoke "toJSON" OnboardingConfig.toJSON (OnboardingConfig.fromJSON x)
    = Throw TypeError.
Proof.
  split; [reflexivity|]. split; [discriminate|].
  split; vm_compute; reflexivity.
Qed.

(** C5, amended. [UserState.toJSON] writes exactly the eleven canonical
    properties in a fixed order, [OnboardingConfig.toJSON] its nine.  For
    [x] with no property named toJSON or __proto__, the call [toJSON()]
    on what was deserialised from [x] returns, and gives back every
    canonical property [x] has, with the value it has in [x] (so the
    whole of the literal when [x] has them all), and no property outside
    the canonical ones.  For [x] with a property named toJSON, or with
    __proto__ null, the call throws a TypeError. *)
Theorem C5_serialize_roundtrip (now : Z) (this x : obj) :
  (List.map fst (UserState.toJSON this) = UserState_fields
   ∧ List.length UserState_fields = 11%nat
   ∧ (keepsMethod "toJSON" x →
      ∃ json,
        invoke "toJSON" UserState.toJSON (UserState.fromJSON now x)
        = Normal json
        ∧ (∀ k v, k ∈ UserState_fields → x !! k = Some v →
             assoc k json = Some v)
        ∧ (∀ k, k ∉ UserState_fields → assoc k json = None)
        ∧ ((∀ k, k ∈ UserState_fields → is_Some (x !! k)) →
             json = UserState.toJSON x))
   ∧ (is_Some (x !! "toJSON") ∨ x !! "__proto__" = Some VNull →
      invoke "toJSON" UserState.toJSON (UserState.fromJSON now x)
      = Throw TypeError))
  ∧ (List.map fst (OnboardingConfig.toJSON this) = OnboardingConfig_fields
     ∧ List.length OnboardingConfig_fields = 9%nat
     ∧ (keepsMethod "toJSON" x →
        ∃ json,
          invoke "toJSON" OnboardingConfig.toJSON (OnboardingConfig.fromJSON x)
          = Normal json
          ∧ (∀ k v, k ∈ OnboardingConfig_fields → x !! k = Some v →
               assoc k json = Some v)
          ∧ (∀ k, k ∉ OnboardingConfig_fields → assoc k json = None)
          ∧ ((∀ k, k ∈ OnboardingConfig_fields → is_Some (x !! k)) →
               json = OnboardingConfig.toJSON x))
     ∧ (is_Some (x !! "toJSON") ∨ x !! "__proto__" = Some VNull →
        invoke "toJSON" OnboardingConfig.toJSON (OnboardingConfig.fromJSON x)
        = Throw TypeError)).
Proof.
  destruct toJSON_not_field as [Hu Hc].
  split.
  - split; [by rewrite UserState_toJSON_project, project_keys|].
    split; [reflexivity|]. split.
    + intros Hx. eexists. split.
      { apply invoke_keeps. unfold UserState.fromJSON.
        apply keepsMethod_assign; [by apply keepsMethod_new|done]. }
      split; [|split].
      * intros k v Hk Hk'.
        rewrite UserState_toJSON_project, assoc_project_in by done.
        unfold get. by rewrite UserState_fromJSON_lookup, Hk'.
      * intros k Hk. rewrite UserState_toJSON_project.
        by apply assoc_project_notin.
      * intros Hall. rewrite !UserState_toJSON_project.
        apply project_ext. intros k Hk.
        destruct (Hall k Hk) as [v Hv].
        unfold get. by rewrite UserState_fromJSON_lookup, Hv.
    + intros Hx. apply invoke_shadowed.
      rewrite !UserState_fromJSON_lookup.
      destruct Hx as [[v Hv]|Hp]; [left|right].
      * by rewrite Hv.
      * by rewrite Hp.
  - split; [by rewrite OnboardingConfig_toJSON_project, project_keys|].
    split; [reflexivity|]. split.
    + intros Hx. eexists. split.
      { apply invoke_keeps. unfold OnboardingConfig.fromJSON.
        apply keepsMethod_assign; [by apply keepsMethod_config_new|done]. }
      split; [|split].
      * intros k v Hk Hk'.
        rewrite OnboardingConfig_toJSON_project, assoc_project_in by done.
        unfold get. by rewrite OnboardingConfig_fromJSON_lookup, Hk'.
      * intros k Hk. rewrite OnboardingConfig_toJSON_project.
        by apply assoc_project_notin.
      * intros Hall. rewrite !OnboardingConfig_toJSON_project.
        apply project_ext. intros k Hk.
        destruct (Hall k Hk) as [v Hv].
        unfold get. by rewrite OnboardingConfig_fromJSON_lookup, Hv.
    + intros Hx. apply invoke_shadowed.
      rewrite !OnboardingConfig_fromJSON_lookup.
      destruct Hx as [[v Hv]|Hp]; [left|right].
      * by rewrite Hv.
      * by rewrite Hp.
Qed.

End SerialisationProperties.

(** ** OnboardingConfig.validate *)

Section ValidateProperties.
Context `{Runtime}.
Import OnboardingConfig.

Lemma length_eqb_0 (s : string) :
  (String.length s =? 0)%nat = bool_decide (s = EmptyString).
Proof. by destruct s. Qed.

Lemma isBlank_string (s : string) : isBlank (VStr s) = Normal (blank s).
Proof.
  unfold isBlank, blank. simpl. case_bool_decide as Hs; simpl.
  - subst s. reflexivity.
  - by rewrite length_eqb_0.
Qed.

Lemma out_of_range (n lo hi : Z) :
  lessThan (VNum n) lo || greaterThan (VNum n) hi
  = negb ((lo <=? n)%Z && (n <=? hi)%Z).
Proof.
  unfold lessThan, greaterThan, numberCompare.
  destruct (Z.compare_spec n lo), (Z.compare_spec n hi);
    simpl; symmetry;
    rewrite ?negb_true_iff, ?negb_false_iff,
            ?andb_true_iff, ?andb_false_iff, ?Z.leb_le, ?Z.leb_gt; lia.
Qed.

Lemma pushIf_app (cond : bool) (msg : string) (errors : list string) :
  pushIf cond msg errors = (errors ++ if cond then [msg] else [])%list.
Proof. unfold pushIf. destruct cond; [done|]. by rewrite app_nil_r. Qed.

Lemma length_eqb_0_list (l : list string) :
  (List.length l =? 0)%nat = match l with [] => true | _ :: _ => false end.
Proof. by destruct l. Qed.

(** On a config whose numeric settings are numbers and whose texts are
    strings, [validate] returns the outcome of the five checks. *)
Lemma validate_typed (this : obj) (hours reminders : Z)
    (welcome rules : string) :
  get this "reminderIntervalHours" = VNum hours →
  get this "maxReminders" = VNum reminders →
  get this "welcomeMessage" = VStr welcome →
  get this "rulesContent" = VStr rules →
  validate this
  = Normal (expectedResult (get this "guildId") hours reminders welcome rules).
Proof.
  intros Hh Hm Hw Hr. unfold validate.
  rewrite Hh, Hm, Hw, Hr, !isBlank_string, !out_of_range, !pushIf_app.
  rewrite length_eqb_0_list. unfold expectedResult, expectedErrors.
  simpl. f_equal.
  destruct (ToBoolean (get this "guildId")),
    ((1 <=? hours)%Z && (hours <=? 168)%Z),
    ((0 <=? reminders)%Z && (reminders <=? 10)%Z),
    (blank welcome), (blank rules); reflexivity.
Qed.

Lemma default_welcome_not_blank : blank getDefaultWelcomeMessage = false.
Proof. vm_compute. reflexivity. Qed.

Lemma default_rules_not_blank : blank getDefaultRulesContent = false.
Proof. vm_compute. reflexivity. Qed.

Lemma new_typed (guildId : value) :
  get (new guildId) "guildId" = guildId
  ∧ get (new guildId) "reminderIntervalHours" = VNum 24
  ∧ get (new guildId) "maxReminders" = VNum 3
  ∧ get (new guildId) "welcomeMessage" = VStr getDefaultWelcomeMessage
  ∧ get (new guildId) "rulesContent" = VStr getDefaultRulesContent.
Proof.
  unfold new.
  repeat (rewrite get_insert_eq || (rewrite get_insert_ne by done)).
  done.
Qed.

Lemma expectedResult_violation (guildId : value) (hours reminders : Z)
    (welcome rules msg : string) :
  msg ∈ expectedErrors guildId hours reminders welcome rules →
  ∃ es, expectedResult guildId hours reminders welcome rules
        = {| isValid := false; errors := es |} ∧ msg ∈ es.
Proof.
  intros Hin. exists (expectedErrors guildId hours reminders welcome rules).
  split; [|done]. unfold expectedResult.
  destruct (expectedErrors guildId hours reminders welcome rules); [|done].
  by apply elem_of_nil in Hin.
Qed.

Lemma in_range_false (n lo hi : Z) :
  (n < lo ∨ hi < n)%Z → (lo <=? n)%Z && (n <=? hi)%Z = false.
Proof. rewrite andb_false_iff, !Z.leb_gt. lia. Qed.

(** C6. On a config with numeric settings and texts of the schema's
    types, [validate] returns [{isValid, errors}] where [errors] lists,
    in the order guildId, reminderIntervalHours within 1..168,
    maxReminders within 0..10, welcomeMessage not blank, rulesContent not
    blank, the message of every check that fails, and [isValid] says that
    there is none; each failing check alone makes the config invalid with
    its message among the errors.  A config as constructed for a guild
    is valid with no errors, and turns invalid with exactly the matching
    message when reminderIntervalHours leaves 1..168 (0, 200),
    maxReminders leaves 0..10 (-1, 11), or a text is blank. *)
Theorem C6_validate (this : obj) (hours reminders : Z)
    (welcome rules : string) :
  get this "reminderIntervalHours" = VNum hours →
  get this "maxReminders" = VNum reminders →
  get this "welcomeMessage" = VStr welcome →
  get this "rulesContent" = VStr rules →
  validate this
  = Normal (expectedResult (get this "guildId") hours reminders welcome rules)
  ∧ (ToBoolean (get this "guildId") = false →
     ∃ es, validate this = Normal {| isValid := false; errors := es |}
           ∧ msgGuildId ∈ es)
  ∧ ((hours < 1 ∨ 168 < hours)%Z →
     ∃ es, validate this = Normal {| isValid := false; errors := es |}
           ∧ msgInterval ∈ es)
  ∧ ((reminders < 0 ∨ 10 < reminders)%Z →
     ∃ es, validate this = Normal {| isValid := false; errors := es |}
           ∧ msgMaxReminders ∈ es)
  ∧ (blank welcome = true →
     ∃ es, validate this = Normal {| isValid := false; errors := es |}
           ∧ msgWelcome ∈ es)
  ∧ (blank rules = true →
     ∃ es, validate this = Normal {| isValid := false; errors := es |}
           ∧ msgRules ∈ es)
  ∧ ∀ guildId : value, ToBoolean guildId = true →
      validate (new guildId) = Normal {| isValid := true; errors := [] |}
      ∧ (∀ h : Z, (h < 1 ∨ 168 < h)%Z →
           validate (<["reminderIntervalHours" := VNum h]> (new guildId))
           = Normal {| isValid := false; errors := [msgInterval] |})
      ∧ (∀ m : Z, (m < 0 ∨ 10 < m)%Z →
           validate (<["maxReminders" := VNum m]> (new guildId))
           = Normal {| isValid := false; errors := [msgMaxReminders] |})
      ∧ (∀ w : string, blank w = true →
           validate (<["welcomeMessage" := VStr w]> (new guildId))
           = Normal {| isValid := false; errors := [msgWelcome] |})
      ∧ (∀ r : string, blank r = true →
           validate (<["rulesContent" := VStr r]> (new guildId))
           = Normal {| isValid := false; errors := [msgRules] |}).
Proof.
  intros Hh Hm Hw Hr.
  pose proof (validate_typed this hours reminders welcome rules Hh Hm Hw Hr)
    as Hv.
  split; [exact Hv|]. rewrite Hv.
  assert (Hviol : ∀ msg,
    msg ∈ expectedErrors (get this "guildId") hours reminders welcome rules →
    ∃ es, Normal (expectedResult (get this "guildId") hours reminders
                    welcome rules)
          = Normal {| isValid := false; errors := es |} ∧ msg ∈ es).
  { intros msg Hin.
    destruct (expectedResult_violation _ _ _ _ _ _ Hin) as (es & -> & ?).
    by exists es. }
  split; [|split; [|split; [|split; [|split]]]].
  - intros Hg. apply Hviol. unfold expectedErrors. rewrite Hg.
    rewrite !elem_of_app, list_elem_of_singleton. by left.
  - intros Hb. apply Hviol. unfold expectedErrors.
    rewrite (in_range_false _ _ _ Hb).
    rewrite !elem_of_app, list_elem_of_singleton. by right; left.
  - intros Hb. apply Hviol. unfold expectedErrors.
    rewrite (in_range_false _ _ _ Hb).
    rewrite !elem_of_app, list_elem_of_singleton. by right; right; left.
  - intros Hb. apply Hviol. unfold expectedErrors. rewrite Hb.
    rewrite !elem_of_app, list_elem_of_singleton. by right; right; right; left.
  - intros Hb. apply Hviol. unfold expectedErrors. rewrite Hb.
    rewrite !elem_of_app, list_elem_of_singleton. by right; right; right; right.
  - intros guildId Hg.
    destruct (new_typed guildId) as (Eg & Eh & Em & Ew & Er).
    split; [|split; [|split; [|split]]].
    + rewrite (validate_typed _ _ _ _ _ Eh Em Ew Er), Eg.
      unfold expectedResult, expectedErrors.
      by rewrite Hg, default_welcome_not_blank, default_rules_not_blank.
    + intros h Hb.
      rewrite (validate_typed _ h 3 getDefaultWelcomeMessage
                 getDefaultRulesContent);
        rewrite ?get_insert_eq, ?get_insert_ne by done; try done.
      rewrite Eg. unfold expectedResult, expectedErrors.
      by rewrite Hg, (in_range_false _ _ _ Hb),
           default_welcome_not_blank, default_rules_not_blank.
    + intros m Hb.
      rewrite (validate_typed _ 24 m getDefaultWelcomeMessage
                 getDefaultRulesContent);
        rewrite ?get_insert_eq, ?get_insert_ne by done; try done.
      rewrite Eg. unfold expectedResult, expectedErrors.
      by rewrite Hg, (in_range_false _ _ _ Hb),
           default_welcome_not_blank, default_rules_not_blank.
    + intros w Hb.
      rewrite (validate_typed _ 24 3 w getDefaultRulesContent);
        rewrite ?get_insert_eq, ?get_insert_ne by done; try done.
      rewrite Eg. unfold expectedResult, expectedErrors.
      by rewrite Hg, Hb, default_rules_not_blank.
    + intros r Hb.
      rewrite (validate_typed _ 24 3 getDefaultWelcomeMessage r);
        rewrite ?get_insert_eq, ?get_insert_ne by done; try done.
      rewrite Eg. unfold expectedResult, expectedErrors.
      by rewrite Hg, Hb, default_welcome_not_blank.
Qed.

End ValidateProperties.

(** ** The ordered map *)

Section OrderedMapProperties.
Context {V : Type}.
Implicit Types (m : list (string * V)) (k : string) (v : V).

Lemma Map_get_set_eq m k v : Map_get k (Map_set k v m) = Some v.
Proof.
  induction m as [|[k' v'] m IH]; simpl.
  - by rewrite bool_decide_eq_true_2.
  - case_bool_decide as Hk; simpl.
    + by rewrite bool_decide_eq_true_2.
    + by rewrite bool_decide_eq_false_2.
Qed.

Lemma Map_get_set_ne m k k' v :
  k ≠ k' → Map_get k' (Map_set k v m) = Map_get k' m.
Proof.
  intros Hne. induction m as [|[k0 v0] m IH]; simpl.
  - by rewrite bool_decide_eq_false_2.
  - case_bool_decide as Hk; simpl.
    + subst k0. by rewrite !bool_decide_eq_false_2.
    + by rewrite IH.
Qed.

Lemma Map_set_absent m k v :
  Map_get k m = None → Map_set k v m = (m ++ [(k, v)])%list.
Proof.
  induction m as [|[k' v'] m IH]; simpl; [done|].
  case_bool_decide; [done|]. intros Hm. by rewrite IH.
Qed.

Lemma Map_set_set m k v v' : Map_set k v' (Map_set k v m) = Map_set k v' m.
Proof.
  induction m as [|[k0 v0] m IH]; simpl.
  - by rewrite bool_decide_eq_true_2.
  - case_bool_decide as Hk; simpl.
    + by rewrite bool_decide_eq_true_2.
    + rewrite bool_decide_eq_false_2 by done. by rewrite IH.
Qed.

Lemma Map_set_keys m k v :
  is_Some (Map_get k m) → List.map fst (Map_set k v m) = List.map fst m.
Proof.
  induction m as [|[k0 v0] m IH]; simpl.
  - by intros [? ?].
  - case_bool_decide as Hk; simpl; [by subst|].
    intros Hm. by rewrite IH.
Qed.

Lemma Map_get_delete_eq m k : Map_get k (Map_delete k m) = None.
Proof.
  unfold Map_delete. induction m as [|[k' v'] m IH]; simpl; [done|].
  case_bool_decide as Hk; simpl; [done|].
  by rewrite bool_decide_eq_false_2.
Qed.

Lemma Map_get_delete_ne m k k' :
  k ≠ k' → Map_get k' (Map_delete k m) = Map_get k' m.
Proof.
  intros Hne. unfold Map_delete.
  induction m as [|[k0 v0] m IH]; simpl; [done|].
  case_bool_decide as Hk; simpl.
  - subst k0. by rewrite bool_decide_eq_false_2.
  - by rewrite IH.
Qed.

Lemma Map_delete_absent m k : Map_get k m = None → Map_delete k m = m.
Proof.
  unfold Map_delete. induction m as [|[k' v'] m IH]; simpl; [done|].
  case_bool_decide as Hk; simpl; [done|]. intros Hm. by rewrite IH.
Qed.
Lemma Map_get_None m k : Map_get k m = None ↔ k ∉ List.map fst m.
Proof.
  induction m as [|[k' v'] m IH]; simpl.
  - split; [intros _; apply not_elem_of_nil | done].
  - rewrite not_elem_of_cons. case_bool_decide as Hk.
    + subst k'. split; [done | by intros [? _]].
    + rewrite IH. split; [by intros ? | by intros [_ ?]].
Qed.

Lemma Map_set_NoDup m k v :
  NoDup (List.map fst m) → NoDup (List.map fst (Map_set k v m)).
Proof.
  intros Hm. destruct (Map_get k m) as [v0|] eqn:Hk.
  - by rewrite Map_set_keys.
  - rewrite (Map_set_absent m k v Hk), List.map_app. simpl.
    apply NoDup_app. split; [done|]. split.
    + intros k' Hin Hk'. apply list_elem_of_singleton in Hk'. subst k'.
      by apply Map_get_None in Hk.
    + apply NoDup_singleton.
Qed.

Lemma Map_delete_NoDup m k :
  NoDup (List.map fst m) → NoDup (List.map fst (Map_delete k m)).
Proof.
  unfold Map_delete. induction m as [|[k' v'] m IH]; simpl; [done|].
  rewrite NoDup_cons. intros [Hk' Hm].
  case_bool_decide; simpl; [by apply IH|].
  apply NoDup_cons. split; [|by apply IH].
  intros Hin. apply Hk'.
  apply list_elem_of_fmap in Hin as ([k0 v0] & -> & Hin).
  apply list_elem_of_In, List.filter_In in Hin as [Hin _].
  apply list_elem_of_fmap. exists (k0, v0). split; [done|].
  by apply list_elem_of_In.
Qed.

End OrderedMapProperties.

(** ** UserStateManager *)

Section ManagerProperties.
Context `{Runtime}.
Import UserStateManager.

Lemma initialize_done (s : state) :
  initialized s = true → initialize s = (Normal tt, s).
Proof. intros Hi. unfold initialize, bind, gets. by rewrite Hi. Qed.

Lemma loadEntries_faults entries (s : state) :
  writeFault (loadEntries entries s).2 = writeFault s.
Proof.
  revert s. induction entries as [|[key stateData] rest IH]; intros s;
    [done|].
  simpl. unfold bind, currentTime, modify. simpl. by rewrite IH.
Qed.

(** A successful [initialize] leaves the manager initialised, and the
    outcome of later writes as it was. *)
Lemma initialize_post (s s1 : state) :
  initialize s = (Normal tt, s1) →
  initialized s1 = true ∧ writeFault s1 = writeFault s.
Proof.
  unfold initialize, bind, gets. destruct (initialized s) eqn:Hi.
  { intros [= <-]. done. }
  unfold try_catch, bind, mkdir, modify, throw.
  destruct (mkdirFault s); simpl; [intros Hx; discriminate Hx|].
  unfold loadUserStates, try_catch, bind, readDocument, modify, throw.
  destruct (userStatesFile s) as [d|e]; simpl.
  - pose proof (loadEntries_faults d (with_userStates [] s)) as Hw.
    destruct (loadEntries d (with_userStates [] s)) as [[[]|e] s']; simpl.
    + intros [= <-]. split; [done|]. exact Hw.
    + destruct (isENOENT e); simpl; [|intros Hx; discriminate Hx].
      intros [= <-]. split; [done|]. exact Hw.
  - destruct (isENOENT e); simpl; [|intros Hx; discriminate Hx].
    intros [= <-]. done.
Qed.

(** A method that starts with [await this.initialize()] does, from any
    state that initialises, what it does from the initialised state. *)
Lemma after_initialize {A} (k : M A) (s s1 : state) :
  initialize s = (Normal tt, s1) →
  bind initialize (fun _ => k) s = k s1
  ∧ bind initialize (fun _ => k) s1 = k s1.
Proof.
  intros Hi. destruct (initialize_post s s1 Hi) as [Hd _].
  unfold bind at 1 2. by rewrite Hi, (initialize_done s1 Hd).
Qed.

Lemma allKeep_get (name : string) (m : list (string * obj)) (k : string)
    (v : obj) :
  allKeep name m → Map_get k m = Some v → keepsMethod name v.
Proof.
  unfold allKeep. induction m as [|[k' v'] m IH]; simpl.
  - intros _ Hx. discriminate Hx.
  - rewrite Forall_cons. intros [Hv Hm]. case_bool_decide.
    + by intros [= <-].
    + by apply IH.
Qed.

Lemma allKeep_set (name : string) (m : list (string * obj)) (k : string)
    (v : obj) :
  allKeep name m → keepsMethod name v → allKeep name (Map_set k v m).
Proof.
  unfold allKeep. intros Hm Hv. induction m as [|[k' v'] m IH]; simpl.
  - by apply Forall_cons.
  - apply Forall_cons in Hm as [Hv' Hm]. case_bool_decide.
    + by apply Forall_cons.
    + apply Forall_cons. split; [done|]. by apply IH.
Qed.

Lemma allKeep_delete (name : string) (m : list (string * obj)) (k : string) :
  allKeep name m → allKeep name (Map_delete k m).
Proof.
  unfold allKeep, Map_delete. induction m as [|[k' v'] m IH]; simpl;
    [done|].
  rewrite Forall_cons. intros [Hv Hm].
  destruct (negb (bool_decide (k' = k))); [|by apply IH].
  apply Forall_cons. split; [done|]. by apply IH.
Qed.

Lemma collectStates_keep (m : list (string * obj))
    (acc : list (string * list (string * value))) :
  allKeep "toJSON" m →
  collectStates m acc
  = Normal (foldl (fun statesData kv =>
                     Map_set kv.1 (UserState.toJSON kv.2) statesData)
                  acc m).
Proof.
  unfold allKeep. revert acc. induction m as [|[k st] m IH]; intros acc;
    simpl; [done|].
  rewrite Forall_cons. intros [Hst Hm]. unfold invoke. simpl in Hst.
  rewrite (keepsMethod_hasMethod _ _ Hst). by apply IH.
Qed.

(** [saveUserStates] in one piece: the loop, then the write. *)
Lemma saveUserStates_unfold (s : state) :
  saveUserStates s
  = match collectStates (userStates s) [] with
    | Throw e => (Throw e, s)
    | Normal statesData =>
        match writeFault s with
        | Some e => (Throw e, s)
        | None =>
            (Normal tt,
             with_userStatesFile (Document (stringify statesData)) s)
        end
    end.
Proof.
  unfold saveUserStates, try_catch, bind, gets, writeDocument, throw.
  destruct (collectStates (userStates s) []); [|done].
  by destruct (writeFault s).
Qed.

Lemma saveUserStates_ok (s : state) :
  writeFault s = None →
  allKeep "toJSON" (userStates s) →
  saveUserStates s
  = (Normal tt, with_userStatesFile (persisted (userStates s)) s).
Proof.
  intros Hw Hkeep. rewrite saveUserStates_unfold.
  by rewrite (collectStates_keep _ [] Hkeep), Hw.
Qed.

Lemma statesDataOf_loop (m : list (string * obj))
    (acc : list (string * list (string * value))) :
  NoDup (List.map fst acc ++ List.map fst m) →
  foldl (fun statesData kv => Map_set kv.1 (UserState.toJSON kv.2) statesData)
        acc m
  = (acc ++ List.map (fun kv => (kv.1, UserState.toJSON kv.2)) m)%list.
Proof.
  revert acc. induction m as [|[k st] m IH]; intros acc Hnd; simpl.
  - by rewrite app_nil_r.
  - simpl in Hnd.
    assert (Hk : Map_get k acc = None).
    { apply Map_get_None. apply NoDup_app in Hnd as (_ & Hdisj & _).
      intros Hin. apply (Hdisj k Hin). by left. }
    rewrite (Map_set_absent acc k _ Hk), IH.
    + by rewrite <- app_assoc.
    + rewrite List.map_app. simpl. by rewrite <- app_assoc.
Qed.

(** With distinct keys, the file written for a map holds each entry of the
    map, in order. *)
Lemma persisted_snapshot (m : list (string * obj)) :
  NoDup (List.map fst m) → persisted m = snapshot m.
Proof.
  intros Hnd. unfold persisted, snapshot, statesDataOf, stringify.
  rewrite statesDataOf_loop by done. simpl.
  by rewrite List.map_map.
Qed.

Lemma loadEntries_NoDup entries (s : state) :
  NoDup (List.map fst (userStates s)) →
  NoDup (List.map fst (userStates (loadEntries entries s).2)).
Proof.
  revert s. induction entries as [|[key stateData] rest IH]; intros s Hnd;
    [done|].
  simpl. unfold bind, currentTime, modify. simpl. apply IH. simpl.
  by apply Map_set_NoDup.
Qed.

(** The map a manager loads has distinct keys. *)
Lemma initialize_NoDup (s s1 : state) :
  initialized s = false →
  initialize s = (Normal tt, s1) →
  NoDup (List.map fst (userStates s1)).
Proof.
  intros Hi. unfold initialize, bind, gets. rewrite Hi.
  unfold try_catch, bind, mkdir, modify, throw.
  destruct (mkdirFault s); simpl; [intros Hx; discriminate Hx|].
  unfold loadUserStates, try_catch, bind, readDocument, modify, throw.
  destruct (userStatesFile s) as [d|e]; simpl.
  - pose proof (loadEntries_NoDup d (with_userStates [] s)) as Hnd.
    destruct (loadEntries d (with_userStates [] s)) as [[[]|e] s']; simpl.
    + intros [= <-]. simpl. apply Hnd. simpl. apply NoDup_nil_2.
    + destruct (isENOENT e); simpl; [|intros Hx; discriminate Hx].
      intros [= <-]. simpl. apply NoDup_nil_2.
  - destruct (isENOENT e); simpl; [|intros Hx; discriminate Hx].
    intros [= <-]. simpl. apply NoDup_nil_2.
Qed.

(** One [updateUserState] from an initialised manager whose writes
    succeed. *)
Lemma updateUserState_run (s : state) (userId guildId : string)
    (updates : obj) :
  initialized s = true →
  writeFault s = None →
  allKeep "toJSON" (userStates s) →
  keepsMethod "toJSON" updates →
  let key := getUserKey userId guildId in
  let base :=
    default (UserState.new (clock s (ticks s)) (VStr userId) (VStr guildId))
            (Map_get key (userStates s)) in
  let r := Object_assign base updates in
  ∃ s', updateUserState userId guildId (Some updates) s = (Normal r, s')
        ∧ userStates s' = Map_set key r (userStates s)
        ∧ initialized s' = true
        ∧ writeFault s' = None
        ∧ userStatesFile s' = persisted (userStates s')
        ∧ allKeep "toJSON" (userStates s').
Proof.
  intros Hi Hw Hkeep Hpatch key base r.
  assert (Hr : keepsMethod "toJSON" r).
  { apply keepsMethod_assign; [|done]. subst base.
    destruct (Map_get key (userStates s)) as [st|] eqn:Hfound; simpl.
    - by apply (allKeep_get _ _ _ _ Hkeep Hfound).
    - apply keepsMethod_new. apply (bool_decide_unpack _).
      vm_compute. exact I. }
  assert (Hall : allKeep "toJSON" (Map_set key r (userStates s)))
    by (by apply allKeep_set).
  unfold updateUserState.
  unfold bind at 1. rewrite (initialize_done s Hi). simpl.
  unfold bind at 1. unfold gets at 1.
  subst r base. fold key. fold key in Hall.
  destruct (Map_get key (userStates s)) as [st|] eqn:Hfound; simpl in *.
  - unfold bind, ret, modify. rewrite saveUserStates_ok by done.
    eexists. split; [reflexivity|]. simpl. done.
  - unfold bind, ret, modify, currentTime.
    rewrite saveUserStates_ok by (simpl; by rewrite ?Map_set_set).
    eexists. split; [reflexivity|]. simpl.
    rewrite Map_set_set. done.
Qed.

Lemma updateUserState_lazy (s s1 : state) (userId guildId : string)
    (updates : option obj) :
  initialize s = (Normal tt, s1) →
  updateUserState userId guildId updates s
  = updateUserState userId guildId updates s1.
Proof.
  intros Hi. unfold updateUserState.
  eapply eq_trans; [apply (after_initialize _ s s1 Hi)|].
  symmetry. apply (after_initialize _ s s1 Hi).
Qed.

(** C3. From a manager that initialises and whose writes succeed, with
    no property named toJSON or __proto__ in the loaded records and in
    the two patches (so that every record of the map still answers the
    call [state.toJSON()] of the save),
    [updateUserState] on a key that is not in the map appends a record
    made of the constructor's defaults with the patch's properties on
    top; a second call on the same key lays its patch over the result of
    the first, property by property: what the later patch sets has the
    later value, what only the earlier patch sets keeps the earlier
    value, the rest is as it was.  Each call returns the record that is
    in the map under the key, and leaves in the file the serialisation
    of the whole map. *)
Theorem C3_updateUserState_merge (s s1 : state) (userId guildId : string)
    (patch1 patch2 : obj) :
  initialize s = (Normal tt, s1) →
  writeFault s1 = None →
  allKeep "toJSON" (userStates s1) →
  keepsMethod "toJSON" patch1 →
  keepsMethod "toJSON" patch2 →
  let key := getUserKey userId guildId in
  let defaults :=
    UserState.new (clock s1 (ticks s1)) (VStr userId) (VStr guildId) in
  let base := default defaults (Map_get key (userStates s1)) in
  ∃ r1 s2 r2 s3,
    updateUserState userId guildId (Some patch1) s = (Normal r1, s2)
    ∧ updateUserState userId guildId (Some patch2) s2 = (Normal r2, s3)
    ∧ (Map_get key (userStates s1) = None →
         userStates s2 = (userStates s1 ++ [(key, r1)])%list
         ∧ ∀ k, r1 !! k = match patch1 !! k with
                          | Some v => Some v
                          | None => defaults !! k
                          end)
    ∧ (∀ k, r1 !! k = match patch1 !! k with
                      | Some v => Some v
                      | None => base !! k
                      end)
    ∧ (∀ k, r2 !! k = match patch2 !! k with
                      | Some v => Some v
                      | None => match patch1 !! k with
                                | Some v => Some v
                                | None => base !! k
                                end
                      end)
    ∧ Map_get key (userStates s2) = Some r1
    ∧ Map_get key (userStates s3) = Some r2
    ∧ userStatesFile s2 = persisted (userStates s2)
    ∧ userStatesFile s3 = persisted (userStates s3)
    ∧ (NoDup (List.map fst (userStates s1)) →
         userStatesFile s2 = snapshot (userStates s2)
         ∧ userStatesFile s3 = snapshot (userStates s3)).
Proof.
  intros Hi Hw Hkeep Hp1 Hp2 key defaults base.
  destruct (initialize_post s s1 Hi) as [Hd _].
  destruct (updateUserState_run s1 userId guildId patch1 Hd Hw Hkeep Hp1)
    as (s2 & Hrun1 & Hm2 & Hd2 & Hw2 & Hf2 & Hkeep2).
  fold key in Hrun1, Hm2. fold defaults in Hrun1, Hm2.
  fold base in Hrun1, Hm2.
  set (r1 := Object_assign base patch1) in *.
  destruct (updateUserState_run s2 userId guildId patch2 Hd2 Hw2 Hkeep2 Hp2)
    as (s3 & Hrun2 & Hm3 & Hd3 & Hw3 & Hf3 & Hkeep3).
  fold key in Hrun2, Hm3.
  assert (Hget2 : Map_get key (userStates s2) = Some r1).
  { rewrite Hm2. apply Map_get_set_eq. }
  rewrite Hget2 in Hrun2, Hm3. simpl in Hrun2, Hm3.
  set (r2 := Object_assign r1 patch2) in *.
  exists r1, s2, r2, s3.
  split; [by rewrite (updateUserState_lazy s s1 _ _ _ Hi)|].
  split; [done|].
  split; [|split; [|split; [|split; [|split; [|split; [|split]]]]]].
  - intros Habs. split.
    + rewrite Hm2. by apply Map_set_absent.
    + intros k. subst r1 base. rewrite Habs. simpl.
      apply Object_assign_lookup.
  - intros k. apply Object_assign_lookup.
  - intros k. subst r2 r1. rewrite !Object_assign_lookup. done.
  - done.
  - rewrite Hm3. apply Map_get_set_eq.
  - done.
  - done.
  - intros Hnd.
    assert (Hnd2 : NoDup (List.map fst (userStates s2))).
    { rewrite Hm2. by apply Map_set_NoDup. }
    assert (Hnd3 : NoDup (List.map fst (userStates s3))).
    { rewrite Hm3. by apply Map_set_NoDup. }
    by rewrite Hf2, Hf3, !persisted_snapshot.
Qed.

(** C8. From a manager that initialises and whose writes succeed, with
    no property named toJSON or __proto__ in the loaded records (so that
    every record still answers the call [state.toJSON()] of the save),
    [deleteUserState] ends normally whether the key is in the map or
    not, takes the key out of the map (and nothing else; an absent key
    leaves the map as it was), writes the map to the file, and a
    [getUserState] for the same user and guild right after returns
    null. *)
Theorem C8_delete_then_get (s s1 : state) (userId guildId : string) :
  initialize s = (Normal tt, s1) →
  writeFault s1 = None →
  allKeep "toJSON" (userStates s1) →
  let key := getUserKey userId guildId in
  ∃ s2,
    deleteUserState userId guildId s = (Normal tt, s2)
    ∧ userStates s2 = Map_delete key (userStates s1)
    ∧ Map_get key (userStates s2) = None
    ∧ (∀ k, k ≠ key → Map_get k (userStates s2) = Map_get k (userStates s1))
    ∧ (Map_get key (userStates s1) = None → userStates s2 = userStates s1)
    ∧ userStatesFile s2 = persisted (userStates s2)
    ∧ (NoDup (List.map fst (userStates s1)) →
         userStatesFile s2 = snapshot (userStates s2))
    ∧ getUserState userId guildId s2 = (Normal None, s2).
Proof.
  intros Hi Hw Hkeep key.
  destruct (initialize_post s s1 Hi) as [Hd _].
  exists (with_userStatesFile
            (persisted (Map_delete key (userStates s1)))
            (with_userStates (Map_delete key (userStates s1)) s1)).
  split.
  { unfold deleteUserState.
    rewrite (proj1 (after_initialize _ s s1 Hi)).
    unfold bind, modify. fold key.
    rewrite saveUserStates_ok; [done|done|].
    simpl. by apply allKeep_delete. }
  simpl. split; [done|].
  split; [apply Map_get_delete_eq|].
  split; [intros k Hk; by apply Map_get_delete_ne|].
  split; [intros Habs; by apply Map_delete_absent|].
  split; [done|].
  split.
  { intros Hnd. apply persisted_snapshot. by apply Map_delete_NoDup. }
  unfold getUserState, bind. rewrite initialize_done by done.
  unfold gets, ret. simpl. fold key.
  by rewrite Map_get_delete_eq.
Qed.

Lemma lessThan_number (n r : Z) : lessThan (VNum n) r = (n <? r)%Z.
Proof.
  unfold lessThan, numberCompare, Z.ltb. by destruct (n ?= r)%Z.
Qed.

Lemma needsReminder_eligible (now : Z) (guildId : string)
    (maxReminders : Z) (state : obj) :
  reminderTyped state →
  needsReminder now guildId maxReminders state
  = eligible now guildId maxReminders state.
Proof.
  intros [[b Hb] [n Hn]]. unfold needsReminder, eligible, strict_eq.
  rewrite Hb, Hn, lessThan_number. simpl.
  destruct (bool_decide (get state "guildId" = VStr guildId)); simpl; [|done].
  destruct b; simpl; [done|].
  destruct (n <? maxReminders)%Z; simpl; [|done].
  by destruct (newDate (get state "onboardingStartedAt")).
Qed.

Lemma push_loop_filter (test : obj → bool) (m : list (string * obj))
    (acc : list obj) :
  foldl (fun found kv => if test kv.2 then (found ++ [kv.2])%list else found)
        acc m
  = (acc ++ List.filter test (List.map snd m))%list.
Proof.
  revert acc. induction m as [|[k st] m IH]; intros acc; simpl.
  - by rewrite app_nil_r.
  - rewrite IH. destruct (test st); [|done].
    by rewrite <- app_assoc.
Qed.

(** C2. From a manager that initialises, with records whose
    rulesAcknowledged is a boolean and whose remindersSent is a number,
    [getUsersNeedingReminders] returns, in the order of the map, exactly
    the records of the guild with rulesAcknowledged false, remindersSent
    strictly below maxReminders (so not one with remindersSent equal to
    it) and a start at least 24 hours (86400000 ms, a constant of the
    method) before the clock reading; the map and the file are as
    before.  Without the second argument the maximum is 3. *)
Theorem C2_getUsersNeedingReminders (s s1 : state) (guildId : string)
    (maxReminders : Z) :
  initialize s = (Normal tt, s1) →
  Forall (fun kv => reminderTyped kv.2) (userStates s1) →
  let now := clock s1 (ticks s1) in
  ∃ result s2,
    getUsersNeedingReminders guildId (Some maxReminders) s
    = (Normal result, s2)
    ∧ result = List.filter (eligible now guildId maxReminders)
                           (List.map snd (userStates s1))
    ∧ (∀ state, get state "remindersSent" = VNum maxReminders →
         state ∉ result)
    ∧ (∀ state startedAt,
         newDate (get state "onboardingStartedAt") = Some startedAt →
         (now - startedAt < 86400000)%Z → state ∉ result)
    ∧ userStates s2 = userStates s1
    ∧ userStatesFile s2 = userStatesFile s1
    ∧ getUsersNeedingReminders guildId None s
      = getUsersNeedingReminders guildId (Some 3%Z) s.
Proof.
  intros Hi Htyped now.
  set (result := List.filter (eligible now guildId maxReminders)
                             (List.map snd (userStates s1))).
  exists result, (with_ticks (S (ticks s1)) s1).
  assert (Hnot : ∀ state,
            eligible now guildId maxReminders state = false →
            state ∉ result).
  { intros state Hno Hin. subst result.
    apply list_elem_of_In, List.filter_In in Hin as [_ Hyes]. congruence. }
  split; [|split; [done|split; [|split; [|split; [done|split; [done|done]]]]]].
  - unfold getUsersNeedingReminders. simpl.
    rewrite (proj1 (after_initialize _ s s1 Hi)).
    unfold bind, currentTime, gets, ret. simpl. fold now.
    rewrite push_loop_filter. simpl. do 2 f_equal.
    subst result. apply List.filter_ext_in. intros state Hin.
    apply needsReminder_eligible.
    apply List.in_map_iff in Hin as ([k st] & <- & Hin).
    rewrite Forall_forall in Htyped.
    apply (Htyped (k, st)). by apply list_elem_of_In.
  - intros state Hsent. apply Hnot. unfold eligible. rewrite Hsent.
    rewrite Z.ltb_irrefl. by rewrite !andb_false_r.
  - intros state startedAt Hstart Hrecent. apply Hnot. unfold eligible.
    rewrite Hstart.
    replace (24 * 60 * 60 * 1000 <=? now - startedAt)%Z with false
      by (symmetry; apply Z.leb_gt; lia).
    by rewrite !andb_false_r.
Qed.

End ManagerProperties.

(** * Examples: the test suite, run on the model *)

Example getUserKey_test :
  UserStateManager.getUserKey "user123" "guild456" = "guild456-user123".
Proof. reflexivity. Qed.

Example getUserState_fresh_test :
  (@UserStateManager.getUserState exampleRuntime "user123" "guild456"
     freshManager).1 = Normal None.
Proof. reflexivity. Qed.

Example reminders_test :
  match (reminderScenario 0 freshManager).1 with
  | Normal users => List.map (fun u => get u "userId") users = [VStr "user1"]
  | Throw _ => False
  end.
Proof. vm_compute. reflexivity. Qed.

Example max_reminders_test :
  match (reminderScenario 3 freshManager).1 with
  | Normal users => users = []
  | Throw _ => False
  end.
Proof. vm_compute. reflexivity. Qed.

Example markStepComplete_test :
  match (@UserStateManager.markStepComplete exampleRuntime "user123"
           "guild456" (VStr "rules") freshManager).1 with
  | Normal state =>
      get state "rulesAcknowledged" = VBool true
      ∧ get state "rulesAcknowledgedAt" = VStr "1970-01-01T00:00:00.000Z"
      ∧ get state "onboardingStep" = VStr "github"
  | Throw _ => False
  end.
Proof. vm_compute. repeat split. Qed.

Example validate_missing_guild_test :
  @OnboardingConfig.validate exampleRuntime
    (<["guildId" := VNull]> (OnboardingConfig.new (VStr "guild123")))
  = Normal {| OnboardingConfig.isValid := false;
              OnboardingConfig.errors := [OnboardingConfig.msgGuildId] |}.
Proof. vm_compute. reflexivity. Qed.

(** A truthy text that is not a string has no [trim]: [validate] throws. *)
Example validate_number_as_text :
  @OnboardingConfig.validate exampleRuntime
    (<["welcomeMessage" := VNum 5]> (OnboardingConfig.new (VStr "guild123")))
  = Throw TypeError.
Proof. vm_compute. reflexivity. Qed.

(** * The theorems at concrete inputs *)

(** C4 on a freshly constructed record. *)
Lemma C4_skip_ahead_witness :
  let this := @UserState.new exampleRuntime 0 (VStr "user123") (VStr "guild456") in
  get this "onboardingStep" = VStr "welcome"
  ∧ get (@UserState.completeStep exampleRuntime 90000000 (VStr "tutorial") this)
        "onboardingStep" = VStr "complete".
Proof.
  intros this. split; [reflexivity|].
  apply (@C4_skip_ahead exampleRuntime 90000000 this). reflexivity.
Defined.

(** C7 with the step "welcome", which no case of the switch names. *)
Lemma C7_unknown_step_noop_witness :
  let this := @UserState.new exampleRuntime 0 (VStr "user123") (VStr "guild456") in
  VStr "welcome" ≠ VStr "rules"
  ∧ @UserState.completeStep exampleRuntime 90000000 (VStr "welcome") this = this.
Proof.
  intros this. split; [discriminate|].
  apply (@C7_unknown_step_noop exampleRuntime 90000000 (VStr "welcome") this);
    discriminate.
Defined.

(** C9 for remindersSent across completeStep("rules"). *)
Lemma C9_completeStep_frame_witness :
  let this := @UserState.new exampleRuntime 0 (VStr "user123") (VStr "guild456") in
  ("remindersSent" ∉ completeStep_writes)
  ∧ (@UserState.completeStep exampleRuntime 90000000 (VStr "rules") this)
      !! "remindersSent" = Some (VNum 0).
Proof.
  intros this.
  assert (Hk : "remindersSent" ∉ completeStep_writes).
  { apply (bool_decide_unpack _). vm_compute. exact I. }
  split; [exact Hk|].
  rewrite (proj1 (@C9_completeStep_frame exampleRuntime 90000000
                    (VStr "rules") this "remindersSent" Hk)).
  reflexivity.
Defined.

(** C10 for data that holds userId and guildId only. *)
Lemma C10_fromJSON_defaults_witness :
  let data : obj :=
    <["userId" := VStr "user789"]> (<["guildId" := VStr "guild012"]> ∅) in
  data !! "onboardingStartedAt" = None
  ∧ (@UserState.fromJSON exampleRuntime 90000000 data) !! "onboardingStartedAt"
    = Some (VStr "1970-01-02T01:00:00.000Z").
Proof.
  intros data. split; [reflexivity|].
  rewrite (proj1 (@C10_fromJSON_defaults exampleRuntime 90000000 data
                    "onboardingStartedAt" eq_refl)).
  reflexivity.
Defined.

(** C5 for data with one canonical and one injected property. *)
Lemma C5_serialize_roundtrip_witness :
  let x : obj :=
    <["injected" := VStr "extra"]>
    (<["remindersSent" := VNum 1]>
    (<["userId" := VStr "user789"]> (<["guildId" := VStr "guild012"]> ∅))) in
  keepsMethod "toJSON" x
  ∧ x !! "remindersSent" = Some (VNum 1)
  ∧ ∃ json,
      invoke "toJSON" UserState.toJSON (@UserState.fromJSON exampleRuntime 0 x)
      = Normal json
      ∧ assoc "remindersSent" json = Some (VNum 1)
      ∧ assoc "injected" json = None.
Proof.
  intros x.
  assert (Hx : keepsMethod "toJSON" x) by (split; reflexivity).
  destruct (@C5_serialize_roundtrip exampleRuntime 0 x x)
    as [(_ & _ & Hround & _) _].
  destruct (Hround Hx) as (json & Hjson & Hhas & Hextra & _).
  split; [exact Hx|]. split; [reflexivity|].
  exists json. split; [exact Hjson|]. split.
  - apply Hhas; [|reflexivity].
    apply (bool_decide_unpack _). vm_compute. exact I.
  - apply Hextra.
    apply (bool_decide_unpack _). vm_compute. exact I.
Defined.

(** C6 on the config constructed for guild123. *)
Lemma C6_validate_witness :
  let this := OnboardingConfig.new (VStr "guild123") in
  get this "reminderIntervalHours" = VNum 24
  ∧ get this "maxReminders" = VNum 3
  ∧ get this "welcomeMessage" = VStr OnboardingConfig.getDefaultWelcomeMessage
  ∧ get this "rulesContent" = VStr OnboardingConfig.getDefaultRulesContent
  ∧ @OnboardingConfig.validate exampleRuntime this
    = Normal (expectedResult (VStr "guild123") 24 3
                OnboardingConfig.getDefaultWelcomeMessage
                OnboardingConfig.getDefaultRulesContent).
Proof.
  intros this. repeat (split; [reflexivity|]).
  apply (proj1 (@C6_validate exampleRuntime this 24 3
                  OnboardingConfig.getDefaultWelcomeMessage
                  OnboardingConfig.getDefaultRulesContent
                  eq_refl eq_refl eq_refl eq_refl)).
Defined.

(** C3 with the two patches of the update test, from a manager with no file. *)
Lemma C3_updateUserState_merge_witness :
  let s1 := (@UserStateManager.initialize exampleRuntime freshManager).2 in
  let patch1 : obj :=
    <["onboardingStep" := VStr "welcome"]> (<["remindersSent" := VNum 1]> ∅) in
  let patch2 : obj :=
    <["onboardingStep" := VStr "rules"]>
    (<["rulesAcknowledged" := VBool true]> ∅) in
  @UserStateManager.initialize exampleRuntime freshManager = (Normal tt, s1)
  ∧ UserStateManager.writeFault s1 = None
  ∧ allKeep "toJSON" (UserStateManager.userStates s1)
  ∧ keepsMethod "toJSON" patch1
  ∧ keepsMethod "toJSON" patch2
  ∧ ∃ r1 s2 r2 s3,
      @UserStateManager.updateUserState exampleRuntime "user123" "guild456"
        (Some patch1) freshManager = (Normal r1, s2)
      ∧ @UserStateManager.updateUserState exampleRuntime "user123" "guild456"
          (Some patch2) s2 = (Normal r2, s3)
      ∧ r2 !! "onboardingStep" = Some (VStr "rules")
      ∧ r2 !! "remindersSent" = Some (VNum 1)
      ∧ r2 !! "githubConnected" = Some (VBool false).
Proof.
  intros s1 patch1 patch2.
  assert (Hkeep : allKeep "toJSON" (UserStateManager.userStates s1))
    by apply Forall_nil_2.
  assert (Hp1 : keepsMethod "toJSON" patch1) by (split; reflexivity).
  assert (Hp2 : keepsMethod "toJSON" patch2) by (split; reflexivity).
  split; [reflexivity|]. split; [reflexivity|].
  split; [exact Hkeep|]. split; [exact Hp1|]. split; [exact Hp2|].
  destruct (@C3_updateUserState_merge exampleRuntime freshManager s1
              "user123" "guild456" patch1 patch2 eq_refl eq_refl
              Hkeep Hp1 Hp2)
    as (r1 & s2 & r2 & s3 & Hrun1 & Hrun2 & _ & _ & Hr2 & _).
  exists r1, s2, r2, s3.
  split; [exact Hrun1|]. split; [exact Hrun2|].
  rewrite !Hr2. repeat split; reflexivity.
Defined.

(** C8 for user2 of the reminder test. *)
Lemma C8_delete_then_get_witness :
  @UserStateManager.initialize exampleRuntime reminderManager
  = (Normal tt, reminderManager)
  ∧ UserStateManager.writeFault reminderManager = None
  ∧ allKeep "toJSON" (UserStateManager.userStates reminderManager)
  ∧ ∃ s2,
      @UserStateManager.deleteUserState exampleRuntime "user2" "guild456"
        reminderManager = (Normal tt, s2)
      ∧ @UserStateManager.getUserState exampleRuntime "user2" "guild456" s2
        = (Normal None, s2)
      ∧ List.map fst (UserStateManager.userStates s2)
        = ["guild456-user1"; "guild456-user3"].
Proof.
  assert (Hkeep : allKeep "toJSON"
                    (UserStateManager.userStates reminderManager)).
  { repeat (apply Forall_cons; split; [split; reflexivity|]).
    apply Forall_nil; exact I. }
  split; [reflexivity|]. split; [reflexivity|]. split; [exact Hkeep|].
  destruct (@C8_delete_then_get exampleRuntime reminderManager reminderManager
              "user2" "guild456" eq_refl eq_refl Hkeep)
    as (s2 & Hrun & Hm & _ & _ & _ & _ & _ & Hget).
  exists s2. split; [exact Hrun|]. split; [exact Hget|].
  rewrite Hm. reflexivity.
Defined.

(** C2 on the three records of the reminder test. *)
Lemma C2_getUsersNeedingReminders_witness :
  @UserStateManager.initialize exampleRuntime reminderManager
  = (Normal tt, reminderManager)
  ∧ Forall (fun kv => reminderTyped kv.2)
           (UserStateManager.userStates reminderManager)
  ∧ ∃ result s2,
      @UserStateManager.getUsersNeedingReminders exampleRuntime "guild456"
        (Some 3%Z) reminderManager = (Normal result, s2)
      ∧ List.map (fun u => get u "userId") result = [VStr "user1"]
      ∧ UserStateManager.userStates s2
        = UserStateManager.userStates reminderManager.
Proof.
  assert (Htyped : Forall (fun kv => reminderTyped kv.2)
                          (UserStateManager.userStates reminderManager)).
  { repeat (apply Forall_cons; split;
            [split; eexists; reflexivity|]).
    apply Forall_nil; exact I. }
  split; [reflexivity|]. split; [exact Htyped|].
  destruct (@C2_getUsersNeedingReminders exampleRuntime reminderManager
              reminderManager "guild456" 3%Z eq_refl Htyped)
    as (result & s2 & Hrun & Hres & _ & _ & Hm & _).
  exists result, s2. split; [exact Hrun|]. split; [|exact Hm].
  rewrite Hres. reflexivity.
Defined.

(** The settings the validation test suite and the specification name. *)

Example validate_interval_0_test :
  @OnboardingConfig.validate exampleRuntime
    (<["reminderIntervalHours" := VNum 0]>
       (OnboardingConfig.new (VStr "guild123")))
  = Normal {| OnboardingConfig.isValid := false;
              OnboardingConfig.errors := [OnboardingConfig.msgInterval] |}.
Proof. vm_compute. reflexivity. Qed.

Example validate_interval_200_test :
  @OnboardingConfig.validate exampleRuntime
    (<["reminderIntervalHours" := VNum 200]>
       (OnboardingConfig.new (VStr "guild123")))
  = Normal {| OnboardingConfig.isValid := false;
              OnboardingConfig.errors := [OnboardingConfig.msgInterval] |}.
Proof. vm_compute. reflexivity. Qed.

Example validate_max_reminders_test :
  @OnboardingConfig.validate exampleRuntime
    (<["maxReminders" := VNum (-1)]> (OnboardingConfig.new (VStr "guild123")))
  = Normal {| OnboardingConfig.isValid := false;
              OnboardingConfig.errors := [OnboardingConfig.msgMaxReminders] |}
  ∧ @OnboardingConfig.validate exampleRuntime
      (<["maxReminders" := VNum 11]> (OnboardingConfig.new (VStr "guild123")))
    = Normal {| OnboardingConfig.isValid := false;
                OnboardingConfig.errors := [OnboardingConfig.msgMaxReminders] |}.
Proof. split; vm_compute; reflexivity. Qed.

(** Two violations at once: both messages, in the order of the checks. *)
Example validate_two_violations_test :
  @OnboardingConfig.validate exampleRuntime
    (<["rulesContent" := VStr EmptyString]>
       (<["reminderIntervalHours" := VNum 0]>
          (OnboardingConfig.new (VStr "guild123"))))
  = Normal {| OnboardingConfig.isValid := false;
              OnboardingConfig.errors :=
                [OnboardingConfig.msgInterval; OnboardingConfig.msgRules] |}.
Proof. vm_compute. reflexivity. Qed.

(** * Further properties of the manager *)

Section ManagerRuns.
Context `{Runtime}.
Import UserStateManager.

Lemma loadEntries_normal entries (s : state) :
  (loadEntries entries s).1 = Normal tt.
Proof.
  revert s. induction entries as [|[key stateData] rest IH]; intros s;
    [done|].
  simpl. unfold bind, currentTime, modify. simpl. apply IH.
Qed.

Lemma loadEntries_frame entries (s : state) :
  let s' := (loadEntries entries s).2 in
  initialized s' = initialized s
  ∧ userStatesFile s' = userStatesFile s
  ∧ mkdirFault s' = mkdirFault s
  ∧ clock s' = clock s
  ∧ ticks s' = (ticks s + List.length entries)%nat.
Proof.
  revert s. induction entries as [|[key stateData] rest IH]; intros s; simpl.
  - repeat split; lia.
  - unfold bind, currentTime, modify. simpl.
    destruct (IH (with_userStates
                    (Map_set key
                       (UserState.fromJSON (clock s (ticks s))
                          (parseObject stateData)) (userStates s))
                    (with_ticks (S (ticks s)) s)))
      as (Hi & Hf & Hm & Hc & Ht).
    simpl in *. repeat split; try done. lia.
Qed.

(** [initialize] when the directory cannot be made. *)
Lemma initialize_mkdir_fails (s : state) (e : exn) :
  initialized s = false → mkdirFault s = Some e →
  initialize s = (Throw e, s).
Proof.
  intros Hi Hm. unfold initialize, bind, gets. rewrite Hi.
  unfold try_catch, bind, mkdir, throw. by rewrite Hm.
Qed.

(** [initialize] when the file cannot be read or parsed. *)
Lemma initialize_unreadable (s : state) (e : exn) :
  initialized s = false → mkdirFault s = None →
  userStatesFile s = Unreadable e → isENOENT e = false →
  initialize s = (Throw e, s).
Proof.
  intros Hi Hm Hf He. unfold initialize, bind, gets. rewrite Hi.
  unfold try_catch, bind, mkdir, throw. rewrite Hm. simpl.
  unfold loadUserStates, try_catch, bind, readDocument, throw.
  by rewrite Hf, He.
Qed.

(** [initialize] when there is no file. *)
Lemma initialize_no_file (s : state) (e : exn) :
  initialized s = false → mkdirFault s = None →
  userStatesFile s = Unreadable e → isENOENT e = true →
  initialize s = (Normal tt, with_initialized true (with_userStates [] s)).
Proof.
  intros Hi Hm Hf He. unfold initialize, bind, gets. rewrite Hi.
  unfold try_catch, bind, mkdir, throw. rewrite Hm. simpl.
  unfold loadUserStates, try_catch, bind, readDocument, modify.
  by rewrite Hf, He.
Qed.

(** [initialize] when the file holds a document. *)
Lemma initialize_document (s : state) d :
  initialized s = false → mkdirFault s = None →
  userStatesFile s = Document d →
  initialize s
  = (Normal tt,
     with_initialized true (loadEntries d (with_userStates [] s)).2).
Proof.
  intros Hi Hm Hf. unfold initialize, bind, gets. rewrite Hi.
  unfold try_catch, bind, mkdir, throw. rewrite Hm. simpl.
  unfold loadUserStates, try_catch, bind, readDocument, modify.
  rewrite Hf. simpl.
  pose proof (loadEntries_normal d (with_userStates [] s)) as Hn.
  destruct (loadEntries d (with_userStates [] s)) as [c s']. simpl in *.
  by rewrite Hn.
Qed.



(** [saveUserStates] changes the file or nothing. *)
Lemma saveUserStates_cases (s : state) :
  (∃ f, saveUserStates s = (Normal tt, with_userStatesFile f s))
  ∨ (∃ e, saveUserStates s = (Throw e, s)).
Proof.
  rewrite saveUserStates_unfold.
  destruct (collectStates (userStates s) []); [|by right; eexists].
  destruct (writeFault s); [by right; eexists | by left; eexists].
Qed.

Lemma saveUserStates_fails (s : state) (e : exn) :
  writeFault s = Some e →
  allKeep "toJSON" (userStates s) →
  saveUserStates s = (Throw e, s).
Proof.
  intros Hw Hkeep. rewrite saveUserStates_unfold.
  by rewrite (collectStates_keep _ [] Hkeep), Hw.
Qed.


(** The record [updateUserState] leaves under the key keeps its [toJSON]
    when the records of the map and the patch do. *)
Lemma patched_keeps (s : state) (userId guildId : string) (updates : obj)
    (now : Z) :
  allKeep "toJSON" (userStates s) →
  keepsMethod "toJSON" updates →
  keepsMethod "toJSON"
    (Object_assign
       (default (UserState.new now (VStr userId) (VStr guildId))
                (Map_get (getUserKey userId guildId) (userStates s)))
       updates).
Proof.
  intros Hkeep Hpatch. apply keepsMethod_assign; [|done].
  destruct (Map_get (getUserKey userId guildId) (userStates s)) as [st|]
    eqn:Hfound; simpl.
  - by apply (allKeep_get _ _ _ _ Hkeep Hfound).
  - apply keepsMethod_new. apply method_not_field.
Qed.

(** The loop of [getGuildUserStates] and of [getUsersNeedingReminders]. *)
Lemma getGuildUserStates_run (s s1 : state) (guildId : string) :
  initialize s = (Normal tt, s1) →
  getGuildUserStates guildId s
  = (Normal (List.filter (ofGuild guildId) (List.map snd (userStates s1))), s1).
Proof.
  intros Hi. unfold getGuildUserStates.
  rewrite (proj1 (after_initialize _ s s1 Hi)).
  unfold bind, gets, ret. simpl.
  by rewrite (push_loop_filter
                (fun st => strict_eq (get st "guildId") (VStr guildId))).
Qed.

Lemma getUsersNeedingReminders_run (s s1 : state) (guildId : string)
    (maxReminders : option Z) :
  initialize s = (Normal tt, s1) →
  getUsersNeedingReminders guildId maxReminders s
  = (Normal (List.filter
               (needsReminder (clock s1 (ticks s1)) guildId
                  (default 3%Z maxReminders))
               (List.map snd (userStates s1))),
     with_ticks (S (ticks s1)) s1).
Proof.
  intros Hi. unfold getUsersNeedingReminders.
  rewrite (proj1 (after_initialize _ s s1 Hi)).
  unfold bind, currentTime, gets, ret. simpl.
  by rewrite push_loop_filter.
Qed.

Lemma getUserState_run (s s1 : state) (userId guildId : string) :
  initialize s = (Normal tt, s1) →
  getUserState userId guildId s
  = (Normal (Map_get (getUserKey userId guildId) (userStates s1)), s1).
Proof.
  intros Hi. unfold getUserState.
  by rewrite (proj1 (after_initialize _ s s1 Hi)).
Qed.

Lemma needsReminder_ofGuild (now : Z) (guildId : string) (maxReminders : Z)
    (state : obj) :
  needsReminder now guildId maxReminders state = true →
  ofGuild guildId state = true.
Proof.
  unfold needsReminder, ofGuild, strict_eq.
  by destruct (bool_decide (get state "guildId" = VStr guildId)).
Qed.

(** X1. From a manager that initialises, [getGuildUserStates] returns, in
    the order of the map, exactly the records whose guildId property is
    the argument, and leaves the manager as initialisation left it. *)
Theorem X1_getGuildUserStates (s s1 : state) (guildId : string) :
  initialize s = (Normal tt, s1) →
  ∃ result,
    getGuildUserStates guildId s = (Normal result, s1)
    ∧ result = List.filter (ofGuild guildId) (List.map snd (userStates s1))
    ∧ (∀ state, state ∈ result ↔
         state ∈ List.map snd (userStates s1)
         ∧ get state "guildId" = VStr guildId)
    ∧ result `sublist_of` List.map snd (userStates s1).
Proof.
  intros Hi. eexists. split; [by apply getGuildUserStates_run|].
  split; [done|]. split.
  - intros state. rewrite !list_elem_of_In, List.filter_In.
    unfold ofGuild. rewrite bool_decide_eq_true. done.
  - induction (List.map snd (userStates s1)) as [|st l IH]; simpl; [done|].
    destruct (ofGuild guildId st);
      [by apply sublist_skip | by apply sublist_cons].
Qed.

Lemma List_filter_sublist {A} (test : A → bool) (l : list A) :
  List.filter test l `sublist_of` l.
Proof.
  induction l as [|a l IH]; simpl; [done|].
  destruct (test a); [by apply sublist_skip | by apply sublist_cons].
Qed.

Lemma List_filter_filter_implied {A} (p q : A → bool) (l : list A) :
  (∀ a, p a = true → q a = true) →
  List.filter p l = List.filter p (List.filter q l).
Proof.
  intros Hpq. induction l as [|a l IH]; simpl; [done|].
  destruct (p a) eqn:Hp.
  - rewrite (Hpq a Hp). simpl. by rewrite Hp, IH.
  - destruct (q a); simpl; [by rewrite Hp|done].
Qed.

(** X2. The users that need a reminder are users of the guild: what
    [getUsersNeedingReminders] returns is what its test keeps of the
    result of [getGuildUserStates] for the same guild, in the same
    order. *)
Theorem X2_reminders_among_guild (s s1 : state) (guildId : string)
    (maxReminders : option Z) :
  initialize s = (Normal tt, s1) →
  ∃ users s2 guild,
    getUsersNeedingReminders guildId maxReminders s = (Normal users, s2)
    ∧ getGuildUserStates guildId s = (Normal guild, s1)
    ∧ users = List.filter
                (needsReminder (clock s1 (ticks s1)) guildId
                   (default 3%Z maxReminders)) guild
    ∧ users `sublist_of` guild.
Proof.
  intros Hi. do 3 eexists.
  split; [by apply getUsersNeedingReminders_run|].
  split; [by apply getGuildUserStates_run|].
  assert (Hfilter :
    List.filter (needsReminder (clock s1 (ticks s1)) guildId
                   (default 3%Z maxReminders))
                (List.map snd (userStates s1))
    = List.filter (needsReminder (clock s1 (ticks s1)) guildId
                     (default 3%Z maxReminders))
                  (List.filter (ofGuild guildId)
                               (List.map snd (userStates s1)))).
  { apply List_filter_filter_implied. intros st.
    apply needsReminder_ofGuild. }
  split; [exact Hfilter|].
  rewrite Hfilter. apply List_filter_sublist.
Qed.

(** X3. A manager that has not initialised and finds no file (reading
    fails with code ENOENT) starts empty: [getUserState] returns null for
    every user and guild, whatever the map held, the guild and reminder
    queries return nothing, the manager is initialised, and no file is
    written. *)
Theorem X3_fresh_store (s : state) (e : exn) (userId guildId : string)
    (maxReminders : option Z) :
  initialized s = false →
  mkdirFault s = None →
  userStatesFile s = Unreadable e →
  isENOENT e = true →
  let s1 := with_initialized true (with_userStates [] s) in
  getUserState userId guildId s = (Normal None, s1)
  ∧ getGuildUserStates guildId s = (Normal [], s1)
  ∧ getUsersNeedingReminders guildId maxReminders s
    = (Normal [], with_ticks (S (ticks s)) s1)
  ∧ userStatesFile s1 = Unreadable e.
Proof.
  intros Hi Hm Hf He s1.
  pose proof (initialize_no_file s e Hi Hm Hf He) as Hinit. fold s1 in Hinit.
  split; [by rewrite (getUserState_run s s1)|].
  split; [by rewrite (getGuildUserStates_run s s1)|].
  split; [by rewrite (getUsersNeedingReminders_run s s1)|].
  done.
Qed.

Lemma initialize_throws {A} (k : M A) (s : state) (e : exn) (s' : state) :
  initialize s = (Throw e, s') →
  bind initialize (fun _ => k) s = (Throw e, s').
Proof. intros Hi. unfold bind. by rewrite Hi. Qed.

(** X4. When [fs.mkdir] fails, or the file cannot be read or parsed for a
    reason other than ENOENT, [initialize] throws that error and leaves
    the manager as it was, not initialised; every method of the manager
    then throws the same error without touching the map or the file. *)
Theorem X4_initialize_error_propagates (s : state) (e : exn)
    (userId guildId : string) (updates : option obj) (step : value)
    (maxReminders : option Z) :
  initialized s = false →
  mkdirFault s = Some e
  ∨ (mkdirFault s = None ∧ userStatesFile s = Unreadable e
     ∧ isENOENT e = false) →
  initialize s = (Throw e, s)
  ∧ getUserState userId guildId s = (Throw e, s)
  ∧ updateUserState userId guildId updates s = (Throw e, s)
  ∧ setOnboardingStep userId guildId step s = (Throw e, s)
  ∧ markStepComplete userId guildId step s = (Throw e, s)
  ∧ getGuildUserStates guildId s = (Throw e, s)
  ∧ deleteUserState userId guildId s = (Throw e, s)
  ∧ getUsersNeedingReminders guildId maxReminders s = (Throw e, s).
Proof.
  intros Hi Hcause.
  assert (Hinit : initialize s = (Throw e, s)).
  { destruct Hcause as [Hm|(Hm & Hf & He)].
    - by apply initialize_mkdir_fails.
    - by apply initialize_unreadable. }
  split; [exact Hinit|].
  repeat split; apply (initialize_throws _ s e s Hinit).
Qed.

(** X5. The file is read once: after a successful [initialize], whatever
    becomes of the file, a further [initialize] does nothing and
    [getUserState] answers from the map in memory. *)
Theorem X5_file_read_once (s s1 : state) (f : file)
    (userId guildId : string) :
  initialize s = (Normal tt, s1) →
  let s1' := with_userStatesFile f s1 in
  initialize s1' = (Normal tt, s1')
  ∧ getUserState userId guildId s1'
    = (Normal (Map_get (getUserKey userId guildId) (userStates s1)), s1').
Proof.
  intros Hi s1'. destruct (initialize_post s s1 Hi) as [Hd _].
  assert (Hinit : initialize s1' = (Normal tt, s1'))
    by (by apply initialize_done).
  split; [exact Hinit|]. by rewrite (getUserState_run s1' s1').
Qed.

(** [updateUserState] from an initialised manager: the patch in memory,
    then the save. *)
Lemma updateUserState_unfold (s : state) (userId guildId : string)
    (updates : obj) :
  initialized s = true →
  let key := getUserKey userId guildId in
  let found := Map_get key (userStates s) in
  let base :=
    default (UserState.new (clock s (ticks s)) (VStr userId) (VStr guildId))
            found in
  let r := Object_assign base updates in
  let mid :=
    with_userStates (Map_set key r (userStates s))
      (match found with Some _ => s | None => with_ticks (S (ticks s)) s end) in
  updateUserState userId guildId (Some updates) s
  = (match (saveUserStates mid).1 with
     | Normal _ => Normal r
     | Throw e => Throw e
     end, (saveUserStates mid).2).
Proof.
  intros Hi key found base r mid. subst mid r base found.
  unfold updateUserState.
  unfold bind at 1. rewrite (initialize_done s Hi). simpl.
  unfold bind at 1. unfold gets at 1. fold key.
  destruct (Map_get key (userStates s)) as [st|] eqn:Hfound; simpl.
  - unfold bind, ret, modify.
    by destruct (saveUserStates _) as [[[]|e] s'].
  - unfold bind, ret, modify, currentTime.
    match goal with
    | |- context [saveUserStates ?m] =>
        replace m with
          (with_userStates
             (Map_set key
                (Object_assign
                   (UserState.new (clock s (ticks s)) (VStr userId)
                      (VStr guildId)) updates) (userStates s))
             (with_ticks (S (ticks s)) s))
          by (unfold with_userStates, with_ticks; simpl;
              by rewrite Map_set_set)
    end.
    by destruct (saveUserStates _) as [[[]|e] s'].
Qed.

(** An [updateUserState] from an initialised manager: what is in memory
    after it, whether the save succeeds or not. *)
Lemma updateUserState_memory (s : state) (userId guildId : string)
    (updates : obj) :
  initialized s = true →
  let key := getUserKey userId guildId in
  let base :=
    default (UserState.new (clock s (ticks s)) (VStr userId) (VStr guildId))
            (Map_get key (userStates s)) in
  let r := Object_assign base updates in
  let out := updateUserState userId guildId (Some updates) s in
  userStates out.2 = Map_set key r (userStates s)
  ∧ initialized out.2 = true
  ∧ writeFault out.2 = writeFault s
  ∧ match out.1 with
    | Normal r' => r' = r
    | Throw _ => userStatesFile out.2 = userStatesFile s
    end.
Proof.
  intros Hi key base r out. subst out.
  rewrite (updateUserState_unfold s userId guildId updates Hi).
  cbv zeta. fold key. fold base. fold r.
  match goal with
  | |- context [saveUserStates ?m] =>
      destruct (saveUserStates_cases m) as [[f E]|[e E]]; rewrite E
  end; simpl;
    destruct (Map_get key (userStates s)); done.
Qed.

(** The outcome of [updateUserState] when every record answers
    [toJSON()]: that of the write. *)
Lemma updateUserState_outcome (s : state) (userId guildId : string)
    (updates : obj) :
  initialized s = true →
  allKeep "toJSON" (userStates s) →
  keepsMethod "toJSON" updates →
  let key := getUserKey userId guildId in
  let base :=
    default (UserState.new (clock s (ticks s)) (VStr userId) (VStr guildId))
            (Map_get key (userStates s)) in
  let r := Object_assign base updates in
  (updateUserState userId guildId (Some updates) s).1
  = match writeFault s with Some e => Throw e | None => Normal r end.
Proof.
  intros Hi Hkeep Hpatch key base r.
  rewrite (updateUserState_unfold s userId guildId updates Hi).
  cbv zeta. fold key. fold base. fold r.
  assert (Hr : keepsMethod "toJSON" r) by (by apply patched_keeps).
  match goal with
  | |- context [saveUserStates ?m] =>
      assert (Hmid : allKeep "toJSON" (userStates m))
        by (simpl; by apply allKeep_set);
      assert (Hw : writeFault m = writeFault s)
        by (simpl; by destruct (Map_get key (userStates s)))
  end.
  destruct (writeFault s) as [e|] eqn:Hws.
  - by rewrite (saveUserStates_fails _ e Hw Hmid).
  - by rewrite (saveUserStates_ok _ Hw Hmid).
Qed.


Lemma deleteUserState_unfold (s : state) (userId guildId : string) :
  initialized s = true →
  deleteUserState userId guildId s
  = saveUserStates
      (with_userStates
         (Map_delete (getUserKey userId guildId) (userStates s)) s).
Proof.
  intros Hi. unfold deleteUserState.
  unfold bind at 1. rewrite (initialize_done s Hi). simpl.
  unfold bind, modify. done.
Qed.

Lemma deleteUserState_memory (s : state) (userId guildId : string) :
  initialized s = true →
  let key := getUserKey userId guildId in
  let out := deleteUserState userId guildId s in
  userStates out.2 = Map_delete key (userStates s)
  ∧ initialized out.2 = true
  ∧ writeFault out.2 = writeFault s
  ∧ clock out.2 = clock s
  ∧ ticks out.2 = ticks s
  ∧ (allKeep "toJSON" (userStates s) →
     out.1 = match writeFault s with Some e => Throw e | None => Normal tt end
     ∧ allKeep "toJSON" (userStates out.2)
     ∧ (writeFault s = None →
        userStatesFile out.2 = persisted (userStates out.2))).
Proof.
  intros Hi key out. subst out.
  rewrite (deleteUserState_unfold s userId guildId Hi). fold key.
  assert (Hframe :
    let out := saveUserStates
                 (with_userStates (Map_delete key (userStates s)) s) in
    userStates out.2 = Map_delete key (userStates s)
    ∧ initialized out.2 = true
    ∧ writeFault out.2 = writeFault s
    ∧ clock out.2 = clock s
    ∧ ticks out.2 = ticks s).
  { cbv zeta.
    destruct (saveUserStates_cases
                (with_userStates (Map_delete key (userStates s)) s))
      as [[f E]|[e E]]; rewrite E; simpl; done. }
  cbv zeta in Hframe. destruct Hframe as (Hm & Hd & Hw & Hc & Ht).
  repeat (split; [done|]).
  intros Hkeep.
  assert (Hmid : allKeep "toJSON"
                   (userStates
                      (with_userStates (Map_delete key (userStates s)) s)))
    by (simpl; by apply allKeep_delete).
  destruct (writeFault s) as [e|] eqn:Hws.
  - rewrite (saveUserStates_fails _ e) by done. simpl.
    split; [done|]. split; [by apply allKeep_delete|]. intros Hx.
    discriminate Hx.
  - rewrite saveUserStates_ok by done. simpl.
    split; [done|]. split; [by apply allKeep_delete|]. done.
Qed.

(** X6. Memory runs ahead of the file: when the write fails (and no
    record of the map nor the patch has a property named toJSON or
    __proto__, so that the save gets as far as the write),
    [updateUserState] throws the write's error after the record in the map
    has been created or patched, and [deleteUserState] throws it after the
    entry has left the map; a later [getUserState] sees the change. *)
Theorem X6_failed_write_keeps_memory (s s1 : state) (e : exn)
    (userId guildId : string) (updates : obj) :
  initialize s = (Normal tt, s1) →
  writeFault s1 = Some e →
  allKeep "toJSON" (userStates s1) →
  keepsMethod "toJSON" updates →
  let key := getUserKey userId guildId in
  let base :=
    default (UserState.new (clock s1 (ticks s1)) (VStr userId) (VStr guildId))
            (Map_get key (userStates s1)) in
  let r := Object_assign base updates in
  (∃ s2, updateUserState userId guildId (Some updates) s = (Throw e, s2)
         ∧ userStates s2 = Map_set key r (userStates s1)
         ∧ getUserState userId guildId s2 = (Normal (Some r), s2))
  ∧ (∃ s3, deleteUserState userId guildId s = (Throw e, s3)
           ∧ userStates s3 = Map_delete key (userStates s1)
           ∧ getUserState userId guildId s3 = (Normal None, s3)).
Proof.
  intros Hi Hw Hkeep Hpatch key base r.
  destruct (initialize_post s s1 Hi) as [Hd _].
  split.
  - destruct (updateUserState_memory s1 userId guildId updates Hd)
      as (Hm & Hd2 & _ & _).
    pose proof (updateUserState_outcome s1 userId guildId updates Hd
                  Hkeep Hpatch) as Hout.
    cbv zeta in Hout. rewrite Hw in Hout. fold key base r in Hm.
    rewrite (updateUserState_lazy s s1 _ _ _ Hi).
    destruct (updateUserState userId guildId (Some updates) s1) as [c s2].
    simpl in *. subst c. exists s2. split; [done|]. split; [done|].
    rewrite (getUserState_run s2 s2) by (by apply initialize_done).
    fold key. by rewrite Hm, Map_get_set_eq.
  - destruct (deleteUserState_memory s1 userId guildId Hd)
      as (Hm & Hd3 & _ & _ & _ & Hout).
    destruct (Hout Hkeep) as (Hc & _).
    rewrite Hw in Hc. fold key in Hm.
    assert (Hlazy : deleteUserState userId guildId s
                    = deleteUserState userId guildId s1).
    { unfold deleteUserState.
      eapply eq_trans; [apply (after_initialize _ s s1 Hi)|].
      symmetry. apply (after_initialize _ s s1 Hi). }
    rewrite Hlazy.
    destruct (deleteUserState userId guildId s1) as [c s3].
    simpl in *. subst c. exists s3. split; [done|]. split; [done|].
    rewrite (getUserState_run s3 s3) by (by apply initialize_done).
    fold key. by rewrite Hm, Map_get_delete_eq.
Qed.

(** X7. [updateUserState] touches one entry, whether its save then
    succeeds or throws: in the map it leaves, the records under all other
    keys are as before, a key that was in the map keeps its place in the
    order, and a new key is at the end; when it returns, it returns the
    record that is in the map under the key. *)
Theorem X7_updateUserState_frame (s s1 : state) (userId guildId : string)
    (updates : obj) :
  initialize s = (Normal tt, s1) →
  let key := getUserKey userId guildId in
  let out := updateUserState userId guildId (Some updates) s in
  (∀ k, k ≠ key →
     Map_get k (userStates out.2) = Map_get k (userStates s1))
  ∧ (is_Some (Map_get key (userStates s1)) →
       List.map fst (userStates out.2) = List.map fst (userStates s1))
  ∧ (Map_get key (userStates s1) = None →
       List.map fst (userStates out.2)
       = (List.map fst (userStates s1) ++ [key])%list)
  ∧ (∀ r, out.1 = Normal r → Map_get key (userStates out.2) = Some r).
Proof.
  intros Hi key out. subst out. destruct (initialize_post s s1 Hi) as [Hd _].
  rewrite (updateUserState_lazy s s1 _ _ _ Hi).
  destruct (updateUserState_memory s1 userId guildId updates Hd)
    as (Hm & _ & _ & Hout).
  fold key in Hm, Hout. rewrite Hm.
  split; [|split; [|split]].
  - intros k Hk. by apply Map_get_set_ne.
  - intros Hsome. by apply Map_set_keys.
  - intros Hnone. rewrite Map_set_absent by done.
    by rewrite List.map_app.
  - intros r Hr. rewrite Hr in Hout. subst r. apply Map_get_set_eq.
Qed.

Lemma completeStep_clock_free (now now' : Z) (step : value) (this : obj) :
  strict_eq step (VStr "rules") || strict_eq step (VStr "tutorial") = false →
  UserState.completeStep now step this = UserState.completeStep now' step this.
Proof.
  intros Hno. apply orb_false_elim in Hno as [Hr Ht].
  unfold UserState.completeStep. by rewrite Hr, Ht.
Qed.

(** A [markStepComplete] from an initialised manager whose write
    succeeds and whose records have their methods. *)
Lemma markStepComplete_run (s : state) (userId guildId : string)
    (step : value) :
  initialized s = true →
  writeFault s = None →
  allKeep "toJSON" (userStates s) →
  allKeep "completeStep" (userStates s) →
  let key := getUserKey userId guildId in
  let found := Map_get key (userStates s) in
  let base :=
    default (UserState.new (clock s (ticks s)) (VStr userId) (VStr guildId))
            found in
  let now :=
    clock s (match found with Some _ => ticks s | None => S (ticks s) end) in
  let r := UserState.completeStep now step base in
  ∃ s', markStepComplete userId guildId step s = (Normal r, s')
        ∧ userStates s' = Map_set key r (userStates s)
        ∧ initialized s' = true
        ∧ writeFault s' = None
        ∧ userStatesFile s' = persisted (userStates s').
Proof.
  intros Hi Hw Hjson Hstep key found base now r.
  destruct method_not_field as (Hf1 & Hf2 & Hf3).
  assert (Hbase : keepsMethod "toJSON" base ∧ keepsMethod "completeStep" base).
  { subst base found.
    destruct (Map_get key (userStates s)) as [st|] eqn:Hfound; simpl.
    - split; [by apply (allKeep_get _ _ _ _ Hjson Hfound)
             | by apply (allKeep_get _ _ _ _ Hstep Hfound)].
    - split; by apply keepsMethod_new. }
  destruct Hbase as [Hbj Hbc].
  assert (Hall : ∀ t m, allKeep "toJSON" m →
            allKeep "toJSON"
              (Map_set key (UserState.completeStep t step base) m)).
  { intros t m Hm. apply allKeep_set; [done|].
    by apply keepsMethod_completeStep. }
  apply keepsMethod_hasMethod in Hbc.
  subst r now base found.
  unfold markStepComplete.
  unfold bind at 1. rewrite (initialize_done s Hi). simpl.
  unfold bind at 1. unfold gets at 1. fold key.
  destruct (Map_get key (userStates s)) as [st|] eqn:Hfound; simpl in *;
    unfold completeStepNow;
    destruct (strict_eq step (VStr "rules")
              || strict_eq step (VStr "tutorial")) eqn:Hreads;
    unfold bind, ret, modify, currentTime; rewrite Hbc; simpl.
  - rewrite saveUserStates_ok by (simpl; auto).
    eexists. split; [reflexivity|]. done.
  - rewrite (completeStep_clock_free 0 (clock s (ticks s)) step st Hreads).
    rewrite saveUserStates_ok by (simpl; auto).
    eexists. split; [reflexivity|]. done.
  - rewrite saveUserStates_ok
      by (simpl; first [done | apply Hall, allKeep_set; done]).
    eexists. split; [reflexivity|]. simpl. by rewrite Map_set_set.
  - rewrite (completeStep_clock_free 0 (clock s (S (ticks s))) step _ Hreads).
    rewrite saveUserStates_ok
      by (simpl; first [done | apply Hall, allKeep_set; done]).
    eexists. split; [reflexivity|]. simpl. by rewrite Map_set_set.
Qed.

(** X8. From a manager that initialises and whose write succeeds, with
    no property named toJSON, completeStep or __proto__ in the loaded
    records (so that every record answers the calls
    [state.completeStep(step)] and [state.toJSON()]),
    [markStepComplete] applies [completeStep] to the record under the key,
    or to a freshly constructed one when the key is not in the map,
    returns the record that is then in the map, and writes the map; the
    other entries are as before.  With a step that [completeStep] does
    not know, a key that was not in the map still gets a record, with
    the constructor's defaults. *)
Theorem X8_markStepComplete (s s1 : state) (userId guildId : string)
    (step : value) :
  initialize s = (Normal tt, s1) →
  writeFault s1 = None →
  allKeep "toJSON" (userStates s1) →
  allKeep "completeStep" (userStates s1) →
  let key := getUserKey userId guildId in
  let found := Map_get key (userStates s1) in
  let fresh :=
    UserState.new (clock s1 (ticks s1)) (VStr userId) (VStr guildId) in
  let now :=
    clock s1 (match found with Some _ => ticks s1 | None => S (ticks s1) end) in
  ∃ r s2,
    markStepComplete userId guildId step s = (Normal r, s2)
    ∧ r = UserState.completeStep now step (default fresh found)
    ∧ Map_get key (userStates s2) = Some r
    ∧ (∀ k, k ≠ key →
         Map_get k (userStates s2) = Map_get k (userStates s1))
    ∧ userStatesFile s2 = persisted (userStates s2)
    ∧ (found = None →
       step ≠ VStr "rules" → step ≠ VStr "github" → step ≠ VStr "tutorial" →
       r = fresh
       ∧ userStates s2 = (userStates s1 ++ [(key, fresh)])%list).
Proof.
  intros Hi Hw Hjson Hstep key found fresh now.
  destruct (initialize_post s s1 Hi) as [Hd _].
  destruct (markStepComplete_run s1 userId guildId step Hd Hw Hjson Hstep)
    as (s2 & Hrun & Hm & _ & _ & Hf).
  fold key found fresh now in Hrun, Hm.
  eexists _, s2. split.
  { unfold markStepComplete.
    rewrite (proj1 (after_initialize _ s s1 Hi)).
    rewrite <- (proj2 (after_initialize _ s s1 Hi)). exact Hrun. }
  split; [done|]. rewrite Hm.
  split; [apply Map_get_set_eq|].
  split; [intros k Hk; by apply Map_get_set_ne|].
  split; [by rewrite <- Hm|].
  intros Hnone Hr Hg Ht. rewrite Hnone. simpl.
  rewrite completeStep_other by done.
  split; [done|]. apply Map_set_absent. exact Hnone.
Qed.

(** X9. From a manager that initialises and whose write succeeds, with
    no property named toJSON or __proto__ in the loaded records,
    [setOnboardingStep] stores whatever step it is given, checked
    against nothing, and leaves every other property of the record as it
    was: setting the step to "complete" makes [isComplete] true without
    tutorialCompleted or onboardingCompletedAt being touched. *)
Theorem X9_setOnboardingStep (s s1 : state) (userId guildId : string)
    (step : value) :
  initialize s = (Normal tt, s1) →
  writeFault s1 = None →
  allKeep "toJSON" (userStates s1) →
  let key := getUserKey userId guildId in
  let base :=
    default (UserState.new (clock s1 (ticks s1)) (VStr userId) (VStr guildId))
            (Map_get key (userStates s1)) in
  ∃ r s2,
    setOnboardingStep userId guildId step s = (Normal r, s2)
    ∧ Map_get key (userStates s2) = Some r
    ∧ get r "onboardingStep" = step
    ∧ (∀ k, k ≠ "onboardingStep" → r !! k = base !! k)
    ∧ UserState.isComplete r = strict_eq step (VStr "complete").
Proof.
  intros Hi Hw Hkeep key base. destruct (initialize_post s s1 Hi) as [Hd _].
  assert (Hpatch : keepsMethod "toJSON"
                     ({["onboardingStep" := step]} : obj))
    by (split; by apply lookup_singleton_ne).
  destruct (updateUserState_run s1 userId guildId
              {["onboardingStep" := step]} Hd Hw Hkeep Hpatch)
    as (s2 & Hrun & Hm & _).
  fold key base in Hrun, Hm.
  eexists _, s2. split.
  { unfold setOnboardingStep.
    by rewrite (updateUserState_lazy s s1 _ _ _ Hi). }
  assert (Hstep : get (Object_assign base {["onboardingStep" := step]})
                      "onboardingStep" = step).
  { apply Object_assign_get_Some. apply lookup_singleton_eq. }
  split; [rewrite Hm; apply Map_get_set_eq|].
  split; [exact Hstep|]. split.
  - intros k Hk. rewrite Object_assign_lookup.
    by rewrite lookup_singleton_ne.
  - unfold UserState.isComplete. by rewrite Hstep.
Qed.

Lemma Map_delete_set_absent {V} (m : list (string * V)) (k : string) (v : V) :
  Map_get k m = None → Map_delete k (Map_set k v m) = m.
Proof.
  intros Hk. rewrite (Map_set_absent m k v Hk). unfold Map_delete.
  rewrite List.filter_app. simpl. rewrite bool_decide_eq_true_2 by done.
  simpl. rewrite app_nil_r. by apply Map_delete_absent.
Qed.

Lemma deleteUserState_lazy (s s1 : state) (userId guildId : string) :
  initialize s = (Normal tt, s1) →
  deleteUserState userId guildId s = deleteUserState userId guildId s1.
Proof.
  intros Hi. unfold deleteUserState.
  eapply eq_trans; [apply (after_initialize _ s s1 Hi)|].
  symmetry. apply (after_initialize _ s s1 Hi).
Qed.

(** X10. Updating and deleting compose as inserting and removing, from
    a manager that initialises and whose writes succeed, with no property
    named toJSON or __proto__ in the loaded records and in the patch: on a
    key that is not in the map, [updateUserState] followed by
    [deleteUserState] gives back the map as it was; and [deleteUserState]
    followed by [updateUserState] leaves under the key a record made of
    the constructor's defaults and the patch alone, at the end of the
    map's order, whatever the record held before. *)
Theorem X10_update_delete_compose (s s1 : state) (userId guildId : string)
    (updates : obj) :
  initialize s = (Normal tt, s1) →
  writeFault s1 = None →
  allKeep "toJSON" (userStates s1) →
  keepsMethod "toJSON" updates →
  let key := getUserKey userId guildId in
  (Map_get key (userStates s1) = None →
   ∃ r s2 s3,
     updateUserState userId guildId (Some updates) s = (Normal r, s2)
     ∧ deleteUserState userId guildId s2 = (Normal tt, s3)
     ∧ userStates s3 = userStates s1)
  ∧ (∃ s2 r s3,
       deleteUserState userId guildId s = (Normal tt, s2)
       ∧ updateUserState userId guildId (Some updates) s2 = (Normal r, s3)
       ∧ r = Object_assign
               (UserState.new (clock s1 (ticks s1)) (VStr userId) (VStr guildId))
               updates
       ∧ userStates s3
         = (Map_delete key (userStates s1) ++ [(key, r)])%list).
Proof.
  intros Hi Hw Hkeep Hpatch key.
  destruct (initialize_post s s1 Hi) as [Hd _]. split.
  - intros Hnone.
    destruct (updateUserState_run s1 userId guildId updates Hd Hw Hkeep Hpatch)
      as (s2 & Hrun & Hm & Hd2 & Hw2 & _ & Hkeep2).
    fold key in Hm.
    destruct (deleteUserState_memory s2 userId guildId Hd2)
      as (Hm3 & _ & _ & _ & _ & Hout).
    destruct (Hout Hkeep2) as (Hc & _). clear Hout. rename Hc into Hout.
    rewrite Hw2 in Hout. fold key in Hm3.
    eexists _, s2, (deleteUserState userId guildId s2).2.
    split; [by rewrite (updateUserState_lazy s s1 _ _ _ Hi)|].
    split.
    { destruct (deleteUserState userId guildId s2) as [c s3].
      simpl in *. by subst c. }
    rewrite Hm3, Hm. by apply Map_delete_set_absent.
  - destruct (deleteUserState_memory s1 userId guildId Hd)
      as (Hm2 & Hd2 & Hw2 & Hc2 & Ht2 & Hout).
    destruct (Hout Hkeep) as (Hc & Hkeep2 & _). clear Hout.
    rename Hc into Hout.
    rewrite Hw in Hout, Hw2. fold key in Hm2.
    destruct (deleteUserState userId guildId s1) as [c s2] eqn:Hdel.
    simpl in *. subst c.
    destruct (updateUserState_run s2 userId guildId updates Hd2 Hw2
                Hkeep2 Hpatch)
      as (s3 & Hrun & Hm3 & _).
    fold key in Hrun, Hm3.
    rewrite Hm2, Map_get_delete_eq, Hc2, Ht2 in Hrun. simpl in Hrun.
    rewrite Hm2, Map_get_delete_eq, Hc2, Ht2 in Hm3. simpl in Hm3.
    eexists s2, _, s3.
    split; [by rewrite (deleteUserState_lazy s s1 _ _ Hi)|].
    split; [exact Hrun|]. split; [done|].
    rewrite Hm3. apply Map_set_absent. apply Map_get_delete_eq.
Qed.

Lemma initialize_keeps_NoDup (s : state) :
  NoDup (List.map fst (userStates s)) →
  NoDup (List.map fst (userStates (initialize s).2)).
Proof.
  intros Hnd. destruct (initialized s) eqn:Hi.
  { by rewrite initialize_done. }
  destruct (mkdirFault s) as [e|] eqn:Hm.
  { by rewrite (initialize_mkdir_fails s e). }
  destruct (userStatesFile s) as [d|e] eqn:Hf.
  - rewrite (initialize_document s d) by done. simpl.
    apply loadEntries_NoDup. simpl. apply NoDup_nil_2.
  - destruct (isENOENT e) eqn:He.
    + rewrite (initialize_no_file s e) by done. simpl. apply NoDup_nil_2.
    + by rewrite (initialize_unreadable s e).
Qed.

Lemma initialize_outcome (s : state) :
  (∃ s1, initialize s = (Normal tt, s1))
  ∨ (∃ e, initialize s = (Throw e, s)).
Proof.
  destruct (initialized s) eqn:Hi.
  { left. exists s. by apply initialize_done. }
  destruct (mkdirFault s) as [e|] eqn:Hm.
  { right. exists e. by apply initialize_mkdir_fails. }
  destruct (userStatesFile s) as [d|e] eqn:Hf.
  - left. eexists. by apply initialize_document.
  - destruct (isENOENT e) eqn:He.
    + left. eexists. by apply (initialize_no_file s e).
    + right. exists e. by apply initialize_unreadable.
Qed.

Lemma markStepComplete_keeps_NoDup (s : state) (userId guildId : string)
    (step : value) :
  initialized s = true →
  NoDup (List.map fst (userStates s)) →
  NoDup (List.map fst
           (userStates (markStepComplete userId guildId step s).2)).
Proof.
  intros Hi Hnd.
  remember (markStepComplete userId guildId step s) as o eqn:Ho.
  unfold markStepComplete in Ho.
  unfold bind at 1 in Ho. rewrite (initialize_done s Hi) in Ho. simpl in Ho.
  unfold bind at 1 in Ho. unfold gets at 1 in Ho.
  destruct (Map_get (getUserKey userId guildId) (userStates s)) as [st|];
    simpl in Ho; unfold completeStepNow in Ho;
    destruct (strict_eq step (VStr "rules")
              || strict_eq step (VStr "tutorial"));
    unfold bind, ret, modify, currentTime, throw in Ho;
    match type of Ho with
    | context [hasMethod "completeStep" ?r] =>
        destruct (hasMethod "completeStep" r)
    end; simpl in Ho;
    try match type of Ho with
        | context [saveUserStates ?m] =>
            destruct (saveUserStates_cases m) as [[f E]|[e E]];
            rewrite E in Ho
        end;
    subst o; simpl; repeat apply Map_set_NoDup; done.
Qed.

(** X11. The keys of the map stay distinct: every method of the manager,
    whether it returns or throws, leaves a map with distinct keys when it
    started from one. *)
Theorem X11_keys_stay_distinct (s : state) (userId guildId : string)
    (updates : obj) (step : value) (maxReminders : option Z) :
  NoDup (List.map fst (userStates s)) →
  NoDup (List.map fst (userStates (initialize s).2))
  ∧ NoDup (List.map fst (userStates (getUserState userId guildId s).2))
  ∧ NoDup (List.map fst
             (userStates (updateUserState userId guildId (Some updates) s).2))
  ∧ NoDup (List.map fst
             (userStates (setOnboardingStep userId guildId step s).2))
  ∧ NoDup (List.map fst
             (userStates (markStepComplete userId guildId step s).2))
  ∧ NoDup (List.map fst (userStates (getGuildUserStates guildId s).2))
  ∧ NoDup (List.map fst (userStates (deleteUserState userId guildId s).2))
  ∧ NoDup (List.map fst
             (userStates (getUsersNeedingReminders guildId maxReminders s).2)).
Proof.
  intros Hnd. pose proof (initialize_keeps_NoDup s Hnd) as Hinit.
  split; [exact Hinit|].
  destruct (initialize_outcome s) as [[s1 Hi]|[e Hi]].
  - rewrite Hi in Hinit. simpl in Hinit.
    destruct (initialize_post s s1 Hi) as [Hd _].
    assert (Hupd : ∀ p, NoDup (List.map fst (userStates
                     (updateUserState userId guildId (Some p) s).2))).
    { intros p. rewrite (updateUserState_lazy s s1 _ _ _ Hi).
      destruct (updateUserState_memory s1 userId guildId p Hd) as (-> & _).
      by apply Map_set_NoDup. }
    split; [by rewrite (getUserState_run s s1)|].
    split; [apply Hupd|]. split; [apply Hupd|]. split.
    { unfold markStepComplete at 1.
      rewrite (proj1 (after_initialize _ s s1 Hi)).
      rewrite <- (proj2 (after_initialize _ s s1 Hi)).
      by apply markStepComplete_keeps_NoDup. }
    split; [by rewrite (getGuildUserStates_run s s1)|]. split.
    { rewrite (deleteUserState_lazy s s1 _ _ Hi).
      destruct (deleteUserState_memory s1 userId guildId Hd) as (-> & _).
      by apply Map_delete_NoDup. }
    by rewrite (getUsersNeedingReminders_run s s1).
  - rewrite Hi in Hinit. simpl in Hinit.
    repeat split;
      unfold setOnboardingStep, getUserState, updateUserState,
        markStepComplete, getGuildUserStates, deleteUserState,
        getUsersNeedingReminders;
      cbv zeta; by rewrite (initialize_throws _ s e s Hi).
Qed.

End ManagerRuns.

(** ** Writing the map and reading it back *)

#[local] Arguments project : simpl never.

Lemma assoc_None (l : list (string * value)) (k : string) :
  k ∉ List.map fst l → assoc k l = None.
Proof.
  induction l as [|[k' v'] l IH]; simpl; [done|].
  rewrite not_elem_of_cons. intros [Hne Hk].
  rewrite bool_decide_eq_false_2 by done. by apply IH.
Qed.

Lemma parseObject_lookup (l : list (string * value)) (k : string) :
  NoDup (List.map fst l) →
  UserStateManager.parseObject l !! k = assoc k l.
Proof.
  unfold UserStateManager.parseObject.
  assert (Hgen : ∀ acc : obj,
    NoDup (List.map fst l) →
    foldl (fun o kv => <[kv.1 := kv.2]> o) acc l !! k
    = match assoc k l with Some v => Some v | None => acc !! k end).
  { induction l as [|[k' v'] l IH]; intros acc Hnd; simpl; [done|].
    simpl in Hnd. apply NoDup_cons in Hnd as [Hk' Hnd].
    rewrite IH by done. case_bool_decide as Hk.
    - subst k'. rewrite assoc_None by done. by rewrite lookup_insert_eq.
    - by rewrite lookup_insert_ne. }
  intros Hnd. rewrite Hgen by done. by destruct (assoc k l).
Qed.

Lemma filter_keys_subset (test : string * value → bool)
    (l : list (string * value)) (k : string) :
  k ∉ List.map fst l → k ∉ List.map fst (List.filter test l).
Proof.
  intros Hk Hin. apply Hk.
  apply list_elem_of_fmap in Hin as ([k0 v0] & -> & Hin).
  apply list_elem_of_In, List.filter_In in Hin as [Hin _].
  apply list_elem_of_fmap. exists (k0, v0). split; [done|].
  by apply list_elem_of_In.
Qed.

Lemma filter_keys_NoDup (test : string * value → bool)
    (l : list (string * value)) :
  NoDup (List.map fst l) → NoDup (List.map fst (List.filter test l)).
Proof.
  induction l as [|[k v] l IH]; simpl; [done|].
  rewrite NoDup_cons. intros [Hk Hnd].
  destruct (test (k, v)); simpl; [|by apply IH].
  apply NoDup_cons. split; [by apply filter_keys_subset | by apply IH].
Qed.

Lemma assoc_filter (test : string * value → bool)
    (l : list (string * value)) (k : string) :
  NoDup (List.map fst l) →
  assoc k (List.filter test l)
  = match assoc k l with
    | Some v => if test (k, v) then Some v else None
    | None => None
    end.
Proof.
  induction l as [|[k' v'] l IH]; simpl; [done|].
  rewrite NoDup_cons. intros [Hk' Hnd].
  destruct (test (k', v')) eqn:Htest; simpl; case_bool_decide as Hk.
  - subst k'. by rewrite Htest.
  - by apply IH.
  - subst k'. rewrite Htest. apply assoc_None.
    by apply filter_keys_subset.
  - by apply IH.
Qed.

Lemma UserState_fields_NoDup : NoDup UserState_fields.
Proof. apply (bool_decide_unpack _). vm_compute. exact I. Qed.

Lemma OnboardingConfig_fields_NoDup : NoDup OnboardingConfig_fields.
Proof. apply (bool_decide_unpack _). vm_compute. exact I. Qed.

(** What [JSON.parse] reads back of one written record. *)
Lemma written_lookup (key : string) (state : obj) (k : string) :
  UserStateManager.parseObject (writtenEntry (key, state)).2 !! k
  = if bool_decide (k ∈ UserState_fields)
    then (if strict_eq (get state k) VUndefined
          then None else Some (get state k))
    else None.
Proof.
  unfold writtenEntry. cbv beta iota delta [fst snd].
  assert (Hnd : NoDup (List.map fst (project UserState_fields state))).
  { rewrite project_keys. apply UserState_fields_NoDup. }
  rewrite parseObject_lookup by (by apply filter_keys_NoDup).
  rewrite assoc_filter by done.
  case_bool_decide as Hk.
  - rewrite assoc_project_in by done. simpl.
    by destruct (strict_eq (get state k) VUndefined).
  - by rewrite assoc_project_notin.
Qed.

Section Reload.
Context `{Runtime}.
Import UserStateManager.

Lemma UserState_new_lookup_other (now : Z) (userId guildId : value)
    (k : string) :
  k ∉ UserState_fields → UserState.new now userId guildId !! k = None.
Proof.
  unfold UserState_fields. rewrite !not_elem_of_cons.
  intros (? & ? & ? & ? & ? & ? & ? & ? & ? & ? & ? & _).
  unfold UserState.new. by repeat (rewrite lookup_insert_ne by done).
Qed.

Lemma loadEntries_cons (e : string * list (string * value))
    (rest : list (string * list (string * value))) (s : state) :
  loadEntries (e :: rest) s
  = loadEntries rest
      (with_userStates
         (Map_set e.1 (UserState.fromJSON (clock s (ticks s)) (parseObject e.2))
                  (userStates s))
         (with_ticks (S (ticks s)) s)).
Proof. by destruct e. Qed.

Lemma loadEntries_appends (m : list (string * obj)) (s : state) :
  NoDup (List.map fst (userStates s) ++ List.map fst m) →
  ∃ loaded,
    userStates (loadEntries (List.map writtenEntry m) s).2
    = (userStates s ++ loaded)%list
    ∧ Forall2 (fun kv kv' =>
                 kv'.1 = kv.1 ∧ ∃ now, kv'.2 = reloaded now kv.1 kv.2)
              m loaded.
Proof.
  revert s. induction m as [|[key st] m IH]; intros s Hnd.
  - exists []. split; [by rewrite app_nil_r | constructor].
  - rewrite List.map_cons, loadEntries_cons.
    change (writtenEntry (key, st)).1 with key.
    fold (reloaded (clock s (ticks s)) key st).
    set (st' := reloaded (clock s (ticks s)) key st).
    assert (Hkey : Map_get key (userStates s) = None).
    { apply Map_get_None. apply NoDup_app in Hnd as (_ & Hdisj & _).
      intros Hin. apply (Hdisj key Hin). by left. }
    rewrite (Map_set_absent _ key st' Hkey).
    destruct (IH (with_userStates (userStates s ++ [(key, st')])
                    (with_ticks (S (ticks s)) s)))
      as (loaded & Hload & Hall).
    { cbn [userStates with_userStates].
      rewrite List.map_app. cbn [List.map fst]. rewrite <- app_assoc.
      exact Hnd. }
    cbn [userStates with_userStates] in Hload.
    exists ((key, st') :: loaded). split.
    + rewrite Hload. by rewrite <- app_assoc.
    + constructor; [|done]. split; [done|].
      by exists (clock s (ticks s)).
Qed.

Lemma reloaded_keys (m loaded : list (string * obj)) :
  Forall2 (fun kv kv' : string * obj =>
             kv'.1 = kv.1 ∧ ∃ now, kv'.2 = reloaded now kv.1 kv.2)
          m loaded →
  List.map fst loaded = List.map fst m
  ∧ ∀ k st, Map_get k m = Some st →
      ∃ now, Map_get k loaded = Some (reloaded now k st).
Proof.
  induction 1 as [|[k0 st0] [k1 st1] m loaded [Hk [now Hst]] _ [IHk IHget]];
    simpl in *.
  - split; [done|]. intros k st Hx; discriminate Hx.
  - subst k1 st1. split; [by rewrite IHk|].
    intros k st. case_bool_decide as Hk0.
    + subst k0. intros [= <-]. by exists now.
    + apply IHget.
Qed.

Lemma written_get_id (key : string) (state : obj) (k : string) :
  k ∈ UserState_fields →
  get (parseObject (writtenEntry (key, state)).2) k = get state k.
Proof.
  intros Hk. unfold get at 1. rewrite written_lookup.
  rewrite bool_decide_eq_true_2 by done.
  destruct (strict_eq (get state k) VUndefined) eqn:Hu; [|done].
  apply strict_eq_true in Hu. by rewrite Hu.
Qed.

Lemma reloaded_lookup (now : Z) (key : string) (state : obj) (k : string) :
  reloaded now key state !! k
  = if bool_decide (k ∈ UserState_fields)
    then (if strict_eq (get state k) VUndefined
          then UserState.new now (get state "userId") (get state "guildId") !! k
          else Some (get state k))
    else None.
Proof.
  unfold reloaded. rewrite UserState_fromJSON_lookup, written_lookup.
  rewrite !written_get_id
    by (apply (bool_decide_unpack _); vm_compute; exact I).
  case_bool_decide as Hk.
  - by destruct (strict_eq (get state k) VUndefined).
  - by apply UserState_new_lookup_other.
Qed.

(** X12. Writing the map and reading it back: a manager that starts on
    the file [saveUserStates] wrote for a map with distinct keys loads the
    same keys in the same order; each record comes back with every
    canonical property that was not undefined as it was, with the
    constructor's default (for onboardingStartedAt, the time of loading)
    in place of an undefined one, and without any property outside the
    canonical ones. *)
Theorem X12_save_then_load (s : state) (m : list (string * obj)) :
  NoDup (List.map fst m) →
  initialized s = false →
  mkdirFault s = None →
  userStatesFile s = persisted m →
  ∃ s1,
    initialize s = (Normal tt, s1)
    ∧ List.map fst (userStates s1) = List.map fst m
    ∧ ∀ k state, Map_get k m = Some state →
        ∃ state' now,
          Map_get k (userStates s1) = Some state'
          ∧ (∀ f, f ∈ UserState_fields → get state f ≠ VUndefined →
               get state' f = get state f)
          ∧ (∀ f, f ∈ UserState_fields → get state f = VUndefined →
               state' !! f
               = UserState.new now (get state "userId") (get state "guildId")
                   !! f)
          ∧ (∀ f, f ∉ UserState_fields → state' !! f = None).
Proof.
  intros Hnd Hi Hm Hf. rewrite persisted_snapshot in Hf by done.
  eexists. split; [by apply (initialize_document s _ Hi Hm Hf)|].
  destruct (loadEntries_appends m (with_userStates [] s))
    as (loaded & Hload & Hall); [done|].
  cbn [userStates with_userStates app] in Hload.
  destruct (reloaded_keys m loaded Hall) as [Hkeys Hget].
  cbn [userStates with_initialized]. rewrite Hload.
  split; [exact Hkeys|].
  intros k state Hk. destruct (Hget k state Hk) as [now Hnow].
  exists (reloaded now k state), now. split; [exact Hnow|].
  split; [|split].
  - intros f Hin Hdef. unfold get at 1. rewrite reloaded_lookup.
    rewrite bool_decide_eq_true_2 by done.
    apply strict_eq_false in Hdef. by rewrite Hdef.
  - intros f Hin Hundef. rewrite reloaded_lookup.
    rewrite bool_decide_eq_true_2 by done.
    apply strict_eq_true in Hundef. by rewrite Hundef.
  - intros f Hout. rewrite reloaded_lookup.
    by rewrite bool_decide_eq_false_2.
Qed.

End Reload.

(** ** Keys *)

Lemma string_app_nil_l (s : string) : EmptyString ++ s = s.
Proof. reflexivity. Qed.

Lemma string_app_cons (c : ascii) (a b : string) :
  String c a ++ b = String c (a ++ b).
Proof. reflexivity. Qed.

Lemma string_length_app (a b : string) :
  String.length (a ++ b) = (String.length a + String.length b)%nat.
Proof. induction a as [|c a IH]; simpl; [done|]. by rewrite IH. Qed.

Lemma string_app_inj_r (t g g' : string) : g ++ t = g' ++ t → g = g'.
Proof.
  revert g'. induction g as [|a g IH]; intros [|b g'] Heq; simpl in Heq.
  - done.
  - apply (f_equal String.length) in Heq.
    rewrite !string_length_app in Heq. simpl in Heq. lia.
  - apply (f_equal String.length) in Heq.
    rewrite !string_length_app in Heq. simpl in Heq. lia.
  - change (String a (g ++ t) = String b (g' ++ t)) in Heq.
    injection Heq as -> Heq. f_equal. by apply IH.
Qed.

Lemma getUserKey_guild_inj (userId guildId guildId' : string) :
  UserStateManager.getUserKey userId guildId
  = UserStateManager.getUserKey userId guildId' →
  guildId = guildId'.
Proof. unfold UserStateManager.getUserKey. apply string_app_inj_r. Qed.

(** X13. Ids without a dash give distinct keys: when neither guild id has
    a dash in it, two calls of [getUserKey] return the same key only for
    the same user and the same guild.  (With a dash in a guild id, user
    "c" of guild "a-b" and user "b-c" of guild "a" share a key.) *)
Theorem X13_getUserKey_injective (userId guildId userId' guildId' : string) :
  hasDash guildId = false →
  hasDash guildId' = false →
  UserStateManager.getUserKey userId guildId
  = UserStateManager.getUserKey userId' guildId' →
  userId = userId' ∧ guildId = guildId'.
Proof.
  unfold UserStateManager.getUserKey.
  revert guildId'. induction guildId as [|a g IH]; intros [|b g'];
    simpl; repeat (rewrite string_app_cons || rewrite string_app_nil_l);
    intros Hg Hg' Heq.
  - by injection Heq as ->.
  - injection Heq as <- _. by rewrite bool_decide_eq_true_2 in Hg'.
  - injection Heq as -> _. by rewrite bool_decide_eq_true_2 in Hg.
  - injection Heq as -> Heq.
    apply orb_false_elim in Hg as [_ Hg].
    apply orb_false_elim in Hg' as [_ Hg'].
    destruct (IH g' Hg Hg' Heq) as [-> ->]. done.
Qed.

Example getUserKey_collision :
  UserStateManager.getUserKey "c" "a-b" = UserStateManager.getUserKey "b-c" "a".
Proof. reflexivity. Qed.

Section KeysAndFields.
Context `{Runtime}.
Import UserStateManager.

Lemma Map_get_Some_elem {V} (m : list (string * V)) (k : string) (v : V) :
  Map_get k m = Some v → v ∈ List.map snd m.
Proof.
  induction m as [|[k' v'] m IH]; simpl; [intros Hx; discriminate Hx|].
  case_bool_decide.
  - intros [= ->]. by left.
  - intros Hm. right. by apply IH.
Qed.

(** X14. A patch never moves a record (from a manager that initialises
    and whose write succeeds, with no property named toJSON or __proto__
    in the loaded records and in the patch): when the patch of
    [updateUserState] sets guildId to another guild, the record stays
    under the key of the guild it was addressed by, where [getUserState]
    still finds it, while [getGuildUserStates] lists it for the guild its
    property names and not for the guild of its key. *)
Theorem X14_patch_does_not_rekey (s s1 : state)
    (userId guildId guildId' : string) (updates : obj) :
  initialize s = (Normal tt, s1) →
  writeFault s1 = None →
  allKeep "toJSON" (userStates s1) →
  keepsMethod "toJSON" updates →
  updates !! "guildId" = Some (VStr guildId') →
  guildId' ≠ guildId →
  ∃ r s2 shown hidden,
    updateUserState userId guildId (Some updates) s = (Normal r, s2)
    ∧ get r "guildId" = VStr guildId'
    ∧ getUserState userId guildId s2 = (Normal (Some r), s2)
    ∧ getUserState userId guildId' s2
      = (Normal (Map_get (getUserKey userId guildId') (userStates s1)), s2)
    ∧ getGuildUserStates guildId' s2 = (Normal shown, s2)
    ∧ r ∈ shown
    ∧ getGuildUserStates guildId s2 = (Normal hidden, s2)
    ∧ r ∉ hidden.
Proof.
  intros Hi Hw Hkeep Hkp Hpatch Hne.
  destruct (initialize_post s s1 Hi) as [Hd _].
  destruct (updateUserState_run s1 userId guildId updates Hd Hw Hkeep Hkp)
    as (s2 & Hrun & Hm & Hd2 & _).
  set (r := Object_assign
              (default (UserState.new (clock s1 (ticks s1)) (VStr userId)
                          (VStr guildId))
                 (Map_get (getUserKey userId guildId) (userStates s1)))
              updates) in *.
  assert (Hguild : get r "guildId" = VStr guildId')
    by (by apply Object_assign_get_Some).
  assert (Hget : Map_get (getUserKey userId guildId) (userStates s2) = Some r).
  { rewrite Hm. apply Map_get_set_eq. }
  pose proof (initialize_done s2 Hd2) as Hi2.
  exists r, s2. do 2 eexists.
  split; [by rewrite (updateUserState_lazy s s1 _ _ _ Hi)|].
  split; [exact Hguild|].
  split; [by rewrite (getUserState_run s2 s2), Hget|].
  split.
  { rewrite (getUserState_run s2 s2) by done. rewrite Hm.
    rewrite Map_get_set_ne; [done|].
    intros Heq. apply Hne. symmetry. by apply (getUserKey_guild_inj userId). }
  split; [by apply getGuildUserStates_run|]. split.
  { apply list_elem_of_In, List.filter_In. split.
    - apply list_elem_of_In. by apply (Map_get_Some_elem _ _ _ Hget).
    - unfold ofGuild. by apply bool_decide_eq_true_2. }
  split; [by apply getGuildUserStates_run|].
  intros Hin. apply list_elem_of_In, List.filter_In in Hin as [_ Hin].
  unfold ofGuild in Hin. apply bool_decide_eq_true in Hin.
  rewrite Hguild in Hin. injection Hin as Hin. done.
Qed.

(** X15. [isComplete] after [completeStep]: true after "tutorial", false
    after "rules" and after "github" (also on a record that was complete,
    whose tutorialCompleted and onboardingCompletedAt then stay as they
    were), and as before after any other step. *)
Theorem X15_isComplete_after_completeStep (now : Z) (step : value)
    (this : obj) :
  UserState.isComplete (UserState.completeStep now step this)
  = (if strict_eq step (VStr "tutorial") then true
     else if strict_eq step (VStr "rules") || strict_eq step (VStr "github")
          then false
          else UserState.isComplete this)
  ∧ (step = VStr "rules" ∨ step = VStr "github" →
     get (UserState.completeStep now step this) "tutorialCompleted"
     = get this "tutorialCompleted"
     ∧ get (UserState.completeStep now step this) "onboardingCompletedAt"
       = get this "onboardingCompletedAt").
Proof.
  split.
  - unfold UserState.isComplete.
    destruct (decide (step = VStr "rules")) as [->|Hr].
    { rewrite completeStep_rules, get_insert_eq. done. }
    destruct (decide (step = VStr "github")) as [->|Hg].
    { rewrite completeStep_github, get_insert_eq. done. }
    destruct (decide (step = VStr "tutorial")) as [->|Ht].
    { rewrite completeStep_tutorial.
      rewrite get_insert_ne by done. rewrite get_insert_eq. done. }
    rewrite completeStep_other by done.
    apply strict_eq_false in Hr, Hg, Ht. by rewrite Hr, Hg, Ht.
  - intros [-> | ->].
    + rewrite completeStep_rules.
      by repeat (rewrite get_insert_ne by done).
    + rewrite completeStep_github.
      by repeat (rewrite get_insert_ne by done).
Qed.

End KeysAndFields.

(** ** Records that have lost a method

    [Object.assign] copies every property of a patch onto the record, also
    one that has the name of a method of the record. *)

Section LostMethods.
Context `{Runtime}.
Import UserStateManager.



(** X23. A record with a property named completeStep (or with __proto__
    null) cannot be completed: [markStepComplete] for its user and guild
    throws the TypeError of the call [state.completeStep(step)], with the
    map and the file untouched and nothing written.  A patch of
    [updateUserState] that names completeStep is how a record gets there:
    after such an update, whatever its own outcome, [markStepComplete] for
    the same user and guild throws. *)
Theorem X23_record_named_completeStep (s s1 : state)
    (userId guildId : string) (step : value) :
  initialize s = (Normal tt, s1) →
  let key := getUserKey userId guildId in
  (∀ st : obj,
     Map_get key (userStates s1) = Some st →
     is_Some (st !! "completeStep") ∨ st !! "__proto__" = Some VNull →
     markStepComplete userId guildId step s = (Throw TypeError, s1))
  ∧ (∀ updates : obj,
       is_Some (updates !! "completeStep") →
       let s2 := (updateUserState userId guildId (Some updates) s).2 in
       markStepComplete userId guildId step s2 = (Throw TypeError, s2)).
Proof.
  intros Hi key. destruct (initialize_post s s1 Hi) as [Hd _].
  assert (Hthrow : ∀ s' st',
            initialized s' = true →
            Map_get key (userStates s') = Some st' →
            is_Some (st' !! "completeStep") ∨ st' !! "__proto__" = Some VNull →
            markStepComplete userId guildId step s' = (Throw TypeError, s')).
  { intros s' st' Hd' Hfound' Hlost'. unfold markStepComplete.
    unfold bind at 1. rewrite (initialize_done s' Hd'). simpl.
    unfold bind at 1. unfold gets at 1. fold key. rewrite Hfound'. simpl.
    unfold completeStepNow, bind, ret, throw.
    by rewrite (hasMethod_shadowed _ _ Hlost'). }
  split.
  - intros st Hfound Hlost. unfold markStepComplete.
    rewrite (proj1 (after_initialize _ s s1 Hi)).
    rewrite <- (proj2 (after_initialize _ s s1 Hi)).
    by apply (Hthrow s1 st).
  - intros updates [v Hv] s2. subst s2.
    rewrite (updateUserState_lazy s s1 _ _ _ Hi).
    destruct (updateUserState_memory s1 userId guildId updates Hd)
      as (Hm & Hd2 & _ & _).
    fold key in Hm.
    eapply Hthrow; [done| |].
    + rewrite Hm. apply Map_get_set_eq.
    + left. rewrite Object_assign_lookup, Hv. by eexists.
Qed.

End LostMethods.

(** ** Serialising and deserialising, the other way round *)

Section CloneAndConfig.
Context `{Runtime}.

Lemma OnboardingConfig_new_lookup_other (guildId : value) (k : string) :
  k ∉ OnboardingConfig_fields → OnboardingConfig.new guildId !! k = None.
Proof.
  unfold OnboardingConfig_fields. rewrite !not_elem_of_cons.
  intros (? & ? & ? & ? & ? & ? & ? & ? & ? & _).
  unfold OnboardingConfig.new. by repeat (rewrite lookup_insert_ne by done).
Qed.

Lemma literal_lookup (fields : list string) (this : obj) (k : string) :
  NoDup fields →
  UserStateManager.parseObject (project fields this) !! k
  = if bool_decide (k ∈ fields) then Some (get this k) else None.
Proof.
  intros Hnd. rewrite parseObject_lookup by (by rewrite project_keys).
  case_bool_decide.
  - by apply assoc_project_in.
  - by apply assoc_project_notin.
Qed.

(** X16. Deserialising what was serialised: [fromJSON] of the object
    [toJSON] returns has exactly the canonical properties, each with the
    value it has in the record, whatever the clock reads; it serialises to
    the same literal.  This holds for [UserState] and for
    [OnboardingConfig]. *)
Theorem X16_fromJSON_of_toJSON (now now' : Z) (this : obj) :
  let clone :=
    UserState.fromJSON now
      (UserStateManager.parseObject (UserState.toJSON this)) in
  let copy :=
    OnboardingConfig.fromJSON
      (UserStateManager.parseObject (OnboardingConfig.toJSON this)) in
  ((∀ k, clone !! k = if bool_decide (k ∈ UserState_fields)
                      then Some (get this k) else None)
   ∧ UserState.toJSON clone = UserState.toJSON this
   ∧ UserState.fromJSON now'
       (UserStateManager.parseObject (UserState.toJSON this)) = clone)
  ∧ ((∀ k, copy !! k = if bool_decide (k ∈ OnboardingConfig_fields)
                       then Some (get this k) else None)
     ∧ OnboardingConfig.toJSON copy = OnboardingConfig.toJSON this).
Proof.
  intros clone copy.
  assert (Hclone : ∀ t k,
    UserState.fromJSON t
      (UserStateManager.parseObject (UserState.toJSON this)) !! k
    = if bool_decide (k ∈ UserState_fields)
      then Some (get this k) else None).
  { intros t k. rewrite UserState_fromJSON_lookup, UserState_toJSON_project.
    rewrite literal_lookup by apply UserState_fields_NoDup.
    case_bool_decide; [done|]. by apply UserState_new_lookup_other. }
  assert (Hcopy : ∀ k,
    copy !! k = if bool_decide (k ∈ OnboardingConfig_fields)
                then Some (get this k) else None).
  { intros k. subst copy.
    rewrite OnboardingConfig_fromJSON_lookup, OnboardingConfig_toJSON_project.
    rewrite literal_lookup by apply OnboardingConfig_fields_NoDup.
    case_bool_decide; [done|]. by apply OnboardingConfig_new_lookup_other. }
  split; [split; [|split]|split].
  - apply Hclone.
  - rewrite !UserState_toJSON_project. apply project_ext.
    intros k Hk. unfold get at 1. subst clone. rewrite Hclone.
    by rewrite bool_decide_eq_true_2.
  - apply map_eq. intros k. subst clone. by rewrite !Hclone.
  - exact Hcopy.
  - rewrite !OnboardingConfig_toJSON_project. apply project_ext.
    intros k Hk. unfold get at 1. rewrite Hcopy.
    by rewrite bool_decide_eq_true_2.
Qed.


End CloneAndConfig.

(** ** [validate] on any object *)

Section ValidateAnyObject.
Context `{Runtime}.
Import OnboardingConfig.

Lemma isBlank_outcome (v : value) :
  isBlank v = if truthyNonString v then Throw TypeError
              else Normal (match v with
                           | VStr s => blank s
                           | _ => true
                           end).
Proof.
  destruct v as [| |b|n|s]; try done.
  - by destruct b.
  - unfold isBlank, truthyNonString. simpl. by destruct (n =? 0)%Z.
  - rewrite isBlank_string. unfold truthyNonString.
    by rewrite andb_false_r.
Qed.

(** What [validate] returns when it returns: the messages of the checks
    that fail, in the order of the checks. *)
Lemma validate_returns (this : obj) (res : ValidationResult) :
  validate this = Normal res →
  ∃ blankWelcome blankRules,
    isBlank (get this "welcomeMessage") = Normal blankWelcome
    ∧ isBlank (get this "rulesContent") = Normal blankRules
    ∧ errors res
      = ((if negb (ToBoolean (get this "guildId")) then [msgGuildId] else [])
         ++ (if lessThan (get this "reminderIntervalHours") 1
                || greaterThan (get this "reminderIntervalHours") 168
             then [msgInterval] else [])
         ++ (if lessThan (get this "maxReminders") 0
                || greaterThan (get this "maxReminders") 10
             then [msgMaxReminders] else [])
         ++ (if blankWelcome then [msgWelcome] else [])
         ++ (if blankRules then [msgRules] else []))%list
    ∧ isValid res = match errors res with [] => true | _ :: _ => false end.
Proof.
  unfold validate.
  destruct (isBlank (get this "welcomeMessage")) as [bw|e];
    [|intros Hx; discriminate Hx].
  destruct (isBlank (get this "rulesContent")) as [br|e];
    [|intros Hx; discriminate Hx].
  intros [= <-]. exists bw, br. split; [done|]. split; [done|].
  cbn [errors isValid]. rewrite !pushIf_app, length_eqb_0_list.
  rewrite <- !app_assoc. done.
Qed.

(** X18. [validate] throws a TypeError exactly when welcomeMessage or
    rulesContent is truthy and not a string (a non-zero number, [true]),
    since such a value has no [trim]; in every other case, null,
    undefined and the empty string included, it returns a result. *)
Theorem X18_validate_throws (this : obj) :
  match validate this with
  | Throw e =>
      e = TypeError
      ∧ truthyNonString (get this "welcomeMessage")
        || truthyNonString (get this "rulesContent") = true
  | Normal _ =>
      truthyNonString (get this "welcomeMessage")
      || truthyNonString (get this "rulesContent") = false
  end.
Proof.
  unfold validate. rewrite !isBlank_outcome.
  destruct (truthyNonString (get this "welcomeMessage")); [done|].
  by destruct (truthyNonString (get this "rulesContent")).
Qed.

(** X19. The range checks of [validate] only catch numbers out of range:
    a setting that is undefined passes both comparisons, and so does a
    null maxReminders (null counts as 0), while a null
    reminderIntervalHours is reported. *)
Theorem X19_validate_range_checks_coerce (this : obj)
    (res : ValidationResult) :
  validate this = Normal res →
  (get this "reminderIntervalHours" = VUndefined → msgInterval ∉ errors res)
  ∧ (get this "maxReminders" = VUndefined ∨ get this "maxReminders" = VNull →
     msgMaxReminders ∉ errors res)
  ∧ (get this "reminderIntervalHours" = VNull → msgInterval ∈ errors res).
Proof.
  intros Hv.
  destruct (validate_returns this res Hv) as (bw & br & _ & _ & Herr & _).
  rewrite Herr. clear Herr Hv. split; [|split].
  - intros ->. cbn [lessThan greaterThan numberCompare orb].
    destruct (negb (ToBoolean (get this "guildId"))),
      (lessThan (get this "maxReminders") 0
       || greaterThan (get this "maxReminders") 10), bw, br;
      apply (bool_decide_unpack _); vm_compute; exact I.
  - intros Hmax.
    replace (lessThan (get this "maxReminders") 0
             || greaterThan (get this "maxReminders") 10) with false
      by (destruct Hmax as [-> | ->]; reflexivity).
    destruct (negb (ToBoolean (get this "guildId"))),
      (lessThan (get this "reminderIntervalHours") 1
       || greaterThan (get this "reminderIntervalHours") 168), bw, br;
      apply (bool_decide_unpack _); vm_compute; exact I.
  - intros ->.
    replace (lessThan VNull 1 || greaterThan VNull 168) with true
      by reflexivity.
    rewrite !elem_of_app. right; left. cbv iota. by constructor.
Qed.

(** X20. Whatever the config holds, a result of [validate] lists each
    message at most once and in the order of the checks (its errors are a
    sublist of the five messages), and isValid is true exactly when the
    list is empty. *)
Theorem X20_validate_result_shape (this : obj) (res : ValidationResult) :
  validate this = Normal res →
  errors res `sublist_of` allMessages
  ∧ (isValid res = true ↔ errors res = []).
Proof.
  intros Hv.
  destruct (validate_returns this res Hv) as (bw & br & _ & _ & Herr & Hval).
  split.
  - rewrite Herr. unfold allMessages.
    destruct (negb (ToBoolean (get this "guildId"))),
      (lessThan (get this "reminderIntervalHours") 1
       || greaterThan (get this "reminderIntervalHours") 168),
      (lessThan (get this "maxReminders") 0
       || greaterThan (get this "maxReminders") 10), bw, br;
      cbn [app];
      repeat first [ apply sublist_nil | apply sublist_skip
                   | apply sublist_cons ].
  - rewrite Hval. by destruct (errors res).
Qed.

(** X21. [OnboardingConfig.fromJSON] gives every property the data lacks
    the value the constructor gives it, so a config deserialised from
    data that holds only a guildId, when that is truthy, is valid. *)
Theorem X21_config_fromJSON_defaults (data : obj) (k : string) :
  data !! k = None →
  fromJSON data !! k = new (get data "guildId") !! k
  ∧ ∀ guildId : value, ToBoolean guildId = true →
      fromJSON (<["guildId" := guildId]> ∅) = new guildId
      ∧ validate (fromJSON (<["guildId" := guildId]> ∅))
        = Normal {| isValid := true; errors := [] |}.
Proof.
  intros Hk. split.
  { by rewrite OnboardingConfig_fromJSON_lookup, Hk. }
  intros guildId Hg.
  assert (Heq : fromJSON (<["guildId" := guildId]> ∅) = new guildId).
  { apply map_eq. intros f. rewrite OnboardingConfig_fromJSON_lookup.
    rewrite get_insert_eq.
    destruct (decide (f = "guildId")) as [->|Hf].
    - rewrite lookup_insert_eq. unfold new.
      by repeat (rewrite lookup_insert_ne by done); rewrite lookup_insert_eq.
    - by rewrite lookup_insert_ne, lookup_empty. }
  split; [exact Heq|]. rewrite Heq.
  destruct (new_typed guildId) as (Eg & Eh & Em & Ew & Er).
  rewrite (validate_typed _ _ _ _ _ Eh Em Ew Er), Eg.
  unfold expectedResult, expectedErrors.
  by rewrite Hg, default_welcome_not_blank, default_rules_not_blank.
Qed.

End ValidateAnyObject.

(** * The further properties at concrete inputs *)

(** X1 on the three records of the reminder test. *)
Lemma X1_getGuildUserStates_witness :
  @UserStateManager.initialize exampleRuntime reminderManager
  = (Normal tt, reminderManager)
  ∧ ∃ result,
      @UserStateManager.getGuildUserStates exampleRuntime "guild456"
        reminderManager = (Normal result, reminderManager)
      ∧ List.map (fun u => get u "userId") result
        = [VStr "user1"; VStr "user2"; VStr "user3"].
Proof.
  split; [reflexivity|].
  destruct (@X1_getGuildUserStates exampleRuntime reminderManager
              reminderManager "guild456" eq_refl)
    as (result & Hrun & Hres & _).
  exists result. split; [exact Hrun|]. rewrite Hres. reflexivity.
Defined.

(** X2 on the three records of the reminder test. *)
Lemma X2_reminders_among_guild_witness :
  @UserStateManager.initialize exampleRuntime reminderManager
  = (Normal tt, reminderManager)
  ∧ ∃ users s2 guild,
      @UserStateManager.getUsersNeedingReminders exampleRuntime "guild456"
        None reminderManager = (Normal users, s2)
      ∧ @UserStateManager.getGuildUserStates exampleRuntime "guild456"
          reminderManager = (Normal guild, reminderManager)
      ∧ users `sublist_of` guild.
Proof.
  split; [reflexivity|].
  destruct (@X2_reminders_among_guild exampleRuntime reminderManager
              reminderManager "guild456" None eq_refl)
    as (users & s2 & guild & Hu & Hg & _ & Hsub).
  exists users, s2, guild. split; [exact Hu|]. split; [exact Hg|exact Hsub].
Defined.

(** X3 on a manager with no file. *)
Lemma X3_fresh_store_witness :
  UserStateManager.initialized freshManager = false
  ∧ UserStateManager.mkdirFault freshManager = None
  ∧ UserStateManager.userStatesFile freshManager
    = UserStateManager.Unreadable (SystemError "ENOENT")
  ∧ UserStateManager.isENOENT (SystemError "ENOENT") = true
  ∧ (@UserStateManager.getUserState exampleRuntime "user123" "guild456"
       freshManager).1 = Normal None.
Proof.
  repeat (split; [reflexivity|]).
  rewrite (proj1 (@X3_fresh_store exampleRuntime freshManager
                    (SystemError "ENOENT") "user123" "guild456" None
                    eq_refl eq_refl eq_refl eq_refl)).
  reflexivity.
Defined.

(** X4 on a file that does not parse. *)
Lemma X4_initialize_error_propagates_witness :
  UserStateManager.initialized brokenManager = false
  ∧ (UserStateManager.mkdirFault brokenManager = None
     ∧ UserStateManager.userStatesFile brokenManager
       = UserStateManager.Unreadable SyntaxError
     ∧ UserStateManager.isENOENT SyntaxError = false)
  ∧ @UserStateManager.getUserState exampleRuntime "user123" "guild456"
      brokenManager = (Throw SyntaxError, brokenManager).
Proof.
  split; [reflexivity|]. split; [repeat split; reflexivity|].
  apply (@X4_initialize_error_propagates exampleRuntime brokenManager
           SyntaxError "user123" "guild456" None VNull None eq_refl).
  right. repeat split; reflexivity.
Defined.

(** X5 on the reminder test's manager, its file then made unreadable. *)
Lemma X5_file_read_once_witness :
  @UserStateManager.initialize exampleRuntime reminderManager
  = (Normal tt, reminderManager)
  ∧ (@UserStateManager.getUserState exampleRuntime "user9" "guild456"
       (UserStateManager.with_userStatesFile
          (UserStateManager.Unreadable SyntaxError) reminderManager)).1
    = Normal None.
Proof.
  split; [reflexivity|].
  rewrite (proj2 (@X5_file_read_once exampleRuntime reminderManager
                    reminderManager (UserStateManager.Unreadable SyntaxError)
                    "user9" "guild456" eq_refl)).
  reflexivity.
Defined.

(** X6 on the manager that can no longer write. *)
Lemma X6_failed_write_keeps_memory_witness :
  let patch : obj := <["remindersSent" := VNum 1]> ∅ in
  @UserStateManager.initialize exampleRuntime readOnlyManager
  = (Normal tt, readOnlyManager)
  ∧ UserStateManager.writeFault readOnlyManager = Some (SystemError "EACCES")
  ∧ allKeep "toJSON" (UserStateManager.userStates readOnlyManager)
  ∧ keepsMethod "toJSON" patch
  ∧ ∃ s2 r,
      @UserStateManager.updateUserState exampleRuntime "user1" "guild456"
        (Some patch) readOnlyManager
      = (Throw (SystemError "EACCES"), s2)
      ∧ @UserStateManager.getUserState exampleRuntime "user1" "guild456" s2
        = (Normal (Some r), s2)
      ∧ get r "remindersSent" = VNum 1.
Proof.
  intros patch.
  assert (Hkeep : allKeep "toJSON"
                    (UserStateManager.userStates readOnlyManager)).
  { repeat (apply Forall_cons; split; [split; reflexivity|]).
    apply Forall_nil; exact I. }
  assert (Hpatch : keepsMethod "toJSON" patch) by (split; reflexivity).
  split; [reflexivity|]. split; [reflexivity|].
  split; [exact Hkeep|]. split; [exact Hpatch|].
  destruct (@X6_failed_write_keeps_memory exampleRuntime readOnlyManager
              readOnlyManager (SystemError "EACCES") "user1" "guild456"
              patch eq_refl eq_refl Hkeep Hpatch)
    as [(s2 & Hrun & _ & Hget) _].
  exists s2. eexists. split; [exact Hrun|]. split; [exact Hget|].
  apply Object_assign_get_Some. reflexivity.
Defined.

(** X7 for a new user of the reminder test's manager. *)
Lemma X7_updateUserState_frame_witness :
  @UserStateManager.initialize exampleRuntime reminderManager
  = (Normal tt, reminderManager)
  ∧ List.map fst
      (UserStateManager.userStates
         (@UserStateManager.updateUserState exampleRuntime "user4" "guild456"
            (Some ∅) reminderManager).2)
    = ["guild456-user1"; "guild456-user2"; "guild456-user3";
       "guild456-user4"].
Proof.
  split; [reflexivity|].
  destruct (@X7_updateUserState_frame exampleRuntime reminderManager
              reminderManager "user4" "guild456" ∅ eq_refl)
    as (_ & _ & Hnew & _).
  rewrite Hnew; reflexivity.
Defined.

(** X8 with a step that is not known, for a user that is not in the map. *)
Lemma X8_markStepComplete_witness :
  let s1 := (@UserStateManager.initialize exampleRuntime freshManager).2 in
  @UserStateManager.initialize exampleRuntime freshManager = (Normal tt, s1)
  ∧ UserStateManager.writeFault s1 = None
  ∧ allKeep "toJSON" (UserStateManager.userStates s1)
  ∧ allKeep "completeStep" (UserStateManager.userStates s1)
  ∧ ∃ r s2,
      @UserStateManager.markStepComplete exampleRuntime "user123" "guild456"
        (VStr "welcome") freshManager = (Normal r, s2)
      ∧ List.map fst (UserStateManager.userStates s2) = ["guild456-user123"]
      ∧ get r "onboardingStep" = VStr "welcome".
Proof.
  intros s1.
  assert (Hjson : allKeep "toJSON" (UserStateManager.userStates s1))
    by apply Forall_nil_2.
  assert (Hstep : allKeep "completeStep" (UserStateManager.userStates s1))
    by apply Forall_nil_2.
  split; [reflexivity|]. split; [reflexivity|].
  split; [exact Hjson|]. split; [exact Hstep|].
  destruct (@X8_markStepComplete exampleRuntime freshManager s1
              "user123" "guild456" (VStr "welcome") eq_refl eq_refl
              Hjson Hstep)
    as (r & s2 & Hrun & _ & _ & _ & _ & Hfresh).
  destruct Hfresh as [Hr Hm];
    [reflexivity | discriminate | discriminate | discriminate |].
  exists r, s2. split; [exact Hrun|].
  rewrite Hm, Hr. split; reflexivity.
Defined.

(** X9 with the step "complete" for user1 of the reminder test. *)
Lemma X9_setOnboardingStep_witness :
  @UserStateManager.initialize exampleRuntime reminderManager
  = (Normal tt, reminderManager)
  ∧ UserStateManager.writeFault reminderManager = None
  ∧ allKeep "toJSON" (UserStateManager.userStates reminderManager)
  ∧ ∃ r s2,
      @UserStateManager.setOnboardingStep exampleRuntime "user1" "guild456"
        (VStr "complete") reminderManager = (Normal r, s2)
      ∧ UserState.isComplete r = true
      ∧ r !! "tutorialCompleted" = Some (VBool false).
Proof.
  assert (Hkeep : allKeep "toJSON"
                    (UserStateManager.userStates reminderManager)).
  { repeat (apply Forall_cons; split; [split; reflexivity|]).
    apply Forall_nil; exact I. }
  split; [reflexivity|]. split; [reflexivity|]. split; [exact Hkeep|].
  destruct (@X9_setOnboardingStep exampleRuntime reminderManager
              reminderManager "user1" "guild456" (VStr "complete")
              eq_refl eq_refl Hkeep)
    as (r & s2 & Hrun & _ & _ & Hframe & Hcomplete).
  exists r, s2. split; [exact Hrun|]. split; [exact Hcomplete|].
  rewrite Hframe by discriminate. reflexivity.
Defined.

(** X10 for user2 of the reminder test. *)
Lemma X10_update_delete_compose_witness :
  @UserStateManager.initialize exampleRuntime reminderManager
  = (Normal tt, reminderManager)
  ∧ UserStateManager.writeFault reminderManager = None
  ∧ allKeep "toJSON" (UserStateManager.userStates reminderManager)
  ∧ keepsMethod "toJSON" (∅ : obj)
  ∧ ∃ s2 r s3,
      @UserStateManager.deleteUserState exampleRuntime "user2" "guild456"
        reminderManager = (Normal tt, s2)
      ∧ @UserStateManager.updateUserState exampleRuntime "user2" "guild456"
          (Some ∅) s2 = (Normal r, s3)
      ∧ get r "rulesAcknowledged" = VBool false
      ∧ List.map fst (UserStateManager.userStates s3)
        = ["guild456-user1"; "guild456-user3"; "guild456-user2"].
Proof.
  assert (Hkeep : allKeep "toJSON"
                    (UserStateManager.userStates reminderManager)).
  { repeat (apply Forall_cons; split; [split; reflexivity|]).
    apply Forall_nil; exact I. }
  assert (Hpatch : keepsMethod "toJSON" (∅ : obj)) by (split; reflexivity).
  split; [reflexivity|]. split; [reflexivity|].
  split; [exact Hkeep|]. split; [exact Hpatch|].
  destruct (@X10_update_delete_compose exampleRuntime reminderManager
              reminderManager "user2" "guild456" ∅ eq_refl eq_refl
              Hkeep Hpatch)
    as [_ (s2 & r & s3 & Hdel & Hupd & Hr & Hm)].
  exists s2, r, s3. split; [exact Hdel|]. split; [exact Hupd|].
  rewrite Hm, Hr. split; reflexivity.
Defined.

(** X11 on the reminder test's manager. *)
Lemma X11_keys_stay_distinct_witness :
  NoDup (List.map fst (UserStateManager.userStates reminderManager))
  ∧ NoDup (List.map fst
             (UserStateManager.userStates
                (@UserStateManager.deleteUserState exampleRuntime "user2"
                   "guild456" reminderManager).2)).
Proof.
  assert (Hnd : NoDup (List.map fst
                         (UserStateManager.userStates reminderManager))).
  { apply (bool_decide_unpack _). vm_compute. exact I. }
  split; [exact Hnd|].
  apply (@X11_keys_stay_distinct exampleRuntime reminderManager
           "user2" "guild456" ∅ VNull None Hnd).
Defined.

(** X12 on a manager restarted on the file of the reminder test. *)
Lemma X12_save_then_load_witness :
  NoDup (List.map fst (UserStateManager.userStates reminderManager))
  ∧ UserStateManager.initialized restartedManager = false
  ∧ UserStateManager.mkdirFault restartedManager = None
  ∧ UserStateManager.userStatesFile restartedManager
    = @persisted (UserStateManager.userStates reminderManager)
  ∧ ∃ s1,
      @UserStateManager.initialize exampleRuntime restartedManager
      = (Normal tt, s1)
      ∧ List.map fst (UserStateManager.userStates s1)
        = ["guild456-user1"; "guild456-user2"; "guild456-user3"].
Proof.
  assert (Hnd : NoDup (List.map fst
                         (UserStateManager.userStates reminderManager))).
  { apply (bool_decide_unpack _). vm_compute. exact I. }
  split; [exact Hnd|]. repeat (split; [reflexivity|]).
  destruct (@X12_save_then_load exampleRuntime restartedManager
              (UserStateManager.userStates reminderManager)
              Hnd eq_refl eq_refl eq_refl)
    as (s1 & Hrun & Hkeys & _).
  exists s1. split; [exact Hrun|]. rewrite Hkeys. reflexivity.
Defined.

(** X13 for two spellings of one key. *)
Lemma X13_getUserKey_injective_witness :
  hasDash "guild456" = false
  ∧ UserStateManager.getUserKey "user123" "guild456"
    = UserStateManager.getUserKey "user123" "guild456"
  ∧ "user123" = "user123".
Proof.
  split; [reflexivity|]. split; [reflexivity|].
  apply (X13_getUserKey_injective "user123" "guild456" "user123" "guild456"
           eq_refl eq_refl eq_refl).
Defined.

(** X14 for user1 of the reminder test, patched to another guild. *)
Lemma X14_patch_does_not_rekey_witness :
  let patch : obj := <["guildId" := VStr "otherGuild"]> ∅ in
  @UserStateManager.initialize exampleRuntime reminderManager
  = (Normal tt, reminderManager)
  ∧ UserStateManager.writeFault reminderManager = None
  ∧ allKeep "toJSON" (UserStateManager.userStates reminderManager)
  ∧ keepsMethod "toJSON" patch
  ∧ patch !! "guildId" = Some (VStr "otherGuild")
  ∧ "otherGuild" ≠ "guild456"
  ∧ ∃ r s2,
      @UserStateManager.updateUserState exampleRuntime "user1" "guild456"
        (Some patch) reminderManager
      = (Normal r, s2)
      ∧ @UserStateManager.getUserState exampleRuntime "user1" "guild456" s2
        = (Normal (Some r), s2)
      ∧ get r "guildId" = VStr "otherGuild".
Proof.
  intros patch.
  assert (Hkeep : allKeep "toJSON"
                    (UserStateManager.userStates reminderManager)).
  { repeat (apply Forall_cons; split; [split; reflexivity|]).
    apply Forall_nil; exact I. }
  assert (Hkp : keepsMethod "toJSON" patch) by (split; reflexivity).
  assert (Hpatch : patch !! "guildId" = Some (VStr "otherGuild"))
    by reflexivity.
  assert (Hne : "otherGuild" ≠ "guild456") by discriminate.
  split; [reflexivity|]. split; [reflexivity|]. split; [exact Hkeep|].
  split; [exact Hkp|]. split; [exact Hpatch|]. split; [exact Hne|].
  destruct (@X14_patch_does_not_rekey exampleRuntime reminderManager
              reminderManager "user1" "guild456" "otherGuild" patch
              eq_refl eq_refl Hkeep Hkp Hpatch Hne)
    as (r & s2 & _ & _ & Hrun & Hguild & Hget & _).
  exists r, s2. split; [exact Hrun|]. split; [exact Hget|exact Hguild].
Defined.


(** X23 for user1 of the reminder test, after a patch that names
    completeStep. *)
Lemma X23_record_named_completeStep_witness :
  @UserStateManager.initialize exampleRuntime reminderManager
  = (Normal tt, reminderManager)
  ∧ @UserStateManager.markStepComplete exampleRuntime "user1" "guild456"
      (VStr "rules") shadowedManager = (Throw TypeError, shadowedManager).
Proof.
  split; [reflexivity|].
  apply (proj2 (@X23_record_named_completeStep exampleRuntime reminderManager
                  reminderManager "user1" "guild456" (VStr "rules") eq_refl)
           {["completeStep" := VBool true]}).
  exists (VBool true). reflexivity.
Defined.

(** X19 on a default config whose reminderIntervalHours is undefined. *)
Lemma X19_validate_range_checks_coerce_witness :
  let this :=
    <["reminderIntervalHours" := VUndefined]>
      (OnboardingConfig.new (VStr "guild123")) in
  let res := {| OnboardingConfig.isValid := true;
                OnboardingConfig.errors := [] |} in
  @OnboardingConfig.validate exampleRuntime this = Normal res
  ∧ OnboardingConfig.msgInterval ∉ OnboardingConfig.errors res.
Proof.
  intros this res.
  assert (Hv : @OnboardingConfig.validate exampleRuntime this = Normal res)
    by (vm_compute; reflexivity).
  split; [exact Hv|].
  apply (proj1 (@X19_validate_range_checks_coerce exampleRuntime this res Hv)).
  reflexivity.
Defined.

(** X20 on a config with two violations. *)
Lemma X20_validate_result_shape_witness :
  let this :=
    <["rulesContent" := VStr EmptyString]>
      (<["reminderIntervalHours" := VNum 0]>
         (OnboardingConfig.new (VStr "guild123"))) in
  let res := {| OnboardingConfig.isValid := false;
                OnboardingConfig.errors :=
                  [OnboardingConfig.msgInterval; OnboardingConfig.msgRules] |} in
  @OnboardingConfig.validate exampleRuntime this = Normal res
  ∧ OnboardingConfig.errors res `sublist_of` allMessages.
Proof.
  intros this res.
  assert (Hv : @OnboardingConfig.validate exampleRuntime this = Normal res)
    by (vm_compute; reflexivity).
  split; [exact Hv|].
  apply (proj1 (@X20_validate_result_shape exampleRuntime this res Hv)).
Defined.

(** X21 for data that holds a guildId only. *)
Lemma X21_config_fromJSON_defaults_witness :
  let data : obj := <["guildId" := VStr "guild123"]> ∅ in
  data !! "maxReminders" = None
  ∧ OnboardingConfig.fromJSON data !! "maxReminders" = Some (VNum 3).
Proof.
  intros data. split; [reflexivity|].
  rewrite (proj1 (@X21_config_fromJSON_defaults exampleRuntime data
                    "maxReminders" eq_refl)).
  reflexivity.
Defined.
